(** * Garmin bulk-export importer: a shallow embedding and its properties

    The development follows [garmin_bulk_importer.py]: the string and
    date helpers the importer relies on, the JSON values it reads, the
    export directory it walks, the [GarminBulkExport] facade with its
    loaders and queries, and then the properties of the specification,
    one theorem per claim. *)

From Stdlib Require Import ZArith QArith Qabs String Ascii List Bool Lia.
From stdpp Require Import gmap strings list fin_maps sorting.

Local Open Scope Z_scope.

(** ** Exceptions and results *)

(** The exceptions the importer can raise.  [GarminBulkImporterError] is
    the importer's own class (raised by [fail]); the others are the
    built-in exceptions of the operations the code performs. *)
Inductive exn :=
| GarminBulkImporterError (msg : string)
| RuntimeError (msg : string)
| KeyError (key : string)
| ValueError (msg : string)
| TypeError (msg : string)
| AttributeError (msg : string)
| IndexError
| FileNotFoundError (p : string).

Inductive result (A : Type) :=
| Ok (a : A)
| Err (e : exn).
Arguments Ok {A} a.
Arguments Err {A} e.

Definition rbind {A B} (r : result A) (k : A → result B) : result B :=
  match r with Ok a => k a | Err e => Err e end.

#[global] Instance result_ret : MRet result := fun _ a => Ok a.
#[global] Instance result_bind : MBind result := fun _ _ k r => rbind r k.

Definition is_Ok {A} (r : result A) : bool :=
  match r with Ok _ => true | Err _ => false end.

Definition of_option {A} (o : option A) (e : exn) : result A :=
  match o with Some a => Ok a | None => Err e end.

(** A [for] loop that threads an accumulator and stops at the first
    exception. *)
Fixpoint rfold {A S} (f : S → A → result S) (s : S) (l : list A) : result S :=
  match l with
  | [] => Ok s
  | a :: l' => s' ← f s a; rfold f s' l'
  end.

(** ** Strings *)

Module Str.

Definition code (c : ascii) : Z := Z.of_N (N_of_ascii c).

(** [str.isspace] on the ASCII range: tab to carriage return, the four
    separators 0x1c-0x1f, and the space. *)
Definition isspace (c : ascii) : bool :=
  let n := code c in
  ((9 <=? n) && (n <=? 13)) || ((28 <=? n) && (n <=? 32)).

Fixpoint lstrip (s : string) : string :=
  match s with
  | String c s' => if isspace c then lstrip s' else s
  | EmptyString => EmptyString
  end.

Fixpoint rstrip (s : string) : string :=
  match s with
  | String c s' =>
      match rstrip s' with
      | EmptyString => if isspace c then EmptyString else String c EmptyString
      | r => String c r
      end
  | EmptyString => EmptyString
  end.

(** [s.strip()] *)
Definition strip (s : string) : string := rstrip (lstrip s).

Definition lower_char (c : ascii) : ascii :=
  let n := code c in
  if (65 <=? n) && (n <=? 90) then ascii_of_N (Z.to_N (n + 32)) else c.

(** [s.lower()] on ASCII text *)
Fixpoint lower (s : string) : string :=
  match s with
  | String c s' => String (lower_char c) (lower s')
  | EmptyString => EmptyString
  end.

Fixpoint startswith (p s : string) : bool :=
  match p, s with
  | EmptyString, _ => true
  | String a p', String b s' => Ascii.eqb a b && startswith p' s'
  | String _ _, EmptyString => false
  end.

(** [s.endswith(suffix)] *)
Fixpoint endswith (suffix s : string) : bool :=
  String.eqb suffix s ||
  match s with
  | String _ s' => endswith suffix s'
  | EmptyString => false
  end.

(** [s.split("/")[-1]]: what follows the last slash. *)
Fixpoint last_component (s : string) : string :=
  match s with
  | String c s' =>
      if existsb (Ascii.eqb "/") (list_ascii_of_string s') then last_component s'
      else if Ascii.eqb c "/" then s' else s
  | EmptyString => EmptyString
  end.

(** The patterns given to [re.search] are built from literal
    characters, [.] and [.*] only. *)
Inductive tok := Lit (c : ascii) | Dot | DotStar.

Definition newline : ascii := ascii_of_N 10.

Definition dot_ok (c : ascii) : bool := negb (Ascii.eqb c newline).

Fixpoint match_here (p : list tok) : string → bool :=
  match p with
  | [] => fun _ => true
  | Lit c :: p' => fun s =>
      match s with
      | String d s' => Ascii.eqb c d && match_here p' s'
      | EmptyString => false
      end
  | Dot :: p' => fun s =>
      match s with
      | String d s' => dot_ok d && match_here p' s'
      | EmptyString => false
      end
  | DotStar :: p' =>
      fix star (s : string) : bool :=
        match_here p' s ||
        match s with
        | String d s' => dot_ok d && star s'
        | EmptyString => false
        end
  end.

(** [re.search(p, s)] as a truth value: the pattern matches at some
    position. *)
Fixpoint search (p : list tok) (s : string) : bool :=
  match_here p s ||
  match s with
  | String _ s' => search p s'
  | EmptyString => false
  end.

End Str.

(** ** Decimal fields *)

Module Dec.

Definition digit (n : Z) : ascii := ascii_of_N (Z.to_N (48 + n)).

Definition digit_val (c : ascii) : option Z :=
  let n := Str.code c in
  if (48 <=? n) && (n <=? 57) then Some (n - 48) else None.

(** The [w] low decimal digits of [n], most significant first, put in
    front of [tail]: the [%0wd] of the format strings. *)
Fixpoint digits (w : nat) (n : Z) (tail : string) : string :=
  match w with
  | O => tail
  | S w' => digits w' (n / 10) (String (digit (n mod 10)) tail)
  end.

Definition pad (w : nat) (n : Z) : string := digits w n EmptyString.

(** Reads exactly [w] decimal digits. *)
Fixpoint take (w : nat) (s : string) (acc : Z) : option (Z * string) :=
  match w with
  | O => Some (acc, s)
  | S w' =>
      match s with
      | String c s' =>
          match digit_val c with
          | Some v => take w' s' (acc * 10 + v)
          | None => None
          end
      | EmptyString => None
      end
  end.

(** Reads one or two decimal digits, two when two are there: the
    numeric directives of [strptime] accept an unpadded field. *)
Definition take12 (s : string) : option (Z * string) :=
  match take 2 s 0 with
  | Some r => Some r
  | None => take 1 s 0
  end.

Definition expect (c : ascii) (s : string) : option string :=
  match s with
  | String d s' => if Ascii.eqb c d then Some s' else None
  | EmptyString => None
  end.

(** [str(n)] for an integer. *)
Fixpoint of_pos_fuel (fuel : nat) (n : Z) (tail : string) : string :=
  match fuel with
  | O => tail
  | S f =>
      let tail' := String (digit (n mod 10)) tail in
      if n / 10 =? 0 then tail' else of_pos_fuel f (n / 10) tail'
  end.

Definition of_Z (n : Z) : string :=
  if n <? 0 then String "-" (of_pos_fuel (Z.to_nat (Z.log2 (- n)) + 1) (- n) EmptyString)
  else of_pos_fuel (Z.to_nat (Z.log2 n) + 1) n EmptyString.

End Dec.

(** ** JSON values *)

(** What [json.load] returns: [None], booleans, integers, strings, lists
    and dictionaries.  Numbers are the integers; the export's fractional
    numbers are outside the model. *)
#[warnings="-register-all"]
Inductive json :=
| JNull
| JBool (b : bool)
| JNum (n : Z)
| JStr (s : string)
| JArr (l : list json)
| JObj (o : gmap string json).

(** A Python dictionary with string keys. *)
Abbreviation pydict := (gmap string json).

(** Truth value of a Python object, as [if x], [not x] and [x or y]
    take it. *)
Definition truthy (j : json) : bool :=
  match j with
  | JNull => false
  | JBool b => b
  | JNum n => negb (n =? 0)
  | JStr s => negb (String.eqb s "")
  | JArr l => match l with [] => false | _ => true end
  | JObj o => negb (bool_decide (o = ∅))
  end.

(** [d[k]]: a missing key raises [KeyError]. *)
Definition getitem (d : pydict) (k : string) : result json :=
  of_option (d !! k) (KeyError k).

(** [d.get(k, default)] *)
Definition get_default (d : pydict) (k : string) (dflt : json) : json :=
  match d !! k with Some v => v | None => dflt end.

(** [d.get(k)]: [None] when the key is missing. *)
Definition get (d : pydict) (k : string) : json := get_default d k JNull.

(** [k in d] *)
Definition contains (d : pydict) (k : string) : bool :=
  match d !! k with Some _ => true | None => false end.

(** A value used as a dictionary: the per-day objects of the export are
    JSON objects; subscripting anything else by a key is a type error. *)
Definition as_dict (j : json) : result pydict :=
  match j with
  | JObj o => Ok o
  | _ => Err (TypeError "string key on a value that is not a dict")
  end.

(** [for x in data] over a parsed JSON document that is a list. *)
Definition as_list (j : json) : result (list json) :=
  match j with
  | JArr l => Ok l
  | _ => Err (TypeError "iteration over a value that is not a list")
  end.

(** A value used as a string ([.strip()], a date to parse). *)
Definition as_str (j : json) : result string :=
  match j with
  | JStr s => Ok s
  | _ => Err (AttributeError "string method on a value that is not a str")
  end.

(** ** Dates and times *)

(** Python's [datetime]: the calendar fields and an optional UTC offset
    (in seconds; [None] for a naive value, [Some 0] for
    [timezone.utc]).  The calendar arithmetic follows the standard
    library's own ([_ymd2ord], [_ord2ymd], ...). *)
Module Datetime.

Record datetime := mk {
  year : Z; month : Z; day : Z;
  hour : Z; minute : Z; second : Z; microsecond : Z;
  tzinfo : option Z
}.

Definition utc : option Z := Some 0.

Definition _is_leap (y : Z) : bool :=
  (y mod 4 =? 0) && (negb (y mod 100 =? 0) || (y mod 400 =? 0)).

Definition _DAYS_IN_MONTH (m : Z) : Z :=
  nth (Z.to_nat m) [-1; 31; 28; 31; 30; 31; 30; 31; 31; 30; 31; 30; 31] (-1).

Definition _DAYS_BEFORE_MONTH (m : Z) : Z :=
  nth (Z.to_nat m) [-1; 0; 31; 59; 90; 120; 151; 181; 212; 243; 273; 304; 334] (-1).

Definition _days_in_month (y m : Z) : Z :=
  if (m =? 2) && _is_leap y then 29 else _DAYS_IN_MONTH m.

Definition _days_before_year (y : Z) : Z :=
  let y := y - 1 in y * 365 + y / 4 - y / 100 + y / 400.

Definition _days_before_month (y m : Z) : Z :=
  _DAYS_BEFORE_MONTH m + (if (2 <? m) && _is_leap y then 1 else 0).

Definition _ymd2ord (y m d : Z) : Z :=
  _days_before_year y + _days_before_month y m + d.

Definition _DI400Y : Z := 146097.
Definition _DI100Y : Z := 36524.
Definition _DI4Y : Z := 1461.

Definition _ord2ymd (n : Z) : Z * Z * Z :=
  let n := n - 1 in
  let n400 := n / _DI400Y in
  let n := n mod _DI400Y in
  let year := n400 * 400 + 1 in
  let n100 := n / _DI100Y in
  let n := n mod _DI100Y in
  let n4 := n / _DI4Y in
  let n := n mod _DI4Y in
  let n1 := n / 365 in
  let n := n mod 365 in
  let year := year + n100 * 100 + n4 * 4 + n1 in
  if (n1 =? 4) || (n100 =? 4) then (year - 1, 12, 31)
  else
    let leapyear := (n1 =? 3) && (negb (n4 =? 24) || (n100 =? 3)) in
    let month := Z.shiftr (n + 50) 5 in
    let preceding :=
      _DAYS_BEFORE_MONTH month + (if (2 <? month) && leapyear then 1 else 0) in
    if n <? preceding then
      let month := month - 1 in
      let preceding :=
        preceding
        - (_DAYS_IN_MONTH month + (if (month =? 2) && leapyear then 1 else 0)) in
      (year, month, n - preceding + 1)
    else (year, month, n - preceding + 1).

Definition in_range (lo x hi : Z) : bool := (lo <=? x) && (x <=? hi).

(** The checks of the [datetime] constructor. *)
Definition valid (d : datetime) : bool :=
  in_range 1 (year d) 9999 && in_range 1 (month d) 12 &&
  in_range 1 (day d) (_days_in_month (year d) (month d)) &&
  in_range 0 (hour d) 23 && in_range 0 (minute d) 59 &&
  in_range 0 (second d) 59 && in_range 0 (microsecond d) 999999 &&
  match tzinfo d with
  | Some off => in_range (-86399) off 86399
  | None => true
  end.

(** [d.replace(tzinfo=tz)] *)
Definition replace_tzinfo (d : datetime) (tz : option Z) : datetime :=
  mk (year d) (month d) (day d) (hour d) (minute d) (second d) (microsecond d) tz.

(** [d.replace(hour=h, minute=m, second=s)] *)
Definition replace_hms (d : datetime) (h m s : Z) : datetime :=
  mk (year d) (month d) (day d) h m s (microsecond d) (tzinfo d).

Definition toordinal (d : datetime) : Z := _ymd2ord (year d) (month d) (day d).

(** Microseconds of the wall-clock fields since the start of day 0 of
    the proleptic calendar; the offset is not applied. *)
Definition wall_us (d : datetime) : Z :=
  ((toordinal d * 86400 + hour d * 3600 + minute d * 60 + second d) * 1000000)
  + microsecond d.

(** [a - b]: a [timedelta], kept as its number of microseconds.  Two
    naive values or two aware values can be subtracted; mixing them
    raises. *)
Definition sub (a b : datetime) : result Z :=
  let base := wall_us a - wall_us b in
  match tzinfo a, tzinfo b with
  | None, None => Ok base
  | Some oa, Some ob => Ok (base + (ob - oa) * 1000000)
  | _, _ => Err (TypeError "can't subtract offset-naive and offset-aware datetimes")
  end.

(** [td.total_seconds()] *)
Definition total_seconds (td : Z) : Q := td # 1000000.

(** Comparison of two naive values: field by field, as tuples. *)
Fixpoint lex (a b : list Z) : comparison :=
  match a, b with
  | x :: a', y :: b' =>
      match x ?= y with
      | Eq => lex a' b'
      | c => c
      end
  | [], [] => Eq
  | [], _ :: _ => Lt
  | _ :: _, [] => Gt
  end.

Definition fields (d : datetime) : list Z :=
  [year d; month d; day d; hour d; minute d; second d; microsecond d].

Definition cmp (a b : datetime) : comparison := lex (fields a) (fields b).

(** [a <= b] on naive values *)
Definition le (a b : datetime) : bool :=
  match cmp a b with Gt => false | _ => true end.

Definition EPOCH : datetime := mk 1970 1 1 0 0 0 0 utc.

(** [datetime.fromtimestamp(ms / 1000, tz=timezone.utc)] for an integer
    number of milliseconds. *)
Definition fromtimestamp_ms (ms : Z) : result datetime :=
  let secs := ms / 1000 in
  let us := (ms mod 1000) * 1000 in
  let days := secs / 86400 in
  let rem := secs mod 86400 in
  let '(y, m, d) := _ord2ymd (days + toordinal EPOCH) in
  let r := mk y m d (rem / 3600) (rem mod 3600 / 60) (rem mod 60) us utc in
  if valid r then Ok r else Err (ValueError "year is out of range").

(** [d.timestamp()] of an aware value, in microseconds:
    [(d - _EPOCH).total_seconds()]. *)
Definition timestamp_us (d : datetime) : result Z := sub d EPOCH.

(** *** Formatting *)

Definition date_str (d : datetime) : string :=
  Dec.pad 4 (year d) +:+ "-" +:+ Dec.pad 2 (month d) +:+ "-" +:+ Dec.pad 2 (day d).

Definition time_str (d : datetime) : string :=
  Dec.pad 2 (hour d) +:+ ":" +:+ Dec.pad 2 (minute d) +:+ ":" +:+ Dec.pad 2 (second d).

(** [d.strftime("%Y-%m-%d %H:%M:%S")] *)
Definition strftime (d : datetime) : string := date_str d +:+ " " +:+ time_str d.

Definition offset_str (tz : option Z) : string :=
  match tz with
  | None => ""
  | Some off =>
      let a := Z.abs off in
      (if off <? 0 then "-" else "+")
      +:+ Dec.pad 2 (a / 3600) +:+ ":" +:+ Dec.pad 2 (a mod 3600 / 60)
      +:+ (if a mod 60 =? 0 then "" else ":" +:+ Dec.pad 2 (a mod 60))
  end.

(** [d.isoformat()] *)
Definition isoformat (d : datetime) : string :=
  date_str d +:+ "T" +:+ time_str d
  +:+ (if microsecond d =? 0 then "" else "." +:+ Dec.pad 6 (microsecond d))
  +:+ offset_str (tzinfo d).

(** *** Parsing *)

Definition checked (d : datetime) (msg : string) : result datetime :=
  if valid d then Ok d else Err (ValueError msg).

Definition skip_digits : string → string :=
  fix go (s : string) : string :=
    match s with
    | String c s' => match Dec.digit_val c with Some _ => go s' | None => s end
    | EmptyString => EmptyString
    end.

(** The digits after the decimal mark: the first six count, scaled to
    microseconds; further digits are dropped. *)
Fixpoint fraction (w : nat) (s : string) (acc : Z) : Z * string :=
  match w with
  | O => (acc, skip_digits s)
  | S w' =>
      match s with
      | String c s' =>
          match Dec.digit_val c with
          | Some v => fraction w' s' (acc * 10 + v)
          | None => (acc * 10 ^ Z.of_nat w, s)
          end
      | EmptyString => (acc * 10 ^ Z.of_nat w, s)
      end
  end.

Definition parse_fraction (s : string) : option (Z * string) :=
  match s with
  | String c s' =>
      if Ascii.eqb c "." || Ascii.eqb c "," then
        match s' with
        | String c' _ =>
            match Dec.digit_val c' with
            | Some _ => Some (fraction 6 s' 0)
            | None => None
            end
        | EmptyString => None
        end
      else Some (0, s)
  | EmptyString => Some (0, s)
  end.

Definition parse_hms (s : string) : option (Z * Z * Z * string) :=
  '(h, s) ← Dec.take 2 s 0;
  s ← Dec.expect ":" s;
  '(m, s) ← Dec.take 2 s 0;
  s ← Dec.expect ":" s;
  '(sec, s) ← Dec.take 2 s 0;
  Some (h, m, sec, s).

(** The offset suffix: nothing, [Z], or a sign with [HH:MM] or
    [HH:MM:SS]. *)
Definition parse_offset (s : string) : option (option Z) :=
  match s with
  | EmptyString => Some None
  | String c s' =>
      if String.eqb s "Z" then Some utc
      else if Ascii.eqb c "+" || Ascii.eqb c "-" then
        let sign := if Ascii.eqb c "-" then -1 else 1 in
        '(h, r) ← Dec.take 2 s' 0;
        r ← Dec.expect ":" r;
        '(m, r) ← Dec.take 2 r 0;
        match r with
        | EmptyString => Some (Some (sign * (h * 3600 + m * 60)))
        | _ =>
            r ← Dec.expect ":" r;
            '(sec, r) ← Dec.take 2 r 0;
            match r with
            | EmptyString => Some (Some (sign * (h * 3600 + m * 60 + sec)))
            | _ => None
            end
        end
      else None
  end.

Definition parse_ymd (s : string) : option (Z * Z * Z * string) :=
  '(y, s) ← Dec.take 4 s 0;
  s ← Dec.expect "-" s;
  '(m, s) ← Dec.take 2 s 0;
  s ← Dec.expect "-" s;
  '(d, s) ← Dec.take 2 s 0;
  Some (y, m, d, s).

Definition parse_iso (s : string) : option datetime :=
  '(y, m, d, s) ← parse_ymd s;
  match s with
  | EmptyString => Some (mk y m d 0 0 0 0 None)
  | String _ s =>
      '(h, mi, sec, s) ← parse_hms s;
      '(us, s) ← parse_fraction s;
      tz ← parse_offset s;
      Some (mk y m d h mi sec us tz)
  end.

(** [datetime.fromisoformat(s)], on the extended format: a date, or a
    date, one separator character and [HH:MM:SS], with an optional
    fraction and an optional offset.  The other spellings that newer
    interpreters accept (basic format, week dates, [HH] or [HH:MM]
    alone) are rejected here. *)
Definition fromisoformat (s : string) : result datetime :=
  match parse_iso s with
  | Some d => checked d "Invalid isoformat string"
  | None => Err (ValueError "Invalid isoformat string")
  end.

(** A numeric directive of [strptime]: one or two digits. *)
Definition field (s : string) : option (Z * string) := Dec.take12 s.

(** [%d] also accepts a space and one digit. *)
Definition day_field (s : string) : option (Z * string) :=
  match s with
  | String c s' => if Ascii.eqb c " " then Dec.take 1 s' 0 else Dec.take12 s
  | EmptyString => None
  end.

Definition parse_date_fields (s : string) : option (Z * Z * Z * string) :=
  '(y, s) ← Dec.take 4 s 0;
  s ← Dec.expect "-" s;
  '(m, s) ← field s;
  s ← Dec.expect "-" s;
  '(d, s) ← day_field s;
  Some (y, m, d, s).

(** [datetime.strptime(s, "%Y-%m-%d")] *)
Definition strptime_date (s : string) : result datetime :=
  match parse_date_fields s with
  | Some (y, m, d, EmptyString) => checked (mk y m d 0 0 0 0 None) "day is out of range"
  | _ => Err (ValueError "time data does not match format '%Y-%m-%d'")
  end.

(** The blank of a format matches one or more white-space characters. *)
Definition blanks (s : string) : option string :=
  match s with
  | String c s' => if Str.isspace c then Some (Str.lstrip s') else None
  | EmptyString => None
  end.

Definition parse_datetime_fields (s : string) : option datetime :=
  '(y, m, d, s) ← parse_date_fields s;
  s ← blanks s;
  '(h, s) ← field s;
  s ← Dec.expect ":" s;
  '(mi, s) ← field s;
  s ← Dec.expect ":" s;
  '(sec, s) ← field s;
  match s with
  | EmptyString => Some (mk y m d h mi sec 0 None)
  | _ => None
  end.

(** [datetime.strptime(s, "%Y-%m-%d %H:%M:%S")] *)
Definition strptime (s : string) : result datetime :=
  match parse_datetime_fields s with
  | Some d => checked d "time data is out of range"
  | None => Err (ValueError "time data does not match format '%Y-%m-%d %H:%M:%S'")
  end.

End Datetime.

(** [iso_to_timestamp_ms]: the wall-clock fields of the string are read,
    any offset is replaced by UTC, and the instant is returned in
    milliseconds ([int] truncates towards zero). *)
Definition iso_to_timestamp_ms (iso_str : string) : result Z :=
  dt ← Datetime.fromisoformat iso_str;
  let dt := Datetime.replace_tzinfo dt Datetime.utc in
  us ← Datetime.timestamp_us dt;
  Ok (us ÷ 1000).

(** ** The recording decoder and the archives *)

(** A field value of a decoded message: a [datetime], or a value with
    a JSON form ([None], an integer, a string). *)
Inductive fit_value :=
| FDate (d : Datetime.datetime)
| FJson (j : json).

Record fit_message := {
  msg_name : string;
  msg_fields : list (string * fit_value)
}.

(** What [FitFile(f).parse()] makes of a file: [FitParseError], or the
    messages in file order. *)
Inductive fit_decode :=
| FitParseError (msg : string)
| FitMessages (msgs : list fit_message).

(** A member of an archive: its bytes, and what the external decoder
    makes of them. *)
Record zip_member := {
  member_bytes : string;
  member_fit : fit_decode
}.

(** An archive, in the order of [namelist()]. *)
Definition archive := list (string * zip_member).

Definition namelist (z : archive) : list string := map fst z.

(** [z.open(name)]: a name that occurs twice designates its last
    member. *)
Fixpoint zip_open (z : archive) (name : string) : result zip_member :=
  match z with
  | [] => Err (KeyError name)
  | (n, m) :: z' =>
      match zip_open z' name with
      | Ok m' => Ok m'
      | Err e => if String.eqb n name then Ok m else Err e
      end
  end.

(** ** The export directory and the log *)

Inductive file :=
| FileJson (j : json)
| FileZip (z : archive)
| FileOther.

(** [tree] gives, for a directory, the files [os.walk] finds below it,
    in the order it yields them; [files] gives the content by path. *)
Record filesystem := {
  tree : gmap string (list string);
  files : gmap string file
}.

(** The calls of [logging.info], by message. *)
Inductive log_record :=
| LogFoundFiles (n : nat)
| LogLoadingActivities (n : nat)
| LogLoadingSleep (n : nat)
| LogLoadingAgg (n : nat)
| LogCaching (p : string)
| LogUsingCache (p : string)
| LogProcessing (p : string) (n : nat)
| LogProgress (i n : nat)
| LogFoundFit (n : nat)
| LogMatched (activityId : Z) (fit_name zip_name : string) (delta : Z).

Record world := {
  fs : filesystem;
  log : list log_record
}.

(** Code that reads and writes the directory, logs, and may raise. *)
Definition M (A : Type) : Type := world → result A * world.

#[global] Instance M_ret : MRet M := fun _ a w => (Ok a, w).
#[global] Instance M_bind : MBind M := fun _ _ k m w =>
  match m w with
  | (Ok a, w') => k a w'
  | (Err e, w') => (Err e, w')
  end.

Definition lift {A} (r : result A) : M A := fun w => (r, w).

Definition raise {A} (e : exn) : M A := fun w => (Err e, w).

(** [self.fail(msg)] *)
Definition fail {A} (msg : string) : M A := raise (GarminBulkImporterError msg).

Definition logging_info (r : log_record) : M unit :=
  fun w => (Ok (), {| fs := fs w; log := log w ++ [r] |}).

Definition get_fs : M filesystem := fun w => (Ok (fs w), w).

Definition put_fs (f : filesystem) : M unit :=
  fun w => (Ok (), {| fs := f; log := log w |}).

(** A [for] loop with an accumulator. *)
Fixpoint mfold {A S} (f : S → A → M S) (s : S) (l : list A) : M S :=
  match l with
  | [] => mret s
  | a :: l' => s' ← f s a; mfold f s' l'
  end.

(** [Path.exists()] *)
Definition path_exists (p : string) : M bool :=
  f ← get_fs;
  mret (bool_decide (is_Some (tree f !! p)) || bool_decide (is_Some (files f !! p))).

(** [os.walk(p)], flattened to the files. *)
Definition os_walk (p : string) : M (list string) :=
  f ← get_fs;
  mret (default [] (tree f !! p)).

(** [json.load(open(p))] *)
Definition json_load (p : string) : M json :=
  f ← get_fs;
  match files f !! p with
  | Some (FileJson j) => mret j
  | Some _ => raise (ValueError "JSONDecodeError")
  | None => raise (FileNotFoundError p)
  end.

(** [zipfile.ZipFile(p, "r")] *)
Definition zip_load (p : string) : M archive :=
  f ← get_fs;
  match files f !! p with
  | Some (FileZip z) => mret z
  | Some _ => raise (ValueError "BadZipFile")
  | None => raise (FileNotFoundError p)
  end.

(** [open(p, "w")] followed by writing [c]: the file is created or
    replaced, and shows up under every directory above it. *)
Definition write_file (p : string) (c : file) : M unit :=
  f ← get_fs;
  let add (d : string) (l : list string) :=
    if Str.startswith (d +:+ "/") p && negb (bool_decide (p ∈ l)) then l ++ [p] else l in
  put_fs {| tree := map_imap (fun d l => Some (add d l)) (tree f);
            files := <[p := c]> (files f) |}.

(** [root / name] *)
Definition path_join (root name : string) : string := root +:+ "/" +:+ name.

(** ** The recording-file index and its cache *)

Definition CACHED_FIT_FILE_INDEX_FILENAME : string := "fit_file_index.json".

Record FitFileEntry := mkFitFileEntry {
  date : Datetime.datetime;
  activity : fit_value;
  zip_file_name : string;
  fit_file_name : string
}.

Inductive ActivityDownloadFormatEnum := ORIGINAL | TCX.

(** The dictionary [cache_fit_file_index] builds for one entry.  A
    [datetime] in the [activity] position has no JSON form: the entry
    is built all the same and [json.dump] raises later. *)
Definition serializable_entry (entry : FitFileEntry) : pydict * bool :=
  let '(act, ok) :=
    match activity entry with
    | FJson j => (j, true)
    | FDate _ => (JNull, false)
    end in
  (<["date" := JStr (Datetime.isoformat (date entry))]>
   (<["zip_file_name" := JStr (zip_file_name entry)]>
    (<["fit_file_name" := JStr (fit_file_name entry)]>
     (<["activity" := act]> ∅))),
   ok).

(** [cache_fit_file_index(fit_file_index, output_path)].  The file is
    opened before [json.dump] runs, so a failing dump leaves a file that
    is not a JSON document. *)
Definition cache_fit_file_index (fit_file_index : list FitFileEntry)
    (output_path : string) : M unit :=
  logging_info (LogCaching output_path);;
  let serializable := map serializable_entry fit_file_index in
  if forallb snd serializable then
    write_file output_path (FileJson (JArr (map (fun e => JObj (fst e)) serializable)))
  else
    write_file output_path FileOther;;
    raise (TypeError "Object of type datetime is not JSON serializable").

(** One entry of the cached list.  [Path(...)] and [fromisoformat]
    need strings; an inner file name is kept as a string too. *)
Definition cached_entry (entry : json) : result FitFileEntry :=
  entry ← as_dict entry;
  d ← getitem entry "date";
  d ← match d with
      | JStr s => Datetime.fromisoformat s
      | _ => Err (TypeError "fromisoformat: argument must be str")
      end;
  act ← getitem entry "activity";
  z ← getitem entry "zip_file_name";
  z ← match z with
      | JStr s => Ok s
      | _ => Err (TypeError "expected str, bytes or os.PathLike object")
      end;
  f ← getitem entry "fit_file_name";
  f ← match f with
      | JStr s => Ok s
      | _ => Err (TypeError "inner file name is not a str")
      end;
  Ok (mkFitFileEntry d (FJson act) z f).

(** The loop of [load_cached_fit_file_index] over the parsed document. *)
Definition cached_entries (data : json) : result (list FitFileEntry) :=
  data ← as_list data;
  rfold (fun acc entry => e ← cached_entry entry; Ok (acc ++ [e])) [] data.

(** [load_cached_fit_file_index(input_path)]: [None] when there is no
    file. *)
Definition load_cached_fit_file_index (input_path : string)
    : M (option (list FitFileEntry)) :=
  ex ← path_exists input_path;
  if negb ex then mret None
  else
    logging_info (LogUsingCache input_path);;
    data ← json_load input_path;
    idx ← lift (cached_entries data);
    mret (Some idx).

(** ** The facade *)

(** [re.search(pattern, s)] for the importer's patterns. *)
Fixpoint compile (pattern : string) : list Str.tok :=
  match pattern with
  | EmptyString => []
  | String c r =>
      if Ascii.eqb c "." then
        match r with
        | String c' r' =>
            if Ascii.eqb c' "*" then Str.DotStar :: compile r' else Str.Dot :: compile r
        | EmptyString => [Str.Dot]
        end
      else Str.Lit c :: compile r
  end.

Definition re_search (pattern s : string) : bool := Str.search (compile pattern) s.

(** [self.activities] is the empty dictionary when the export has no
    summary file, and a list otherwise. *)
Inductive activities_t :=
| NoActivities
| Activities (l : list pydict).

Definition activity_list (a : activities_t) : list pydict :=
  match a with NoActivities => [] | Activities l => l end.

(** The attributes of a [GarminBulkExport] object. *)
Record GarminBulkExport := mkGarminBulkExport {
  path : string;
  all_files : list string;
  activities : activities_t;
  sleep_stats : gmap string pydict;
  agg_stats : gmap string pydict;
  hydration_stats : gmap string pydict;
  cached_fit_file_index : string;
  fit_file_index : list FitFileEntry
}.

(** A number used in arithmetic; [bool] is a subclass of [int]. *)
Definition as_int (j : json) : result Z :=
  match j with
  | JNum n => Ok n
  | JBool b => Ok (Z.b2z b)
  | _ => Err (TypeError "unsupported operand type")
  end.

(** [k in d] and [d.get(k)] when the key is a parsed value: lists and
    dictionaries are unhashable, and nothing but a string can be a key
    of the merged maps. *)
Definition lookup_json {V} (d : gmap string V) (k : json) : result (option V) :=
  match k with
  | JStr s => Ok (d !! s)
  | JArr _ | JObj _ => Err (TypeError "unhashable type")
  | _ => Ok None
  end.

Definition in_json {V} (k : json) (d : gmap string V) : result bool :=
  o ← lookup_json d k;
  Ok (match o with Some _ => true | None => false end).

(** [str(x)] inside a message, for a value that is a key. *)
Definition show (j : json) : string :=
  match j with JStr s => s | _ => "" end.

(** *** Activities *)

(** The body of the loop that puts an activity summary into the shape of
    the API. *)
Definition normalize_activity (a : json) : result pydict :=
  a ← as_dict a;
  ms ← getitem a "startTimeGmt";
  ms ← as_int ms;
  dt ← Datetime.fromtimestamp_ms ms;
  let a := <["startTimeGMT" := JStr (Datetime.strftime dt)]> a in
  let activity_type := get a "activityType" in
  let a := <["activityName" := get_default a "name" activity_type]> a in
  let a := <["activityType" := JObj {["typeKey" := activity_type]}]> a in
  let a := <["averageSpeed" := get a "avgSpeed"]> a in
  let a := <["maxHR" := get a "maxHr"]> a in
  let a := <["averageHR" := get a "avgHr"]> a in
  Ok a.

Definition start_key (o : pydict) : string := show (get o "startTimeGMT").

(** [sorted(activities, key=lambda o: o["startTimeGMT"])]: a stable
    sort. *)
Fixpoint insert_sorted (x : pydict) (l : list pydict) : list pydict :=
  match l with
  | [] => [x]
  | y :: l' =>
      if String.leb (start_key x) (start_key y) then x :: l
      else y :: insert_sorted x l'
  end.

Definition sorted (l : list pydict) : list pydict := foldr insert_sorted [] l.

Definition extend_activities (acc : list json) (entry : json) : result (list json) :=
  entry ← as_dict entry;
  l ← getitem entry "summarizedActivitiesExport";
  l ← as_list l;
  Ok (acc ++ l).

Definition load_activities (self : GarminBulkExport) : M activities_t :=
  let summary_file_paths :=
    filter (fun p => re_search "DI-Connect-Fitness.*summarizedActivities.json" p)
           (all_files self) in
  match summary_file_paths with
  | [] => mret NoActivities
  | _ =>
      raw ← mfold (fun acc p =>
                     data ← json_load p;
                     lift (data ← as_list data; rfold extend_activities acc data))
                  [] summary_file_paths;
      acts ← lift (rfold (fun acc a => a ← normalize_activity a; Ok (acc ++ [a])) [] raw);
      logging_info (LogLoadingActivities (length acts));;
      mret (Activities (sorted acts))
  end.

(** *** Sleep *)

(** The body of the loop of [load_sleep_stats], for one object of a
    sleep file. *)
Definition sleep_step (sleep : gmap string pydict) (stats : json)
    : result (gmap string pydict) :=
  stats ← as_dict stats;
  if negb (contains stats "calendarDate") then Ok sleep
  else
    let stats_date := get stats "calendarDate" in
    dup ← in_json stats_date sleep;
    if dup : bool then
      Err (GarminBulkImporterError
             ("Duplicate entries found for sleep stats dated on " +:+ show stats_date))
    else
      e ← getitem stats "sleepEndTimestampGMT";
      ts ← match e with
           | JStr s => iso_to_timestamp_ms s
           | _ => Err (TypeError "fromisoformat: argument must be str")
           end;
      let stats := <["sleepEndTimestampGMT" := JNum ts]> stats in
      key ← as_str stats_date;
      Ok (<[Str.strip key := stats]> sleep).

Definition sleep_file (sleep : gmap string pydict) (data : json)
    : result (gmap string pydict) :=
  data ← as_list data;
  rfold sleep_step sleep data.

Definition load_sleep_stats (self : GarminBulkExport) : M (gmap string pydict) :=
  let sleep_stats_paths :=
    filter (fun p => re_search "DI-Connect-Wellness.*sleepData.json" p)
           (all_files self) in
  match sleep_stats_paths with
  | [] => fail "Failed to find any sleep stats files"
  | _ =>
      sleep ← mfold (fun acc p => data ← json_load p; lift (sleep_file acc data))
                    ∅ sleep_stats_paths;
      logging_info (LogLoadingSleep (size sleep));;
      mret sleep
  end.

(** [get_sleep_data(date_str)] *)
Definition get_sleep_data (self : GarminBulkExport) (date_str : json) : result pydict :=
  stats ← lookup_json (sleep_stats self) date_str;
  match stats with
  | None => Ok {["dailySleepDTO" := JObj {["sleepEndTimestampGMT" := JNull]}]}
  | Some stats => Ok {["dailySleepDTO" := JObj stats]}
  end.

(** [sum([...])] *)
Definition py_sum (l : list json) : result Z :=
  rfold (fun acc x => n ← as_int x; Ok (acc + n)) 0 l.

(** [calculate_sleeping_seconds(date_str)] *)
Definition calculate_sleeping_seconds (self : GarminBulkExport) (date_str : json)
    : result json :=
  sleep_data ← get_sleep_data self date_str;
  let sleep_stats := get sleep_data "dailySleepDTO" in
  total ←
    (if truthy sleep_stats then
       d ← as_dict sleep_stats;
       py_sum [get_default d "deepSleepSeconds" (JNum 0);
               get_default d "lightSleepSeconds" (JNum 0);
               get_default d "awakeSleepSeconds" (JNum 0);
               get_default d "unmeasurableSeconds" (JNum 0)]
     else Ok 0);
  Ok (if 0 <? total then JNum total else JNull).

(** *** Aggregated daily stats and hydration *)

(** The body of the loop of [load_agg_stats], for one object of an
    aggregator file: the pair is [(agg_stats, hydration_stats)]. *)
Definition agg_step (self : GarminBulkExport)
    (acc : gmap string pydict * gmap string pydict) (stats : json)
    : result (gmap string pydict * gmap string pydict) :=
  let '(agg, hydration) := acc in
  stats ← as_dict stats;
  if contains stats "hydration" then
    stats ← getitem stats "hydration";
    stats ← as_dict stats;
    stats_date ← getitem stats "calendarDate";
    key ← as_str stats_date;
    Ok (agg, <[Str.strip key := stats]> hydration)
  else
    stats_date ← getitem stats "calendarDate";
    dup ← in_json stats_date agg;
    if dup : bool then
      Err (GarminBulkImporterError
             ("Duplicate entries found for aggregated stats dated on " +:+ show stats_date))
    else
      ss ← calculate_sleeping_seconds self stats_date;
      let stats := <["sleepingSeconds" := ss]> stats in
      key ← as_str stats_date;
      Ok (<[Str.strip key := stats]> agg, hydration).

Definition agg_file (self : GarminBulkExport)
    (acc : gmap string pydict * gmap string pydict) (data : json)
    : result (gmap string pydict * gmap string pydict) :=
  data ← as_list data;
  rfold (agg_step self) acc data.

Definition load_agg_stats (self : GarminBulkExport)
    : M (gmap string pydict * gmap string pydict) :=
  let agg_stats_paths :=
    filter (fun p => re_search "DI-Connect-Aggregator.*UDSFile.*.json" p)
           (all_files self) in
  match agg_stats_paths with
  | [] => fail "Failed to find any aggregated stats files"
  | _ =>
      r ← mfold (fun acc p => data ← json_load p; lift (agg_file self acc data))
                (∅, ∅) agg_stats_paths;
      logging_info (LogLoadingAgg (size (fst r)));;
      mret r
  end.

(** *** The recording-file index *)

(** [get_fields(msg)]: a later field of the same name replaces an
    earlier one. *)
Definition get_fields (msg : fit_message) : gmap string fit_value :=
  foldl (fun data f => <[fst f := snd f]> data) ∅ (msg_fields msg).

Definition is_None (v : fit_value) : bool :=
  match v with FJson JNull => true | _ => false end.

(** The body of the loop over the messages of one file: the pair is
    [(session_sport, session_date)], both [None] at the start. *)
Definition session_step (acc : fit_value * option Datetime.datetime) (msg : fit_message)
    : result (fit_value * option Datetime.datetime) :=
  if String.eqb (msg_name msg) "session" then
    let session_data := get_fields msg in
    st ← of_option (session_data !! "start_time") (KeyError "start_time");
    d ← match st with
        | FDate d => Ok (Datetime.replace_tzinfo d Datetime.utc)
        | FJson _ => Err (AttributeError "object has no attribute 'replace'")
        end;
    Ok (default (FJson (JStr "Unknown")) (session_data !! "sport"), Some d)
  else Ok acc.

(** What one decoded file contributes to the index. *)
Definition session_entry (zip_file_path filename : string) (msgs : list fit_message)
    : result (list FitFileEntry) :=
  '(session_sport, session_date) ← rfold session_step (FJson JNull, None) msgs;
  match session_date with
  | Some d =>
      if negb (is_None session_sport)
      then Ok [mkFitFileEntry d session_sport zip_file_path filename]
      else Ok []
  | None => Ok []
  end.

(** The part of the loop body that touches one name of the archive. *)
Definition index_file (zip_file_path : string) (z : archive) (filename : string)
    : result (list FitFileEntry) :=
  if Str.endswith ".fit" (Str.lower filename) then
    f ← zip_open z filename;
    match member_fit f with
    | FitParseError e => Err (RuntimeError ("Failed to parse FIT file: " +:+ e))
    | FitMessages msgs => session_entry zip_file_path filename msgs
    end
  else Ok [].

Fixpoint enumerate_from {A} (i : nat) (l : list A) : list (nat * A) :=
  match l with
  | [] => []
  | a :: l' => (i, a) :: enumerate_from (S i) l'
  end.

Definition index_zip (fit_file_index : list FitFileEntry) (zip_file_path : string)
    : M (list FitFileEntry) :=
  z ← zip_load zip_file_path;
  let names := namelist z in
  logging_info (LogProcessing zip_file_path (length names));;
  mfold (fun acc '(i, filename) =>
           (if (i mod 500 =? 0)%nat
            then logging_info (LogProgress i (length names))
            else mret ());;
           es ← lift (index_file zip_file_path z filename);
           mret (acc ++ es))
        fit_file_index (enumerate_from 0 names).

Definition load_fit_file_index (self : GarminBulkExport) : M (list FitFileEntry) :=
  let zip_file_paths :=
    filter (fun p => re_search "DI-Connect-Uploaded-Files.*.zip" p) (all_files self) in
  fit_file_index ← mfold index_zip [] zip_file_paths;
  logging_info (LogFoundFit (length fit_file_index));;
  cache_fit_file_index fit_file_index (cached_fit_file_index self);;
  mret fit_file_index.

(** *** Queries *)

(** [get_last_activity()]: [self.activities[-1]]. *)
Definition get_last_activity (self : GarminBulkExport) : result pydict :=
  match activities self with
  | NoActivities => Err (KeyError "-1")
  | Activities l => of_option (last l) IndexError
  end.

(** [get_stats(date_str)] *)
Definition get_stats (self : GarminBulkExport) (date_str : string) : pydict :=
  match agg_stats self !! date_str with
  | None => {["wellnessStartTimeGmt" := JNull]}
  | Some stats =>
      if negb (truthy (get_default stats "includesWellnessData" (JBool true)))
      then {["wellnessStartTimeGmt" := JNull]}
      else stats
  end.

(** [get_hydration_data(date_str)] *)
Definition get_hydration_data (self : GarminBulkExport) (date_str : string) : pydict :=
  default ∅ (hydration_stats self !! date_str).

Definition start_time_of (act : pydict) : result Datetime.datetime :=
  s ← getitem act "startTimeGMT";
  match s with
  | JStr s => Datetime.strptime s
  | _ => Err (TypeError "strptime() argument 1 must be str")
  end.

(** [get_activities_by_date(start_date_str, end_date_str)] *)
Definition get_activities_by_date (self : GarminBulkExport)
    (start_date_str end_date_str : string) : result (list pydict) :=
  start_dt ← Datetime.strptime_date start_date_str;
  end_dt ← Datetime.strptime_date end_date_str;
  let end_dt := Datetime.replace_hms end_dt 23 59 59 in
  rfold (fun results act =>
           act_dt ← start_time_of act;
           if Datetime.le start_dt act_dt && Datetime.le act_dt end_dt
           then Ok (results ++ [act]) else Ok results)
        [] (activity_list (activities self)).

(** *** Download *)

Definition MAX_TIME_DIFF_SECONDS : Q := 300 # 1.

Definition Qltb (a b : Q) : bool := negb (Qle_bool b a).

(** The body of the matching loop: the pair is
    [(best_match, best_delta)], absent at the start. *)
Definition match_step (activity_start : Datetime.datetime)
    (best : option (FitFileEntry * Q)) (entry : FitFileEntry)
    : result (option (FitFileEntry * Q)) :=
  td ← Datetime.sub (date entry) activity_start;
  let delta := Qabs (Datetime.total_seconds td) in
  if Qle_bool delta MAX_TIME_DIFF_SECONDS then
    match best with
    | None => Ok (Some (entry, delta))
    | Some (_, best_delta) =>
        if Qltb delta best_delta then Ok (Some (entry, delta)) else Ok best
    end
  else Ok best.

Definition find_activity (self : GarminBulkExport) (activityId : Z) : option pydict :=
  find (fun a => match get a "activityId" with
                 | JNum n => n =? activityId
                 | JBool b => Z.b2z b =? activityId
                 | _ => false
                 end)
       (activity_list (activities self)).

(** What [download_activity] returns: no bytes, or an archive with one
    member. *)
Inductive download :=
| NoBytes
| ZipOf (name : string) (data : string).

(** [isoformat] of the start time, a string in the message only. *)
Definition no_match_msg (activityId : Z) (activity_start : Datetime.datetime) : string :=
  "No matching FIT file found for activityId=" +:+ Dec.of_Z activityId +:+ " ("
  +:+ Datetime.isoformat activity_start +:+ ")".

(** The matching loop of [download_activity]. *)
Definition best_match_for (self : GarminBulkExport) (activity_start : Datetime.datetime)
    : result (option (FitFileEntry * Q)) :=
  rfold (match_step activity_start) None (fit_file_index self).

(** The end of [download_activity], once a match is found: the log
    line, then the matched member repackaged under its base name. *)
Definition extract_match (activityId : Z) (best_match : FitFileEntry) (best_delta : Q)
    : M download :=
  logging_info (LogMatched activityId (fit_file_name best_match)
                  (zip_file_name best_match)
                  (Qnum best_delta ÷ Z.pos (Qden best_delta)));;
  src_zip ← zip_load (zip_file_name best_match);
  fit_file ← lift (zip_open src_zip (fit_file_name best_match));
  mret (ZipOf (Str.last_component (fit_file_name best_match)) (member_bytes fit_file)).

Definition download_activity (self : GarminBulkExport) (activityId : Z)
    (dl_fmt : ActivityDownloadFormatEnum) : M download :=
  match dl_fmt with
  | TCX => mret NoBytes
  | ORIGINAL =>
      match find_activity self activityId with
      | None => fail ("Activity ID not found: " +:+ Dec.of_Z activityId)
      | Some act =>
          activity_start ← lift (start_time_of act);
          let activity_start := Datetime.replace_tzinfo activity_start Datetime.utc in
          best ← lift (best_match_for self activity_start);
          match best with
          | None => fail (no_match_msg activityId activity_start)
          | Some (best_match, best_delta) => extract_match activityId best_match best_delta
          end
      end
  end.

(** *** Construction *)

Definition get_all_files (self : GarminBulkExport) : M (list string) :=
  all_files ← os_walk (path self);
  logging_info (LogFoundFiles (length all_files));;
  mret all_files.

(** [x or y] on the cached index: [None] and the empty list are both
    false. *)
Definition or_else (cached : option (list FitFileEntry)) (other : M (list FitFileEntry))
    : M (list FitFileEntry) :=
  match cached with
  | Some (e :: l) => mret (e :: l)
  | _ => other
  end.

(** The first part of the constructor, up to the assignment of
    [self.cached_fit_file_index]; the path has no [~] to expand. *)
Definition init_loads (bulk_data_path : string) : M GarminBulkExport :=
  let self := mkGarminBulkExport bulk_data_path [] NoActivities ∅ ∅ ∅ "" [] in
  ex ← path_exists (path self);
  (if negb ex then fail (path self +:+ " does not exist") else mret ());;
  all_files ← get_all_files self;
  let self := mkGarminBulkExport (path self) all_files NoActivities ∅ ∅ ∅ "" [] in
  acts ← load_activities self;
  let self := mkGarminBulkExport (path self) all_files acts ∅ ∅ ∅ "" [] in
  sleep ← load_sleep_stats self;
  let self := mkGarminBulkExport (path self) all_files acts sleep ∅ ∅ "" [] in
  '(agg, hydration) ← load_agg_stats self;
  let cache := path_join (path self) CACHED_FIT_FILE_INDEX_FILENAME in
  mret (mkGarminBulkExport (path self) all_files acts sleep agg hydration cache []).

Definition set_fit_file_index (self : GarminBulkExport) (index : list FitFileEntry)
    : GarminBulkExport :=
  mkGarminBulkExport (path self) (all_files self) (activities self) (sleep_stats self)
    (agg_stats self) (hydration_stats self) (cached_fit_file_index self) index.

(** [GarminBulkExport(bulk_data_path)]: the loads, then the index,
    from the cache or from the archives. *)
Definition __init__ (bulk_data_path : string) : M GarminBulkExport :=
  self ← init_loads bulk_data_path;
  cached ← load_cached_fit_file_index (cached_fit_file_index self);
  index ← or_else cached (load_fit_file_index self);
  mret (set_fit_file_index self index).

(** ** Pure readings of the effectful code *)

(** The file system is only read, and the log only grows. *)
Definition reads {A} (m : M A) (r : filesystem → result A) : Prop :=
  ∀ w, ∃ lg, m w = (r (fs w), {| fs := fs w; log := log w ++ lg |}).

(** [json.load], [ZipFile] as functions of the file system. *)
Definition json_of (f : filesystem) (p : string) : result json :=
  match files f !! p with
  | Some (FileJson j) => Ok j
  | Some _ => Err (ValueError "JSONDecodeError")
  | None => Err (FileNotFoundError p)
  end.

Definition zip_of (f : filesystem) (p : string) : result archive :=
  match files f !! p with
  | Some (FileZip z) => Ok z
  | Some _ => Err (ValueError "BadZipFile")
  | None => Err (FileNotFoundError p)
  end.

Definition index_names (zp : string) (z : archive)
    (acc : list FitFileEntry) (names : list string) : result (list FitFileEntry) :=
  rfold (fun acc fn => es ← index_file zp z fn; Ok (acc ++ es)) acc names.

Definition index_archives (f : filesystem) (acc : list FitFileEntry) (zips : list string)
    : result (list FitFileEntry) :=
  rfold (fun acc zp => z ← zip_of f zp; index_names zp z acc (namelist z)) acc zips.

Definition is_session (m : fit_message) : bool := String.eqb (msg_name m) "session".

(** The last session message of a file, if it has one. *)
Definition last_session (msgs : list fit_message) : option fit_message :=
  last (filter (fun m => is_session m = true) msgs).

Definition sport_of (m : fit_message) : fit_value :=
  default (FJson (JStr "Unknown")) (get_fields m !! "sport").

Definition zip_paths (self : GarminBulkExport) : list string :=
  filter (fun p => re_search "DI-Connect-Uploaded-Files.*.zip" p) (all_files self).

Definition wf_value (v : fit_value) : bool :=
  match v with FDate d => Datetime.valid d | FJson _ => true end.
Definition wf_message (m : fit_message) : bool :=
  forallb (fun f => wf_value (snd f)) (msg_fields m).
Definition wf_member (m : zip_member) : bool :=
  match member_fit m with
  | FitMessages msgs => forallb wf_message msgs
  | FitParseError _ => true
  end.
Definition wf_archive (z : archive) : bool := forallb (fun nm => wf_member (snd nm)) z.
Definition wf_fs (f : filesystem) : Prop :=
  map_Forall (fun _ c => match c with FileZip z => wf_archive z = true | _ => True end)
             (files f).

Definition cache_document (idx : list FitFileEntry) : json :=
  JArr (map (fun e => JObj (fst e)) (map serializable_entry idx)).

Definition no_entry_for (idx : list FitFileEntry) (zp fn : string) : Prop :=
  ∀ e, e ∈ idx → ¬ (zip_file_name e = zp ∧ fit_file_name e = fn).

(** The absolute time difference, in seconds, between an entry's
    session start and the activity's start; undefined when one value is
    naive and the other aware. *)
Definition delta (activity_start : Datetime.datetime) (entry : FitFileEntry) : option Q :=
  match Datetime.sub (date entry) activity_start with
  | Ok td => Some (Qabs (Datetime.total_seconds td))
  | Err _ => None
  end.

(** What the matching loop has established after the entries [seen]. *)
Definition match_inv (activity_start : Datetime.datetime) (seen : list FitFileEntry)
    (best : option (FitFileEntry * Q)) : Prop :=
  match best with
  | None =>
      ∀ e d, e ∈ seen → delta activity_start e = Some d → ¬ (d <= MAX_TIME_DIFF_SECONDS)%Q
  | Some (e, d) =>
      ∃ l1 l2, seen = l1 ++ e :: l2 ∧
        delta activity_start e = Some d ∧ (d <= MAX_TIME_DIFF_SECONDS)%Q ∧
        (∀ e' d', e' ∈ seen → delta activity_start e' = Some d' →
                  (d' <= MAX_TIME_DIFF_SECONDS)%Q → (d <= d')%Q) ∧
        (∀ e' d', e' ∈ l1 → delta activity_start e' = Some d' →
                  (d' <= MAX_TIME_DIFF_SECONDS)%Q → (d < d')%Q)
  end.

(** The activity carries a start time that [get_activities_by_date]
    can read: every activity [load_activities] returns does. *)
Definition normalized (act : pydict) : bool := is_Ok (start_time_of act).

(** The activity's normalized start time lies in the closed interval
    from [start_dt] to [end_dt]. *)
Definition starts_within (start_dt end_dt : Datetime.datetime) (act : pydict) : bool :=
  match start_time_of act with
  | Ok act_dt => Datetime.le start_dt act_dt && Datetime.le act_dt end_dt
  | Err _ => false
  end.

Definition dup_agg_msg (d : string) : string :=
  "Duplicate entries found for aggregated stats dated on " +:+ d.

(** One sleep-phase field of a sleep record, a missing field counted
    as zero. *)
Definition field_seconds (sr : pydict) (k : string) : Z :=
  match get_default sr k (JNum 0) with
  | JNum n => n
  | JBool b => Z.b2z b
  | _ => 0
  end.

Definition sleep_sum (sr : pydict) : Z :=
  field_seconds sr "deepSleepSeconds" + field_seconds sr "lightSleepSeconds"
  + field_seconds sr "awakeSleepSeconds" + field_seconds sr "unmeasurableSeconds".

(** The value the code computes, read off the sleep map: the sum when
    it is positive, [None] otherwise. *)
Definition sleeping_seconds_of (sleep : gmap string pydict) (d : string) : json :=
  match sleep !! d with
  | None => JNull
  | Some sr => if 0 <? sleep_sum sr then JNum (sleep_sum sr) else JNull
  end.

(** Following the words of the specification: the sum of the four
    fields, and null when there is no record or the sum is zero. *)
Definition claimed_sleeping_seconds (sleep : gmap string pydict) (d : string) : json :=
  match sleep !! d with
  | None => JNull
  | Some sr => if sleep_sum sr =? 0 then JNull else JNum (sleep_sum sr)
  end.

(** Every daily-stats object of the documents carries its date with no
    white space around it. *)
Definition clean_dates (docs : list json) : Prop :=
  ∀ l o x, JArr l ∈ docs → JObj o ∈ l → o !! "hydration" = None →
           o !! "calendarDate" = Some (JStr x) → Str.strip x = x.

Definition sleeping_inv (self : GarminBulkExport)
    (acc : gmap string pydict * gmap string pydict) : Prop :=
  ∀ d stats, fst acc !! d = Some stats →
    stats !! "sleepingSeconds" = Some (sleeping_seconds_of (sleep_stats self) d).

(** Code that leaves the directory as it found it. *)
Definition keeps_fs {A} (m : M A) : Prop :=
  ∀ w r w', m w = (r, w') → fs w' = fs w.

(** The wall-clock fields read as a UTC instant, in milliseconds since
    the epoch; no offset enters. *)
Definition wall_clock_utc_ms (d : Datetime.datetime) : Z :=
  (Datetime.wall_us d - Datetime.wall_us Datetime.EPOCH) ÷ 1000.

(** The documents of the aggregator files, in the order the loader
    reads them. *)
Definition agg_documents (self : GarminBulkExport) (f : filesystem) : list json :=
  omap (fun p => match json_of f p with Ok j => Some j | Err _ => None end)
       (filter (fun p => re_search "DI-Connect-Aggregator.*UDSFile.*.json" p)
               (all_files self)).

(** ** A small export, used by the examples *)

Definition ex_session (d : Datetime.datetime) (fields : list (string * fit_value))
    : fit_message :=
  {| msg_name := "session"; msg_fields := ("start_time", FDate d) :: fields |}.

Definition ex_member (msgs : list fit_message) : zip_member :=
  {| member_bytes := "FIT"; member_fit := FitMessages msgs |}.

Definition ex_run_msgs : list fit_message :=
  [ {| msg_name := "file_id"; msg_fields := [("serial_number", FJson (JNum 1))] |};
    ex_session (Datetime.mk 2024 1 1 10 4 30 0 None) [("sport", FJson (JStr "running"))] ].

Definition ex_monitor_msgs : list fit_message :=
  [ {| msg_name := "monitoring"; msg_fields := [] |} ].

Definition ex_late_msgs : list fit_message :=
  [ ex_session (Datetime.mk 2024 1 1 10 6 0 0 None) [] ].

(** A session whose [sport] field is there with no value. *)
Definition ex_null_msgs : list fit_message :=
  [ ex_session (Datetime.mk 2024 1 1 11 0 0 0 None) [("sport", FJson JNull)] ].

Definition ex_zip : archive :=
  [ ("a/run.fit", ex_member ex_run_msgs);
    ("a/mon.FIT", ex_member ex_monitor_msgs);
    ("a/readme.txt", ex_member []);
    ("a/late.fit", ex_member ex_late_msgs);
    ("a/null.fit", ex_member ex_null_msgs) ].

Definition ex_zip_path : string := "/e/DI-Connect-Uploaded-Files/up_1.zip".
Definition ex_cache_path : string := "/e/fit_file_index.json".

(** 1704103200000 ms is 2024-01-01 10:00:00 UTC. *)
Definition ex_activity_42 : pydict :=
  <["activityId" := JNum 42]>
  (<["startTimeGmt" := JNum 1704103200000]> (<["activityType" := JStr "running"]> ∅)).

Definition ex_activity_7 : pydict :=
  <["activityId" := JNum 7]> (<["startTimeGmt" := JNum 1704000000000]> ∅).

Definition ex_sleep : pydict :=
  <["calendarDate" := JStr "2024-01-01"]>
  (<["deepSleepSeconds" := JNum 100]>
   (<["lightSleepSeconds" := JNum 200]>
    (<["awakeSleepSeconds" := JNum 0]>
     (<["unmeasurableSeconds" := JNum 0]>
      (<["sleepEndTimestampGMT" := JStr "2024-01-01T06:30:00.0"]> ∅))))).

Definition ex_agg : pydict :=
  <["calendarDate" := JStr "2024-01-01"]> (<["totalSteps" := JNum 5000]> ∅).

(** The same day, declared to lack wellness data. *)
Definition ex_agg_no_wellness : pydict :=
  <["includesWellnessData" := JBool false]> ex_agg.

Definition ex_hydration (ml : Z) : pydict :=
  <["calendarDate" := JStr "2024-01-01"]> (<["valueInML" := JNum ml]> ∅).

Definition ex_hydration_entry (ml : Z) : pydict :=
  {["hydration" := JObj (ex_hydration ml)]}.

Definition ex_fs : filesystem :=
  {| tree := {["/e" := ["/e/DI-Connect-Fitness/x_summarizedActivities.json";
                        "/e/DI-Connect-Wellness/2024_sleepData.json";
                        "/e/DI-Connect-Aggregator/UDSFile_2024.json";
                        ex_zip_path]]};
     files :=
       <["/e/DI-Connect-Fitness/x_summarizedActivities.json" :=
           FileJson (JArr [JObj {["summarizedActivitiesExport" :=
                                    JArr [JObj ex_activity_42; JObj ex_activity_7]]}])]>
       (<["/e/DI-Connect-Wellness/2024_sleepData.json" := FileJson (JArr [JObj ex_sleep])]>
        (<["/e/DI-Connect-Aggregator/UDSFile_2024.json" :=
             FileJson (JArr [JObj ex_agg; JObj (ex_hydration_entry 500)])]>
         (<[ex_zip_path := FileZip ex_zip]> ∅))) |}.

Definition ex_world : world := {| fs := ex_fs; log := [] |}.

(** The same export with a cache file that holds the empty list. *)
Definition ex_world_empty_cache : world :=
  {| fs := {| tree := tree ex_fs;
              files := <[ex_cache_path := FileJson (JArr [])]> (files ex_fs) |};
     log := [] |}.

(** The export as a first construction leaves it: the cache is
    written. *)
Definition ex_world_cached : world := snd (__init__ "/e" ex_world).

Definition ex_dummy : GarminBulkExport := mkGarminBulkExport "" [] NoActivities ∅ ∅ ∅ "" [].

Definition the {A} (r : result A) (dflt : A) : A :=
  match r with Ok a => a | Err _ => dflt end.

(** The facade built from the example export. *)
Definition ex_self : GarminBulkExport := the (fst (__init__ "/e" ex_world)) ex_dummy.

Definition ex_entry (h m s : Z) (sport file : string) : FitFileEntry :=
  mkFitFileEntry (Datetime.mk 2024 1 1 h m s 0 Datetime.utc) (FJson (JStr sport))
    ex_zip_path file.

Definition ex_index : list FitFileEntry :=
  [ ex_entry 10 4 30 "running" "a/run.fit"; ex_entry 10 6 0 "Unknown" "a/late.fit" ].

(** A facade with three candidates around 10:00:00: at 200 s, at 10 s
    after, and at 10 s before. *)
Definition ex_self_ties : GarminBulkExport :=
  mkGarminBulkExport "/e" [] (activities ex_self) ∅ ∅ ∅ ex_cache_path
    [ ex_entry 10 3 20 "running" "a/far.fit";
      ex_entry 10 0 10 "running" "a/after.fit";
      ex_entry 9 59 50 "running" "a/before.fit" ].

Definition ex_start : Datetime.datetime := Datetime.mk 2024 1 1 10 0 0 0 None.

Definition ex_after : FitFileEntry := ex_entry 10 0 10 "running" "a/after.fit".

(** Ten seconds, as [total_seconds] gives them. *)
Definition ex_ten_seconds : Q := 10000000 # 1000000.

Definition ex_day : Datetime.datetime := Datetime.mk 2024 1 1 0 0 0 0 None.

Definition ex_docs : list json := [JArr [JObj ex_agg; JObj (ex_hydration_entry 500)]].


(** The example export with a day declared to lack wellness data, and
    the facade built from it. *)
Definition ex_world_no_wellness : world :=
  {| fs := {| tree := tree ex_fs;
              files := <["/e/DI-Connect-Aggregator/UDSFile_2024.json" :=
                           FileJson (JArr [JObj ex_agg_no_wellness])]> (files ex_fs) |};
     log := [] |}.

Definition ex_self_no_wellness : GarminBulkExport :=
  the (fst (__init__ "/e" ex_world_no_wellness)) ex_dummy.

(** ** The loaders as functions of the directory, and the single-file importer *)

Import Datetime.

(** What [strptime] reads back from [strftime]: the same calendar
    fields down to the second, no microseconds and no offset. *)
Definition to_seconds (d : Datetime.datetime) : Datetime.datetime :=
  Datetime.mk (Datetime.year d) (Datetime.month d) (Datetime.day d)
    (Datetime.hour d) (Datetime.minute d) (Datetime.second d) 0 None.

(** The paths [load_activities] reads. *)
Definition summary_paths (self : GarminBulkExport) : list string :=
  filter (fun p => re_search "DI-Connect-Fitness.*summarizedActivities.json" p)
         (all_files self).

(** The summaries of the files, in reading order, before they are put
    into the shape of the API. *)
Definition raw_activities (f : filesystem) (paths : list string) : result (list json) :=
  rfold (fun acc p => data ← json_of f p; data ← as_list data; rfold extend_activities acc data)
        [] paths.

Definition normalize_all (raw : list json) : result (list pydict) :=
  rfold (fun acc a => a ← normalize_activity a; Ok (acc ++ [a])) [] raw.

(** [load_activities] as a function of the directory. *)
Definition activities_of (self : GarminBulkExport) (f : filesystem) : result activities_t :=
  match summary_paths self with
  | [] => Ok NoActivities
  | ps =>
      raw ← raw_activities f ps;
      acts ← normalize_all raw;
      Ok (Activities (sorted acts))
  end.

(** The wall-clock fields of a value, in whole seconds since the start
    of day 0 of the calendar. *)
Definition wall_s (d : Datetime.datetime) : Z :=
  Datetime.toordinal d * 86400 + Datetime.hour d * 3600 + Datetime.minute d * 60
  + Datetime.second d.

(** The paths [load_sleep_stats] and [load_agg_stats] read. *)
Definition sleep_paths (self : GarminBulkExport) : list string :=
  filter (fun p => re_search "DI-Connect-Wellness.*sleepData.json" p) (all_files self).

Definition agg_paths (self : GarminBulkExport) : list string :=
  filter (fun p => re_search "DI-Connect-Aggregator.*UDSFile.*.json" p) (all_files self).

(** [load_sleep_stats] as a function of the directory. *)
Definition sleep_of (self : GarminBulkExport) (f : filesystem) : result (gmap string pydict) :=
  match sleep_paths self with
  | [] => Err (GarminBulkImporterError "Failed to find any sleep stats files")
  | ps => rfold (fun acc p => data ← json_of f p; sleep_file acc data) ∅ ps
  end.

(** [load_agg_stats] as a function of the directory. *)
Definition agg_of (self : GarminBulkExport) (f : filesystem)
    : result (gmap string pydict * gmap string pydict) :=
  match agg_paths self with
  | [] => Err (GarminBulkImporterError "Failed to find any aggregated stats files")
  | ps => rfold (fun acc p => data ← json_of f p; agg_file self acc data) (∅, ∅) ps
  end.

(** [Path.exists()] as a function of the directory. *)
Definition exists_in (f : filesystem) (p : string) : bool :=
  bool_decide (is_Some (tree f !! p)) || bool_decide (is_Some (files f !! p)).

(** The loads of the constructor as a function of the directory. *)
Definition loads_of (p : string) (f : filesystem) : result GarminBulkExport :=
  if negb (exists_in f p) then Err (GarminBulkImporterError (p +:+ " does not exist"))
  else
    let all_files := default [] (tree f !! p) in
    acts ← activities_of (mkGarminBulkExport p all_files NoActivities ∅ ∅ ∅ "" []) f;
    sleep ← sleep_of (mkGarminBulkExport p all_files acts ∅ ∅ ∅ "" []) f;
    '(agg, hydration) ← agg_of (mkGarminBulkExport p all_files acts sleep ∅ ∅ "" []) f;
    Ok (mkGarminBulkExport p all_files acts sleep agg hydration
          (path_join p CACHED_FIT_FILE_INDEX_FILENAME) []).

(** The start of an activity as the export gives it: [startTimeGmt],
    in milliseconds since the epoch, and the whole second it falls
    in. *)
Definition start_ms (act : pydict) : Z :=
  match as_int (get act "startTimeGmt") with Ok n => n | Err _ => 0 end.

Definition start_second (act : pydict) : Z := start_ms act / 1000.

(** The first second of a day, counted from the epoch. *)
Definition day_start (d : Datetime.datetime) : Z :=
  (Datetime.toordinal d - Datetime.toordinal Datetime.EPOCH) * 86400.

(** The activity starts between the first second of the day [sd] and
    the last second of the day [ed]. *)
Definition starts_in_days (sd ed : Datetime.datetime) (act : pydict) : bool :=
  (day_start sd <=? start_second act) && (start_second act <=? day_start ed + 86399).

(** An activity in the shape the loader gives it. *)
Definition loaded (act : pydict) : Prop :=
  ∃ dt, fromtimestamp_ms (start_ms act) = Ok dt ∧
        act !! "startTimeGMT" = Some (JStr (strftime dt)).

(** A record stored under the date [k]: it carries a [calendarDate]
    that strips to [k]. *)
Definition dated (k : string) (r : pydict) : Prop :=
  ∃ x, r !! "calendarDate" = Some (JStr x) ∧ Str.strip x = k.

(** The keys of a merged map are stripped dates. *)
Definition stripped_keys (m : gmap string pydict) : Prop :=
  ∀ k r, m !! k = Some r → Str.strip k = k.

(** What [load_sleep_stats] keeps for every record of its map. *)
Definition sleep_inv (sleep : gmap string pydict) : Prop :=
  ∀ k r, sleep !! k = Some r →
    dated k r ∧ ∃ ts, r !! "sleepEndTimestampGMT" = Some (JNum ts).

(** What [load_agg_stats] keeps for every record of its two maps: a
    daily record carries the [sleepingSeconds] computed for its date as
    written. *)
Definition agg_inv (self : GarminBulkExport)
    (acc : gmap string pydict * gmap string pydict) : Prop :=
  (∀ k r, acc.1 !! k = Some r →
     ∃ x, r !! "calendarDate" = Some (JStr x) ∧ Str.strip x = k ∧
          r !! "sleepingSeconds" = Some (sleeping_seconds_of (sleep_stats self) x)) ∧
  (∀ k r, acc.2 !! k = Some r → dated k r).

Definition dup_sleep_msg (d : string) : string :=
  "Duplicate entries found for sleep stats dated on " +:+ d.

(** The sentinel [get_sleep_data] returns for a date without record. *)
Definition no_sleep_data : pydict :=
  {["dailySleepDTO" := JObj {["sleepEndTimestampGMT" := JNull]}]}.

(** Code that writes no file but [q], adds at most [q] to the listing
    of a directory, and only adds lines to the log. *)
Definition writes_only {A} (q : string) (m : M A) : Prop :=
  ∀ w r w', m w = (r, w') →
    (∀ q', q' ≠ q → files (fs w') !! q' = files (fs w) !! q') ∧
    (∀ d, tree (fs w') !! d = tree (fs w) !! d
          ∨ ∃ l, tree (fs w) !! d = Some l ∧ (q ∉ l) ∧ tree (fs w') !! d = Some (l ++ [q])) ∧
    ∃ lg, log w' = log w ++ lg.

(** The facade as the constructor has it when it starts to load: the
    path and the files found below it. *)
Definition bare (p : string) (f : filesystem) : GarminBulkExport :=
  mkGarminBulkExport p (default [] (tree f !! p)) NoActivities ∅ ∅ ∅ "" [].

Definition no_sleep_files_msg : string := "Failed to find any sleep stats files".
Definition no_agg_files_msg : string := "Failed to find any aggregated stats files".

Definition mixed_dates_msg : string := "can't subtract offset-naive and offset-aware datetimes".

(** The name has no directory part. *)
Definition no_slash (s : string) : bool :=
  negb (existsb (Ascii.eqb "/") (list_ascii_of_string s)).

(** ** The single-file importer: [fit_activity_importer.py] *)

Module FitActivityImporter.

(** A field value of a decoded message, as [get_fit_activity_summary]
    uses it: [None], a boolean, an integer, a finite float (the
    rational it denotes), a string or a [datetime]. *)
Inductive value :=
| VNone
| VBool (b : bool)
| VInt (n : Z)
| VFloat (q : Q)
| VStr (s : string)
| VDate (d : Datetime.datetime).

(** A message: its name, and its fields in the order of iteration. *)
Record message := {
  name : string;
  fields : list (string * value)
}.

(** The exceptions of the function: the built-in ones, and the
    [OverflowError] of the date arithmetic. *)
Inductive error :=
| Raised (e : exn)
| OverflowError.

Inductive outcome (A : Type) :=
| Return (a : A)
| Raise (e : error).
Arguments Return {A} a.
Arguments Raise {A} e.

#[global] Instance outcome_ret : MRet outcome := fun _ a => Return a.
#[global] Instance outcome_bind : MBind outcome := fun _ _ k r =>
  match r with Return a => k a | Raise e => Raise e end.

Abbreviation dict := (gmap string value).

(** A point for the database. *)
Record point := {
  measurement : string;
  time : string;
  tags : dict;
  point_fields : dict
}.

(** [for field in msg: data[field.name] = field.value] *)
Definition update (data : dict) (msg : message) : dict :=
  foldl (fun d f => <[f.1 := f.2]> d) data (fields msg).

(** The body of the loop over the messages: the triple is
    [(file_data, session_data, activity_data)]. *)
Definition collect_step (acc : dict * dict * dict) (msg : message) : dict * dict * dict :=
  let '(file_data, session_data, activity_data) := acc in
  if String.eqb (name msg) "file_id" then (update file_data msg, session_data, activity_data)
  else if String.eqb (name msg) "session" then (file_data, update session_data msg, activity_data)
  else if String.eqb (name msg) "activity" then (file_data, session_data, update activity_data msg)
  else acc.

Definition collect (fit_file : list message) : dict * dict * dict :=
  foldl collect_step (∅, ∅, ∅) fit_file.

(** [int.from_bytes(bs, byteorder="big", signed=False)] *)
Definition from_bytes_big (bs : list Byte.byte) : Z :=
  foldl (fun acc b => acc * 256 + Z.of_N (Byte.to_N b)) 0 bs.

Definition upper_char (c : ascii) : ascii :=
  let n := Str.code c in
  if (97 <=? n) && (n <=? 122) then ascii_of_N (Z.to_N (n - 32)) else c.

(** [s.capitalize()] on ASCII text *)
Definition capitalize (s : string) : string :=
  match s with
  | String c r => String (upper_char c) (Str.lower r)
  | EmptyString => EmptyString
  end.

(** The digits of an integer literal: single underscores may separate
    digits. *)
Fixpoint literal_digits (s : string) (acc : Z) (after_digit : bool) : option Z :=
  match s with
  | EmptyString => if after_digit then Some acc else None
  | String c r =>
      match Dec.digit_val c with
      | Some v => literal_digits r (acc * 10 + v) true
      | None =>
          if Ascii.eqb c "_" && after_digit then literal_digits r acc false else None
      end
  end.

(** [int(s)] for a string, in base 10: white space around, a sign,
    digits. *)
Definition int_of_str (s : string) : option Z :=
  match Str.strip s with
  | String c r =>
      if Ascii.eqb c "-" then Z.opp <$> literal_digits r 0 false
      else if Ascii.eqb c "+" then literal_digits r 0 false
      else literal_digits (String c r) 0 false
  | EmptyString => None
  end.

(** [int(x)]: a float is cut towards zero. *)
Definition py_int (v : value) : outcome Z :=
  match v with
  | VInt n => Return n
  | VBool b => Return (Z.b2z b)
  | VFloat q => Return (Qnum q ÷ Z.pos (Qden q))
  | VStr s =>
      match int_of_str s with
      | Some n => Return n
      | None => Raise (Raised (ValueError "invalid literal for int() with base 10"))
      end
  | VNone | VDate _ =>
      Raise (Raised (TypeError "int() argument must be a string or a real number"))
  end.

(** [x.replace(tzinfo=timezone.utc)] *)
Definition replace_utc (v : value) : outcome Datetime.datetime :=
  match v with
  | VDate d => Return (Datetime.replace_tzinfo d Datetime.utc)
  | VStr _ => Raise (Raised (TypeError "str.replace() takes no keyword arguments"))
  | _ => Raise (Raised (AttributeError "object has no attribute 'replace'"))
  end.

Definition _MAXORDINAL : Z := 3652059.

(** [d + timedelta(seconds=n)]: the day and the time of day are
    recomputed; a result outside the years 1 to 9999 raises
    [OverflowError]. *)
Definition add_seconds (d : Datetime.datetime) (n : Z) : outcome Datetime.datetime :=
  let total :=
    Datetime.toordinal d * 86400 + Datetime.hour d * 3600 + Datetime.minute d * 60
    + Datetime.second d + n in
  let days := total / 86400 in
  let secs := total mod 86400 in
  if (0 <? days) && (days <=? _MAXORDINAL) then
    let '(y, m, dd) := Datetime._ord2ymd days in
    Return (Datetime.mk y m dd (secs / 3600) (secs mod 3600 / 60) (secs mod 60)
              (Datetime.microsecond d) (Datetime.tzinfo d))
  else Raise OverflowError.

(** [d.strftime("%Y%m%dT%H%M%SUTC-")] *)
Definition selector_prefix (d : Datetime.datetime) : string :=
  Dec.pad 4 (Datetime.year d) +:+ Dec.pad 2 (Datetime.month d) +:+ Dec.pad 2 (Datetime.day d)
  +:+ "T" +:+ Dec.pad 2 (Datetime.hour d) +:+ Dec.pad 2 (Datetime.minute d)
  +:+ Dec.pad 2 (Datetime.second d) +:+ "UTC-".

(** [d.get(k)] *)
Definition dict_get (d : dict) (k : string) : value := default VNone (d !! k).

Section summary.

(** The digest [hashlib.md5(json.dumps(file_data, sort_keys=True,
    separators=(",", ":"), default=str).encode("utf-8")).digest()], a
    function of the dictionary, and the database name of
    [garmin_fetch]. *)
Variable md5_digest : dict → list Byte.byte.
Variable INFLUXDB_DATABASE : string.

Definition point_tags (file_data : dict) (activity_id : Z) (activity_selector : string) : dict :=
  <["Device" := default (VStr "Garmin") (file_data !! "garmin_product")]>
  (<["Database_Name" := VStr INFLUXDB_DATABASE]>
   (<["ActivityID" := VInt activity_id]>
    (<["ActivitySelector" := VStr activity_selector]> ∅))).

Definition start_fields (file_data session_data : dict) (activity_type : value)
    (activity_name : string) (elapsed_duration moving_duration : value) : dict :=
  <["Device_ID" := dict_get file_data "serial_number"]>
  (<["activityType" := activity_type]>
   (<["activityName" := VStr activity_name]>
    (<["distance" := dict_get session_data "total_distance"]>
     (<["elapsedDuration" := elapsed_duration]>
      (<["movingDuration" := moving_duration]>
       (<["averageSpeed" := dict_get session_data "avg_speed"]>
        (<["maxSpeed" := dict_get session_data "max_speed"]>
         (<["calories" := dict_get session_data "total_calories"]>
          (<["averageHR" := dict_get session_data "avg_heart_rate"]>
           (<["maxHR" := dict_get session_data "max_heart_rate"]>
            (<["lapCount" := dict_get session_data "num_laps"]> ∅))))))))))).

Definition end_fields (file_data : dict) (activity_id : Z) : dict :=
  <["Device_ID" := dict_get file_data "serial_number"]>
  (<["ActivityID" := VInt activity_id]>
   (<["activityName" := VStr "END"]>
    (<["activityType" := VStr "No Activity"]> ∅))).

(** [get_fit_activity_summary(fit_file)], on the messages of the
    file.  [str(activity_type)] cannot fail; for a value that is not a
    string the f-string of the activity name raises before anything is
    returned, so the selector is built for strings only. *)
Definition get_fit_activity_summary (fit_file : list message)
    : outcome (Z * value * point * point) :=
  let '(file_data, session_data, activity_data) := collect fit_file in
  let md5hash := md5_digest file_data in
  let activity_id := from_bytes_big (take 4 md5hash) in
  match session_data !! "start_time" with
  | None => Raise (Raised (ValueError "FIT file does not contain a session start_time"))
  | Some st =>
      start_time ← replace_utc st;
      let elapsed_duration := default (VInt 0) (session_data !! "total_elapsed_time") in
      let moving_duration := default (VInt 0) (session_data !! "total_timer_time") in
      let activity_type := default (VStr "Unknown") (session_data !! "sport") in
      match activity_type with
      | VStr sport =>
          let activity_selector := selector_prefix start_time +:+ sport in
          let start_point :=
            {| measurement := "ActivitySummary";
               time := Datetime.isoformat start_time;
               tags := point_tags file_data activity_id activity_selector;
               point_fields :=
                 start_fields file_data session_data activity_type
                   (capitalize sport +:+ " " +:+ Datetime.date_str start_time)
                   elapsed_duration moving_duration |} in
          n ← py_int elapsed_duration;
          end_time ← add_seconds start_time n;
          let end_point :=
            {| measurement := "ActivitySummary";
               time := Datetime.isoformat end_time;
               tags := point_tags file_data activity_id activity_selector;
               point_fields := end_fields file_data activity_id |} in
          Return (activity_id, activity_type, start_point, end_point)
      | _ => Raise (Raised (AttributeError "object has no attribute 'capitalize'"))
      end
  end.

End summary.

(** The dictionaries of the loop. *)
Definition file_data (fit_file : list message) : dict := (collect fit_file).1.1.
Definition session_data (fit_file : list message) : dict := (collect fit_file).1.2.

(** The value of a field in the last message called [nm] that has
    it. *)
Fixpoint last_field (nm k : string) (msgs : list message) : option value :=
  match msgs with
  | [] => None
  | m :: rest =>
      match last_field nm k rest with
      | Some v => Some v
      | None => if String.eqb (name m) nm then update ∅ m !! k else None
      end
  end.

End FitActivityImporter.

(** The message is one of the file's identification. *)
Definition is_file_id (m : FitActivityImporter.message) : bool :=
  String.eqb (FitActivityImporter.name m) "file_id".

(** ** Further examples *)

(** The daily record of the example with white space after its
    date, and the export that holds it. *)
Definition ex_agg_padded : pydict := <["calendarDate" := JStr "2024-01-01 "]> ex_agg.

Definition ex_world_padded : world :=
  {| fs := {| tree := tree ex_fs;
              files := <["/e/DI-Connect-Aggregator/UDSFile_2024.json" :=
                           FileJson (JArr [JObj ex_agg_padded])]> (files ex_fs) |};
     log := [] |}.

Definition ex_self_padded : GarminBulkExport :=
  the (fst (__init__ "/e" ex_world_padded)) ex_dummy.

(** An archive with a recording the decoder rejects. *)
Definition ex_zip_corrupt : archive :=
  [ ("a/bad.FIT", {| member_bytes := "junk";
                     member_fit := FitParseError "Invalid .FIT File Header" |}) ].

Definition ex_world_corrupt : world :=
  {| fs := {| tree := tree ex_fs;
              files := <[ex_zip_path := FileZip ex_zip_corrupt]> (files ex_fs) |};
     log := [] |}.

(** The example export with a cache file that holds an object. *)
Definition ex_world_bad_cache : world :=
  {| fs := {| tree := tree ex_fs;
              files := <[ex_cache_path := FileJson (JObj ∅)]> (files ex_fs) |};
     log := [] |}.

(** A facade whose index holds an entry without offset. *)
Definition ex_entry_naive : FitFileEntry :=
  mkFitFileEntry (Datetime.mk 2024 1 1 10 0 10 0 None) (FJson (JStr "running"))
    ex_zip_path "a/run.fit".

Definition ex_self_naive : GarminBulkExport :=
  mkGarminBulkExport "/e" [] (activities ex_self) ∅ ∅ ∅ ex_cache_path
    [ ex_entry 10 4 30 "running" "a/run.fit"; ex_entry_naive ].

(** The last activity of the example facade. *)
Definition ex_last : pydict := the (get_last_activity ex_self) ∅.

(** A session message without fields. *)
Definition ex_bare_session : fit_message := {| msg_name := "session"; msg_fields := [] |}.

(** Files for the single-file importer: a digest that is the same for
    every dictionary, a file with two sessions, one with the same
    identification and another session, and one whose sport has no
    value. *)
Definition ex_digest (_ : FitActivityImporter.dict) : list Byte.byte :=
  [Byte.x01; Byte.x02; Byte.x03; Byte.x04; Byte.x05; Byte.x06; Byte.x07; Byte.x08;
   Byte.x09; Byte.x0a; Byte.x0b; Byte.x0c; Byte.x0d; Byte.x0e; Byte.x0f; Byte.x10].

Definition ex_file_id : FitActivityImporter.message :=
  {| FitActivityImporter.name := "file_id";
     FitActivityImporter.fields :=
       [("serial_number", FitActivityImporter.VInt 1);
        ("garmin_product", FitActivityImporter.VStr "fenix")] |}.

Definition ex_fit_start : Datetime.datetime := Datetime.mk 2024 1 1 23 59 30 0 None.

Definition ex_fit : list FitActivityImporter.message :=
  [ ex_file_id;
    {| FitActivityImporter.name := "session";
       FitActivityImporter.fields :=
         [("start_time", FitActivityImporter.VDate ex_fit_start);
          ("sport", FitActivityImporter.VStr "running");
          ("total_distance", FitActivityImporter.VInt 5000)] |};
    {| FitActivityImporter.name := "record"; FitActivityImporter.fields := [] |};
    {| FitActivityImporter.name := "session";
       FitActivityImporter.fields :=
         [("total_elapsed_time", FitActivityImporter.VFloat (613 # 10));
          ("total_distance", FitActivityImporter.VInt 7000)] |} ].

Definition ex_fit_other : list FitActivityImporter.message :=
  [ {| FitActivityImporter.name := "session";
       FitActivityImporter.fields :=
         [("start_time", FitActivityImporter.VDate ex_day)] |};
    ex_file_id ].

Definition ex_fit_null_sport : list FitActivityImporter.message :=
  [ {| FitActivityImporter.name := "session";
       FitActivityImporter.fields :=
         [("start_time", FitActivityImporter.VDate ex_fit_start);
          ("sport", FitActivityImporter.VNone)] |} ].

Definition ex_point : FitActivityImporter.point :=
  {| FitActivityImporter.measurement := ""; FitActivityImporter.time := "";
     FitActivityImporter.tags := ∅; FitActivityImporter.point_fields := ∅ |}.

(** What [get_fit_activity_summary] returns for a file. *)
Definition ex_summary (msgs : list FitActivityImporter.message)
    : Z * FitActivityImporter.value * FitActivityImporter.point * FitActivityImporter.point :=
  match FitActivityImporter.get_fit_activity_summary ex_digest "GarminStats" msgs with
  | FitActivityImporter.Return r => r
  | FitActivityImporter.Raise _ => (0, FitActivityImporter.VNone, ex_point, ex_point)
  end.

(** * Properties *)

(** ** Helper lemmas *)

Import Datetime.

Lemma app_assoc_s (a b c : string) : (a +:+ b) +:+ c = a +:+ (b +:+ c).
Proof.
  induction a as [|x a IH]; [reflexivity|].
  change (String x ((a +:+ b) +:+ c) = String x (a +:+ (b +:+ c))). by rewrite IH.
Qed.

Lemma digit_val_digit n : 0 <= n < 10 → Dec.digit_val (Dec.digit n) = Some n.
Proof.
  intros H.
  assert (Hc : n = 0 ∨ n = 1 ∨ n = 2 ∨ n = 3 ∨ n = 4 ∨ n = 5 ∨ n = 6 ∨ n = 7 ∨ n = 8 ∨ n = 9) by lia.
  destruct Hc as [->|[->|[->|[->|[->|[->|[->|[->|[->| ->]]]]]]]]]; reflexivity.
Qed.

Lemma digits_app w n tail rest : Dec.digits w n tail +:+ rest = Dec.digits w n (tail +:+ rest).
Proof. revert n tail. induction w as [|w IH]; intros n tail; simpl; [done|]. by rewrite IH. Qed.

Lemma take_digits w : ∀ k n tail a, 0 <= n < 10 ^ Z.of_nat w →
  Dec.take (w + k) (Dec.digits w n tail) a = Dec.take k tail (a * 10 ^ Z.of_nat w + n).
Proof.
  induction w as [|w IH]; intros k n tail a Hn.
  - simpl in *. f_equal. lia.
  - cbn [Dec.digits]. replace (S w + k)%nat with (w + S k)%nat by lia.
    rewrite Nat2Z.inj_succ, Z.pow_succ_r in Hn by lia.
    rewrite IH by (split; [apply Z.div_pos; lia | apply Z.div_lt_upper_bound; lia]).
    cbn [Dec.take]. rewrite digit_val_digit by (apply Z.mod_pos_bound; lia).
    f_equal. rewrite Nat2Z.inj_succ, Z.pow_succ_r by lia.
    pose proof (Z.div_mod n 10 ltac:(lia)). lia.
Qed.

Lemma take_pad w n rest : 0 <= n < 10 ^ Z.of_nat w →
  Dec.take w (Dec.pad w n +:+ rest) 0 = Some (n, rest).
Proof.
  intros H. unfold Dec.pad. rewrite digits_app.
  change (EmptyString +:+ rest) with rest.
  pose proof (take_digits w 0 n rest 0 H) as E. rewrite Nat.add_0_r in E. by rewrite E.
Qed.

Lemma append_cons c s t : String c s +:+ t = String c (s +:+ t).
Proof. reflexivity. Qed.
Lemma append_nil_l t : EmptyString +:+ t = t.
Proof. reflexivity. Qed.

Lemma fraction_digits w : ∀ k n tail a, 0 <= n < 10 ^ Z.of_nat w →
  fraction (w + k) (Dec.digits w n tail) a = fraction k tail (a * 10 ^ Z.of_nat w + n).
Proof.
  induction w as [|w IH]; intros k n tail a Hn.
  - simpl in *. f_equal. lia.
  - cbn [Dec.digits]. replace (S w + k)%nat with (w + S k)%nat by lia.
    rewrite Nat2Z.inj_succ, Z.pow_succ_r in Hn by lia.
    rewrite IH by (split; [apply Z.div_pos; lia | apply Z.div_lt_upper_bound; lia]).
    cbn [fraction]. rewrite digit_val_digit by (apply Z.mod_pos_bound; lia).
    f_equal. rewrite Nat2Z.inj_succ, Z.pow_succ_r by lia.
    pose proof (Z.div_mod n 10 ltac:(lia)). lia.
Qed.

Lemma digits_head w n tail :
  ∃ c s v, Dec.digits (S w) n tail = String c s ∧ Dec.digit_val c = Some v.
Proof.
  revert n tail. induction w as [|w IH]; intros n tail.
  - exists (Dec.digit (n mod 10)), tail, (n mod 10). split; [done|].
    apply digit_val_digit, Z.mod_pos_bound. lia.
  - change (Dec.digits (S (S w)) n tail)
      with (Dec.digits (S w) (n / 10) (String (Dec.digit (n mod 10)) tail)).
    apply IH.
Qed.

Lemma valid_fields d : valid d = true →
  (1 <= year d <= 9999) ∧ (1 <= month d <= 12) ∧ (1 <= day d <= 31) ∧
  (0 <= hour d <= 23) ∧ (0 <= minute d <= 59) ∧ (0 <= second d <= 59) ∧
  (0 <= microsecond d <= 999999).
Proof.
  unfold valid, in_range. rewrite !andb_true_iff, !Z.leb_le.
  intros [[[[[[[[??][??]][? Hd]][??]][??]][??]][??]] _].
  repeat split; try lia.
  assert (_days_in_month (year d) (month d) <= 31); [|lia].
  unfold _days_in_month. destruct (_ && _); [lia|].
  unfold _DAYS_IN_MONTH.
  assert (Hm : month d = 1 ∨ month d = 2 ∨ month d = 3 ∨ month d = 4 ∨ month d = 5 ∨ month d = 6
          ∨ month d = 7 ∨ month d = 8 ∨ month d = 9 ∨ month d = 10 ∨ month d = 11 ∨ month d = 12) by lia.
  destruct Hm as [->|[->|[->|[->|[->|[->|[->|[->|[->|[->|[->| ->]]]]]]]]]]]; simpl; lia.
Qed.

Local Opaque Dec.pad Dec.take.

Lemma parse_ymd_date_str d rest : valid d = true →
  parse_ymd (date_str d +:+ rest) = Some (year d, month d, day d, rest).
Proof.
  intros Hv. apply valid_fields in Hv as (?&?&?&_).
  unfold parse_ymd, date_str. rewrite !app_assoc_s.
  rewrite (take_pad 4) by (simpl; lia). simpl.
  rewrite ?append_cons, ?append_nil_l. simpl.
  rewrite (take_pad 2) by (simpl; lia). simpl.
  rewrite ?append_cons, ?append_nil_l. simpl.
  rewrite (take_pad 2) by (simpl; lia). done.
Qed.

Lemma parse_hms_time_str d rest : valid d = true →
  parse_hms (time_str d +:+ rest) = Some (hour d, minute d, second d, rest).
Proof.
  intros Hv. apply valid_fields in Hv as (_&_&_&?&?&?&_).
  unfold parse_hms, time_str. rewrite !app_assoc_s.
  rewrite (take_pad 2) by (simpl; lia). simpl.
  rewrite ?append_cons, ?append_nil_l. simpl.
  rewrite (take_pad 2) by (simpl; lia). simpl.
  rewrite ?append_cons, ?append_nil_l. simpl.
  rewrite (take_pad 2) by (simpl; lia). done.
Qed.

Local Transparent Dec.pad Dec.take.

Lemma parse_fraction_pad us rest : 0 <= us <= 999999 →
  parse_fraction ("." +:+ Dec.pad 6 us +:+ rest) = Some (us, skip_digits rest).
Proof.
  intros Hus. rewrite append_cons, append_nil_l.
  unfold Dec.pad. rewrite digits_app, append_nil_l.
  unfold parse_fraction. rewrite Ascii.eqb_refl. cbn [orb].
  destruct (digits_head 5 us rest) as (c & s & v & Hds & Hc).
  rewrite Hds, Hc, <- Hds.
  pose proof (fraction_digits 6 0 us rest 0 ltac:(simpl; lia)) as F.
  rewrite Nat.add_0_r in F. rewrite F. simpl. do 2 f_equal; lia.
Qed.

Lemma parse_offset_utc : parse_offset "+00:00" = Some utc.
Proof. reflexivity. Qed.

Lemma parse_fraction_plus : parse_fraction "+00:00" = Some (0, "+00:00"%string).
Proof. reflexivity. Qed.

Lemma skip_digits_plus : skip_digits "+00:00" = "+00:00"%string.
Proof. reflexivity. Qed.

Local Opaque Datetime.valid parse_fraction parse_offset skip_digits.

Lemma fromisoformat_isoformat d :
  valid d = true → tzinfo d = utc → fromisoformat (isoformat d) = Ok d.
Proof.
  intros Hv Htz. unfold fromisoformat, parse_iso, isoformat.
  rewrite (append_cons "T"), append_nil_l.
  rewrite parse_ymd_date_str by done. cbn [mbind option_bind].
  rewrite parse_hms_time_str by done. cbn [mbind option_bind].
  rewrite Htz. change (offset_str utc) with "+00:00"%string.
  assert (Hus : 0 <= microsecond d <= 999999) by (apply valid_fields in Hv; tauto).
  assert (Hd : d = mk (year d) (month d) (day d) (hour d) (minute d) (second d)
                      (microsecond d) utc) by (destruct d; simpl in *; by subst).
  destruct (microsecond d =? 0) eqn:E.
  - apply Z.eqb_eq in E. rewrite append_nil_l, parse_fraction_plus.
    cbn [mbind option_bind]. rewrite parse_offset_utc. cbn [mbind option_bind].
    unfold checked. rewrite <- E, <- Hd, Hv. done.
  - rewrite app_assoc_s, parse_fraction_pad by done. cbn [mbind option_bind].
    rewrite skip_digits_plus, parse_offset_utc. cbn [mbind option_bind].
    unfold checked. rewrite <- Hd, Hv. done.
Qed.

Local Transparent Datetime.valid parse_fraction parse_offset skip_digits.

Lemma rbind_Ok {A B} (r : result A) (k : A → result B) b :
  (r ≫= k) = Ok b → ∃ a, r = Ok a ∧ k a = Ok b.
Proof. destruct r as [a|e]; [eauto | discriminate]. Qed.

Lemma rfold_app {A S} (f : S → A → result S) l1 l2 s :
  rfold f s (l1 ++ l2) = (rfold f s l1 ≫= fun s' => rfold f s' l2).
Proof.
  revert s. induction l1 as [|a l1 IH]; intros s; [done|].
  simpl. destruct (f s a) as [s'|e]; simpl; [apply IH | done].
Qed.

Lemma rfold_ext {A S} (f g : S → A → result S) l :
  (∀ s a, f s a = g s a) → ∀ s, rfold f s l = rfold g s l.
Proof.
  intros E. induction l as [|a l IH]; intros s; simpl; [done|].
  rewrite E. destruct (g s a); simpl; [apply IH|done].
Qed.

Lemma rfold_inv {A S} (f : S → A → result S) (P : S → Prop) l :
  (∀ s a s', a ∈ l → P s → f s a = Ok s' → P s') →
  ∀ s s', P s → rfold f s l = Ok s' → P s'.
Proof.
  induction l as [|a l IH]; intros Hf s s' Hs H; simpl in H.
  - inversion H; by subst.
  - apply rbind_Ok in H as (s1 & H1 & H2).
    eapply IH; [| |exact H2].
    + intros ?????. eapply Hf; [by right|done..].
    + eapply Hf; [by left|done..].
Qed.

Lemma reads_ret {A} (a : A) : reads (mret a) (fun _ => Ok a).
Proof. intros [f l]. exists []. simpl. by rewrite app_nil_r. Qed.

Lemma reads_lift {A} (r : result A) : reads (lift r) (fun _ => r).
Proof. intros [f l]. exists []. simpl. unfold lift. simpl. by rewrite app_nil_r. Qed.

Lemma reads_raise {A} e : reads (@raise A e) (fun _ => Err e).
Proof. apply reads_lift. Qed.

Lemma reads_log x : reads (logging_info x) (fun _ => Ok ()).
Proof. intros w. by exists [x]. Qed.

Lemma reads_get_fs : reads get_fs (fun f => Ok f).
Proof. intros [f l]. exists []. simpl. unfold get_fs. simpl. by rewrite app_nil_r. Qed.

Lemma reads_bind {A B} (m : M A) (k : A → M B) r rk :
  reads m r → (∀ a, reads (k a) (rk a)) →
  reads (m ≫= k) (fun f => r f ≫= fun a => rk a f).
Proof.
  intros Hm Hk w. destruct (Hm w) as [lg1 E1].
  unfold mbind at 1, M_bind. rewrite E1.
  destruct (r (fs w)) as [a|e]; simpl.
  - destruct (Hk a {| fs := fs w; log := log w ++ lg1 |}) as [lg2 E2].
    exists (lg1 ++ lg2). rewrite E2. simpl. by rewrite app_assoc.
  - by exists lg1.
Qed.

Lemma reads_ext {A} (m : M A) r r' : reads m r → (∀ f, r f = r' f) → reads m r'.
Proof. intros Hm E w. destruct (Hm w) as [lg H]. exists lg. by rewrite <- E. Qed.

Lemma reads_mfold {A S} (f : S → A → M S) rf l :
  (∀ s a, reads (f s a) (rf s a)) →
  ∀ s, reads (mfold f s l) (fun fs => rfold (fun s a => rf s a fs) s l).
Proof.
  intros Hf. induction l as [|a l IH]; intros s; simpl.
  - apply reads_ret.
  - eapply reads_ext; [apply reads_bind; [apply Hf | intros s'; apply IH]|].
    done.
Qed.

Lemma reads_json_load p : reads (json_load p) (fun f => json_of f p).
Proof.
  intros [f l]. exists []. unfold json_load, json_of, get_fs, mbind, M_bind. simpl.
  rewrite app_nil_r. by destruct (files f !! p) as [[]|].
Qed.

Lemma reads_zip_load p : reads (zip_load p) (fun f => zip_of f p).
Proof.
  intros [f l]. exists []. unfold zip_load, zip_of, get_fs, mbind, M_bind. simpl.
  rewrite app_nil_r. by destruct (files f !! p) as [[]|].
Qed.

Lemma rfold_enumerate {A S} (g : S → A → result S) (l : list A) : ∀ i s,
  rfold (fun s '(i, a) => g s a) s (enumerate_from i l) = rfold g s l.
Proof.
  induction l as [|a l IH]; intros i s; simpl; [done|].
  destruct (g s a); simpl; [apply IH|done].
Qed.

Lemma reads_index_zip acc zp :
  reads (index_zip acc zp) (fun f => z ← zip_of f zp; index_names zp z acc (namelist z)).
Proof.
  unfold index_zip.
  eapply reads_ext.
  - apply reads_bind; [apply reads_zip_load|]. intros z.
    apply reads_bind; [apply reads_log|]. intros ?.
    apply (reads_mfold _ (fun acc '(i, fn) _ => es ← index_file zp z fn; Ok (acc ++ es))).
    intros s [i fn].
    eapply reads_ext.
    + apply reads_bind.
      * instantiate (1 := fun _ => Ok ()). destruct (_ =? _)%nat; [apply reads_log|apply reads_ret].
      * intros ?. apply reads_bind; [apply reads_lift|]. intros es. apply reads_ret.
    + done.
  - intros f. simpl. destruct (zip_of f zp) as [z|]; simpl; [|done].
    unfold index_names. 
    rewrite <- (rfold_enumerate (fun acc fn => es ← index_file zp z fn; Ok (acc ++ es)) (namelist z) 0 acc).
    apply rfold_ext. by intros s [i fn].
Qed.

Lemma reads_index_archives acc zips :
  reads (mfold index_zip acc zips) (fun f => index_archives f acc zips).
Proof. apply (reads_mfold index_zip _ zips), reads_index_zip. Qed.

(** Membership in the result of the indexing loops. *)
Lemma index_names_elem zp z names : ∀ acc idx,
  index_names zp z acc names = Ok idx →
  ∃ ess, Forall2 (fun fn es => index_file zp z fn = Ok es) names ess ∧
         idx = acc ++ concat ess.
Proof.
  unfold index_names. induction names as [|fn names IH]; intros acc idx H; simpl in H.
  - inversion H; subst. exists []. split; [constructor|]. by rewrite app_nil_r.
  - apply rbind_Ok in H as (acc' & H1 & H2).
    apply rbind_Ok in H1 as (es & H1 & H1'). inversion H1'; subst.
    destruct (IH _ _ H2) as (ess & HF & ->).
    exists (es :: ess). split; [by constructor|]. simpl. by rewrite app_assoc.
Qed.

Lemma index_archives_elem f zips : ∀ acc idx,
  index_archives f acc zips = Ok idx →
  ∃ per_zip,
    Forall2 (fun zp ess => ∃ z, zip_of f zp = Ok z ∧
               Forall2 (fun fn es => index_file zp z fn = Ok es) (namelist z) ess)
            zips per_zip ∧
    idx = acc ++ concat (map (fun ess => concat ess) per_zip).
Proof.
  unfold index_archives. induction zips as [|zp zips IH]; intros acc idx H; simpl in H.
  - inversion H; subst. exists []. split; [constructor|]. by rewrite app_nil_r.
  - apply rbind_Ok in H as (acc' & H1 & H2).
    apply rbind_Ok in H1 as (z & Hz & H1).
    apply index_names_elem in H1 as (ess & HF & ->).
    destruct (IH _ _ H2) as (pz & HF2 & ->).
    exists (ess :: pz). split; [constructor; eauto|]. simpl. by rewrite app_assoc.
Qed.

Lemma session_step_other acc m : is_session m = false → session_step acc m = Ok acc.
Proof. unfold session_step, is_session. by intros ->. Qed.

Lemma session_step_session acc m r : is_session m = true → session_step acc m = Ok r →
  ∃ d, get_fields m !! "start_time" = Some (FDate d) ∧
       r = (sport_of m, Some (replace_tzinfo d utc)).
Proof.
  unfold session_step, is_session. intros -> H.
  destruct (get_fields m !! "start_time") as [[d|j]|] eqn:E; simpl in H; try discriminate.
  inversion H; subst. eauto.
Qed.

Lemma scan_sessions msgs : ∀ acc r,
  rfold session_step acc msgs = Ok r →
  match last_session msgs with
  | None => r = acc
  | Some s => ∃ d, get_fields s !! "start_time" = Some (FDate d) ∧
                   r = (sport_of s, Some (replace_tzinfo d utc))
  end.
Proof.
  unfold last_session.
  induction msgs as [|m msgs IH]; intros acc r H; simpl in H.
  - by inversion H.
  - apply rbind_Ok in H as (acc' & H1 & H2). specialize (IH _ _ H2).
    rewrite filter_cons. destruct (decide (is_session m = true)) as [Hs|Hs].
    + destruct (filter _ msgs) as [|m' ms'] eqn:E.
      * simpl in *. subst. by eapply session_step_session.
      * rewrite last_cons. destruct (last (m' :: ms')); [done|].
        subst. by eapply session_step_session.
    + apply not_true_is_false in Hs. rewrite session_step_other in H1 by done.
      inversion H1; subst. done.
Qed.

Lemma scan_no_session msgs acc :
  Forall (fun m => is_session m = false) msgs → rfold session_step acc msgs = Ok acc.
Proof.
  induction 1 as [|m msgs Hm _ IH]; simpl; [done|].
  rewrite session_step_other by done. simpl. apply IH.
Qed.

Lemma last_session_None msgs :
  last_session msgs = None ↔ Forall (fun m => is_session m = false) msgs.
Proof.
  unfold last_session. rewrite last_None. split.
  - intros E. apply Forall_forall. intros m Hm.
    destruct (is_session m) eqn:Es; [|done].
    assert (m ∈ filter (λ m, is_session m = true) msgs) as Hin by (apply list_elem_of_filter; done).
    rewrite E in Hin. by apply elem_of_nil in Hin.
  - intros HF. induction HF as [|m msgs Hm _ IH]; [done|].
    rewrite filter_cons. destruct (decide _) as [Hs|]; [congruence|done].
Qed.

Lemma session_entry_spec zp fn msgs es :
  session_entry zp fn msgs = Ok es →
  match last_session msgs with
  | None => es = []
  | Some s => ∃ d, get_fields s !! "start_time" = Some (FDate d) ∧
      es = if is_None (sport_of s) then []
           else [mkFitFileEntry (replace_tzinfo d utc) (sport_of s) zp fn]
  end.
Proof.
  unfold session_entry. intros H.
  apply rbind_Ok in H as ([sp sd] & H1 & H2).
  apply scan_sessions in H1. destruct (last_session msgs) as [s|].
  - destruct H1 as (d & Hd & E). inversion E; subst. exists d. split; [done|].
    simpl in H2. destruct (is_None (sport_of s)); simpl in H2; by inversion H2.
  - inversion H1; subst. simpl in H2. by inversion H2.
Qed.

Lemma zip_open_elem z fn m : zip_open z fn = Ok m → (fn, m) ∈ z.
Proof.
  induction z as [|[n m'] z IH]; simpl; [done|].
  destruct (zip_open z fn) as [m0|e] eqn:E.
  - intros H; inversion H; subst. right. by apply IH.
  - destruct (String.eqb n fn) eqn:En; [|done].
    apply String.eqb_eq in En as ->. intros H; inversion H; subst. by left.
Qed.

Lemma zip_open_namelist z fn : fn ∈ namelist z → ∃ m, zip_open z fn = Ok m.
Proof.
  unfold namelist. induction z as [|[n m'] z IH]; simpl; [by intros ?%elem_of_nil|].
  intros [E|Hin]%elem_of_cons.
  - simpl in E. subst n. destruct (zip_open z fn); [eauto|]. rewrite String.eqb_refl. eauto.
  - destruct (IH Hin) as [m ->]. eauto.
Qed.

Lemma get_fields_elem m k v : get_fields m !! k = Some v → (k, v) ∈ msg_fields m.
Proof.
  unfold get_fields.
  assert (G : ∀ l (acc : gmap string fit_value),
             foldl (fun data f => <[f.1 := f.2]> data) acc l !! k = Some v →
             (k, v) ∈ l ∨ acc !! k = Some v).
  { induction l as [|[k' v'] l IH]; intros acc H; simpl in H; [by right|].
    destruct (IH _ H) as [?|H']; [left; by right|].
    simpl in H'. destruct (decide (k' = k)) as [->|Hne].
    - rewrite lookup_insert_eq in H'. inversion H'; subst. left; by left.
    - rewrite lookup_insert_ne in H' by done. by right. }
  intros H. destruct (G _ _ H) as [?|H']; [done|]. by rewrite lookup_empty in H'.
Qed.

Lemma last_session_elem msgs s : last_session msgs = Some s → s ∈ msgs.
Proof.
  unfold last_session. intros H.
  assert (s ∈ filter (λ m, is_session m = true) msgs) as Hin.
  { apply list_elem_of_lookup. apply last_Some in H as [l' ->].
    exists (length l'). by rewrite list_lookup_middle. }
  by apply list_elem_of_filter in Hin as [_ ?].
Qed.

Lemma index_file_fit zp z fn : Str.endswith ".fit" (Str.lower fn) = false →
  index_file zp z fn = Ok [].
Proof. unfold index_file. by intros ->. Qed.

Lemma index_file_spec zp z fn es : index_file zp z fn = Ok es →
  ∀ e, e ∈ es →
    zip_file_name e = zp ∧ fit_file_name e = fn ∧
    ∃ m msgs s d, zip_open z fn = Ok m ∧ member_fit m = FitMessages msgs ∧
      last_session msgs = Some s ∧ get_fields s !! "start_time" = Some (FDate d) ∧
      e = mkFitFileEntry (replace_tzinfo d utc) (sport_of s) zp fn.
Proof.
  unfold index_file. destruct (Str.endswith _ _).
  - intros H. apply rbind_Ok in H as (m & Hm & H).
    destruct (member_fit m) as [|msgs] eqn:Ef; [done|].
    apply session_entry_spec in H. destruct (last_session msgs) as [s|] eqn:Es.
    + destruct H as (d & Hd & ->). intros e He.
      destruct (is_None (sport_of s)); [by apply elem_of_nil in He|].
      apply list_elem_of_singleton in He as ->. simpl. split_and!; [done..|].
      exists m, msgs, s, d. done.
    + subst. by intros e ?%elem_of_nil.
  - intros H; inversion H. by intros e ?%elem_of_nil.
Qed.

Lemma elem_of_concat {A} (x : A) (ls : list (list A)) :
  x ∈ concat ls ↔ ∃ l, x ∈ l ∧ l ∈ ls.
Proof.
  induction ls as [|l ls IH]; simpl.
  - split; [by intros ?%elem_of_nil | by intros (l & _ & ?%elem_of_nil)].
  - rewrite elem_of_app, IH. split.
    + intros [?|(l' & ? & ?)]; [exists l; split; [done|by left] | exists l'; split; [done|by right]].
    + intros (l' & Hx & [->|?]%elem_of_cons); [by left | right; eauto].
Qed.

Lemma index_archives_spec f zips idx : index_archives f [] zips = Ok idx →
  (∀ e, e ∈ idx → ∃ zp z fn es, zp ∈ zips ∧ zip_of f zp = Ok z ∧ fn ∈ namelist z ∧
                    index_file zp z fn = Ok es ∧ e ∈ es) ∧
  (∀ zp z fn, zp ∈ zips → zip_of f zp = Ok z → fn ∈ namelist z →
     ∃ es, index_file zp z fn = Ok es ∧ ∀ e, e ∈ es → e ∈ idx).
Proof.
  intros H. apply index_archives_elem in H as (pz & HF & ->). simpl. split.
  - intros e He. apply elem_of_concat in He as (es1 & He & Hes1).
    apply list_elem_of_fmap in Hes1 as (ess & -> & Hess).
    apply elem_of_concat in He as (es & He & Hes).
    apply list_elem_of_lookup in Hess as (i & Hi).
    destruct (Forall2_lookup_r _ _ _ _ _ HF Hi) as (zp & Hzp & z & Hz & HF2).
    apply list_elem_of_lookup in Hes as (j & Hj).
    destruct (Forall2_lookup_r _ _ _ _ _ HF2 Hj) as (fn & Hfn & Hix).
    exists zp, z, fn, es. split_and!; try done.
    + apply list_elem_of_lookup; eauto.
    + apply list_elem_of_lookup; eauto.
  - intros zp z fn Hzp Hz Hfn.
    apply list_elem_of_lookup in Hzp as (i & Hi).
    destruct (Forall2_lookup_l _ _ _ _ _ HF Hi) as (ess & Hess & z' & Hz' & HF2).
    rewrite Hz in Hz'. inversion Hz'; subst z'.
    apply list_elem_of_lookup in Hfn as (j & Hj).
    destruct (Forall2_lookup_l _ _ _ _ _ HF2 Hj) as (es & Hes & Hix).
    exists es. split; [done|]. intros e He.
    apply elem_of_concat. exists (concat ess). split.
    + apply elem_of_concat. exists es. split; [done|]. apply list_elem_of_lookup; eauto.
    + apply list_elem_of_fmap. exists ess. split; [done|]. apply list_elem_of_lookup; eauto.
Qed.

Lemma load_fit_file_index_inv self w idx w' :
  load_fit_file_index self w = (Ok idx, w') →
  index_archives (fs w) [] (zip_paths self) = Ok idx ∧
  forallb snd (map serializable_entry idx) = true ∧
  tree (fs w') = map_imap (fun d l => Some (if Str.startswith (d +:+ "/") (cached_fit_file_index self) && negb (bool_decide (cached_fit_file_index self ∈ l)) then l ++ [cached_fit_file_index self] else l)) (tree (fs w)) ∧
  files (fs w') = <[cached_fit_file_index self := FileJson (cache_document idx)]> (files (fs w)) ∧
  ∃ lg, log w' = log w ++ lg.
Proof.
  unfold load_fit_file_index. fold (zip_paths self).
  destruct (reads_index_archives [] (zip_paths self) w) as [lg E].
  unfold mbind at 1, M_bind. rewrite E.
  destruct (index_archives (fs w) [] (zip_paths self)) as [idx0|e]; [|discriminate].
  unfold cache_fit_file_index, write_file, logging_info, get_fs, put_fs, raise, mbind, M_bind, mret, M_ret.
  simpl. destruct (forallb snd (map serializable_entry idx0)) eqn:Es; simpl; [|discriminate].
  intros H; inversion H; subst. split_and!; try done.
  exists (lg ++ [LogFoundFit (length idx)] ++ [LogCaching (cached_fit_file_index self)]).
  by rewrite <- !app_assoc.
Qed.

Lemma valid_replace_utc d : valid d = true → valid (replace_tzinfo d utc) = true.
Proof.
  unfold valid. rewrite !andb_true_iff. simpl. intros [H _]. split; [exact H|reflexivity].
Qed.

Lemma zip_of_Ok f zp z : zip_of f zp = Ok z → files f !! zp = Some (FileZip z).
Proof. unfold zip_of. destruct (files f !! zp) as [[]|]; intros H; by inversion H. Qed.

Lemma indexed_date_valid f zips idx :
  wf_fs f → index_archives f [] zips = Ok idx →
  ∀ e, e ∈ idx → valid (date e) = true ∧ tzinfo (date e) = utc.
Proof.
  intros Hwf H e He.
  destruct (proj1 (index_archives_spec _ _ _ H) e He) as (zp & z & fn & es & _ & Hz & _ & Hix & Hes).
  destruct (index_file_spec _ _ _ _ Hix e Hes) as (_ & _ & m & msgs & s & d & Hm & Hf & Hs & Hd & ->).
  simpl. split; [|done]. apply valid_replace_utc.
  apply zip_of_Ok in Hz. specialize (Hwf _ _ Hz). simpl in Hwf.
  unfold wf_archive in Hwf. rewrite forallb_forall in Hwf.
  apply zip_open_elem, list_elem_of_In in Hm. specialize (Hwf _ Hm). simpl in Hwf.
  unfold wf_member in Hwf. rewrite Hf, forallb_forall in Hwf.
  apply last_session_elem, list_elem_of_In in Hs. specialize (Hwf _ Hs).
  unfold wf_message in Hwf. rewrite forallb_forall in Hwf.
  apply get_fields_elem, list_elem_of_In in Hd. by specialize (Hwf _ Hd).
Qed.

Lemma cached_entry_serializable e :
  valid (date e) = true → tzinfo (date e) = utc →
  snd (serializable_entry e) = true →
  cached_entry (JObj (fst (serializable_entry e))) = Ok e.
Proof.
  intros Hv Htz Hs. unfold serializable_entry in *.
  destruct e as [d [d'|j] z f]; simpl in *; [discriminate|].
  unfold cached_entry. simpl. unfold getitem.
  rewrite lookup_insert_eq. simpl. rewrite fromisoformat_isoformat by done. simpl.
  rewrite !lookup_insert_ne by done. rewrite lookup_insert_eq. simpl.
  rewrite lookup_insert_ne by done. rewrite lookup_insert_eq. simpl.
  rewrite !lookup_insert_ne by done. rewrite lookup_insert_eq. simpl.
  done.
Qed.

Lemma cached_entries_document idx :
  (∀ e, e ∈ idx → valid (date e) = true ∧ tzinfo (date e) = utc) →
  forallb snd (map serializable_entry idx) = true →
  cached_entries (cache_document idx) = Ok idx.
Proof.
  intros Hd Hs. unfold cached_entries, cache_document. simpl.
  assert (G : ∀ acc, rfold (fun acc entry => e ← cached_entry entry; Ok (acc ++ [e])) acc
                 (map (fun e => JObj (fst e)) (map serializable_entry idx)) = Ok (acc ++ idx)).
  { induction idx as [|e idx IH]; intros acc; simpl; [by rewrite app_nil_r|].
    simpl in Hs. apply andb_true_iff in Hs as [Hs1 Hs2].
    destruct (Hd e ltac:(by left)) as [Hv Htz].
    rewrite cached_entry_serializable by done. simpl.
    rewrite IH; [by rewrite <- app_assoc| |done].
    intros e' He'. apply Hd. by right. }
  apply (G []).
Qed.

(** Claim C6.  When indexing succeeds with an index, the cache file it
    has written deserializes to that same index: the same entries in
    the same order, hence the same dates, activity types, archive paths
    and inner file names as a set.  The decoder's [datetime] values are
    taken to be well-formed dates, as every Python [datetime] is. *)
Theorem cache_round_trip self w idx w' :
  wf_fs (fs w) →
  load_fit_file_index self w = (Ok idx, w') →
  load_cached_fit_file_index (cached_fit_file_index self) w'
  = (Ok (Some idx),
     {| fs := fs w'; log := log w' ++ [LogUsingCache (cached_fit_file_index self)] |}).
Proof.
  intros Hwf H. apply load_fit_file_index_inv in H as (Hix & Hs & _ & Hf & _).
  unfold load_cached_fit_file_index, path_exists, json_load, get_fs, logging_info, lift,
    mbind, M_bind, mret, M_ret. simpl.
  rewrite Hf, lookup_insert_eq. simpl.
  rewrite orb_true_r. simpl. rewrite Hf, lookup_insert_eq. simpl.
  rewrite cached_entries_document; [done| |done].
  by eapply indexed_date_valid.
Qed.

(** Claim C9, as amended.  When indexing succeeds, a recording file
    with no session message contributes nothing and raises nothing; a
    recording file with session messages has, for its last one, a start
    time, and the index holds an entry with that start time in UTC,
    the archive path and the file name, whose activity type is the
    session's [sport] value, or ["Unknown"] when the field is absent;
    when the [sport] field is there with the value [None], the file is
    skipped like a file with no session. *)
Theorem index_entry_per_session self w idx w' zp z fn m msgs :
  load_fit_file_index self w = (Ok idx, w') →
  zp ∈ zip_paths self →
  files (fs w) !! zp = Some (FileZip z) →
  fn ∈ namelist z →
  Str.endswith ".fit" (Str.lower fn) = true →
  zip_open z fn = Ok m →
  member_fit m = FitMessages msgs →
  match last_session msgs with
  | None => index_file zp z fn = Ok [] ∧ no_entry_for idx zp fn
  | Some s =>
      ∃ d, get_fields s !! "start_time" = Some (FDate d) ∧
        match get_fields s !! "sport" with
        | None => mkFitFileEntry (replace_tzinfo d utc) (FJson (JStr "Unknown")) zp fn ∈ idx
        | Some v =>
            if is_None v then no_entry_for idx zp fn
            else mkFitFileEntry (replace_tzinfo d utc) v zp fn ∈ idx
        end
  end.
Proof.
  intros H Hzp Hz Hfn Hfit Hm Hmsgs.
  apply load_fit_file_index_inv in H as (H & _).
  destruct (index_archives_spec _ _ _ H) as [Hfrom Hto].
  assert (Hzo : zip_of (fs w) zp = Ok z) by (unfold zip_of; by rewrite Hz).
  destruct (Hto zp z fn Hzp Hzo Hfn) as (es & Hes & Hsub).
  assert (Hno : es = [] → no_entry_for idx zp fn).
  { intros -> e He [E1 E2].
    destruct (Hfrom e He) as (zp' & z' & fn' & es' & _ & Hz' & _ & Hix' & He').
    destruct (index_file_spec _ _ _ _ Hix' e He') as (E1' & E2' & _).
    rewrite E1 in E1'. rewrite E2 in E2'. subst zp' fn'.
    rewrite Hzo in Hz'. inversion Hz'; subst z'.
    rewrite Hes in Hix'. inversion Hix'; subst es'. by apply elem_of_nil in He'. }
  pose proof Hes as Hes'.
  unfold index_file in Hes'. rewrite Hfit, Hm in Hes'. simpl in Hes'. rewrite Hmsgs in Hes'.
  apply session_entry_spec in Hes'.
  destruct (last_session msgs) as [s|].
  - destruct Hes' as (d & Hd & E). exists d. split; [done|].
    unfold sport_of in E. destruct (get_fields s !! "sport") as [v|]; simpl in E.
    + destruct (is_None v); [by apply Hno|]. apply Hsub. rewrite E. by left.
    + apply Hsub. rewrite E. by left.
  - subst es. split; [done|]. by apply Hno.
Qed.

Lemma Qltb_lt a b : Qltb a b = true ↔ (a < b)%Q.
Proof.
  unfold Qltb. rewrite negb_true_iff. split.
  - intros H. apply Qnot_le_lt. intros Hle. apply Qle_bool_iff in Hle. congruence.
  - intros H. destruct (Qle_bool b a) eqn:E; [|done].
    apply Qle_bool_iff in E. by apply Qlt_not_le in H.
Qed.

Lemma Qltb_ge a b : Qltb a b = false → (b <= a)%Q.
Proof. unfold Qltb. rewrite negb_false_iff. apply Qle_bool_iff. Qed.

Lemma match_step_inv T seen best e best' :
  match_inv T seen best → match_step T best e = Ok best' → match_inv T (seen ++ [e]) best'.
Proof.
  intros Hinv. unfold match_step.
  destruct (Datetime.sub (date e) T) as [td|] eqn:Esub; [|discriminate]. simpl.
  assert (Hd : delta T e = Some (Qabs (Datetime.total_seconds td))) by (unfold delta; by rewrite Esub).
  set (dl := Qabs (Datetime.total_seconds td)) in *.
  change (Z.abs td # 1000000) with dl.
  destruct (Qle_bool dl MAX_TIME_DIFF_SECONDS) eqn:Ew.
  - apply Qle_bool_iff in Ew. destruct best as [[b bd]|].
    + destruct Hinv as (l1 & l2 & -> & Hb & Hbw & Hmin & Hfirst).
      destruct (Qltb dl bd) eqn:El; intros H; injection H as <-.
      * apply Qltb_lt in El. exists (l1 ++ b :: l2), []. split_and!; try done.
        -- intros e' d' [Hin|Hin]%elem_of_app He' Hw'.
           ++ apply Qlt_le_weak. eapply Qlt_le_trans; [exact El|]. by eapply Hmin.
           ++ apply list_elem_of_singleton in Hin as ->. rewrite Hd in He'.
              injection He' as <-. apply Qle_refl.
        -- intros e' d' Hin He' Hw'. eapply Qlt_le_trans; [exact El|]. by eapply Hmin.
      * apply Qltb_ge in El. exists l1, (l2 ++ [e]). split_and!; try done.
        -- by rewrite <- app_assoc.
        -- intros e' d' [Hin|Hin]%elem_of_app He' Hw'; [by eapply Hmin|].
           apply list_elem_of_singleton in Hin as ->. rewrite Hd in He'.
           by injection He' as <-.
    + intros H; injection H as <-. exists seen, []. split_and!; try done.
      * intros e' d' [Hin|Hin]%elem_of_app He' Hw'; [by destruct (Hinv _ _ Hin He')|].
        apply list_elem_of_singleton in Hin as ->. rewrite Hd in He'.
        injection He' as <-. apply Qle_refl.
      * intros e' d' Hin He' Hw'. by destruct (Hinv _ _ Hin He').
  - intros H; injection H as <-.
    assert (Hout : ¬ (dl <= MAX_TIME_DIFF_SECONDS)%Q).
    { intros Hle. apply Qle_bool_iff in Hle. congruence. }
    destruct best as [[b bd]|].
    + destruct Hinv as (l1 & l2 & -> & Hb & Hbw & Hmin & Hfirst).
      exists l1, (l2 ++ [e]). split_and!; try done.
      * by rewrite <- app_assoc.
      * intros e' d' [Hin|Hin]%elem_of_app He' Hw'; [by eapply Hmin|].
        apply list_elem_of_singleton in Hin as ->. rewrite Hd in He'.
        by injection He' as <-.
    + intros e' d' [Hin|Hin]%elem_of_app He'; [by eapply Hinv|].
      apply list_elem_of_singleton in Hin as ->. rewrite Hd in He'. by injection He' as <-.
Qed.

Lemma match_fold_inv T l : ∀ seen best best',
  match_inv T seen best → rfold (match_step T) best l = Ok best' →
  match_inv T (seen ++ l) best'.
Proof.
  induction l as [|e l IH]; intros seen best best' Hinv H; simpl in H.
  - inversion H; subst. by rewrite app_nil_r.
  - apply rbind_Ok in H as (b1 & H1 & H2).
    replace (seen ++ e :: l) with ((seen ++ [e]) ++ l) by (by rewrite <- app_assoc).
    eapply IH; [|exact H2]. by eapply match_step_inv.
Qed.

Lemma match_step_total T best e :
  is_Some (delta T e) → ∃ best', match_step T best e = Ok best'.
Proof.
  intros [d Hd]. unfold delta in Hd. unfold match_step.
  destruct (Datetime.sub (date e) T) as [td|]; [|discriminate]. simpl.
  destruct (Qle_bool _ _); [|eauto].
  destruct best as [[b bd]|]; [destruct (Qltb _ _)|]; eauto.
Qed.

Lemma match_fold_total T l : ∀ best,
  (∀ e, e ∈ l → is_Some (delta T e)) → ∃ best', rfold (match_step T) best l = Ok best'.
Proof.
  induction l as [|e l IH]; intros best Hl; simpl; [eauto|].
  destruct (match_step_total T best e) as [b1 ->]; [apply Hl; by left|]. simpl.
  apply IH. intros; apply Hl; by right.
Qed.


(** Claim C7.  In the original format, [download_activity] raises the
    importer's error, with a message naming the identifier, when no
    loaded activity carries the identifier, and raises it with a
    message naming the identifier and the start time when the activity
    exists and every index entry is farther than 300 seconds from its
    start.  In both cases the directory and the log are returned as
    they were; the facade is only read. *)
Theorem download_lookup_miss self activityId w :
  (find_activity self activityId = None →
   download_activity self activityId ORIGINAL w
   = (Err (GarminBulkImporterError ("Activity ID not found: " +:+ Dec.of_Z activityId)), w))
  ∧
  (∀ act T0,
     find_activity self activityId = Some act →
     start_time_of act = Ok T0 →
     (∀ e, e ∈ fit_file_index self →
        ∃ d, delta (replace_tzinfo T0 utc) e = Some d ∧ ¬ (d <= MAX_TIME_DIFF_SECONDS)%Q) →
     download_activity self activityId ORIGINAL w
     = (Err (GarminBulkImporterError (no_match_msg activityId (replace_tzinfo T0 utc))), w)).
Proof.
  split.
  - intros H. unfold download_activity. by rewrite H.
  - intros act T0 Hact Hstart Hout. unfold download_activity. rewrite Hact.
    unfold mbind, M_bind, lift. rewrite Hstart. simpl.
    destruct (match_fold_total (replace_tzinfo T0 utc) (fit_file_index self) None) as [best Hbest].
    { intros e He. destruct (Hout e He) as (d & -> & _). eauto. }
    unfold best_match_for. rewrite Hbest.
    pose proof (match_fold_inv _ _ [] None _ ltac:(intros ? ? Hin; by apply elem_of_nil in Hin) Hbest) as Hinv.
    destruct best as [[b bd]|]; [|done].
    destruct Hinv as (l1 & l2 & Hl & Hb & Hbw & _). simpl in Hl.
    destruct (Hout b) as (d & Hd & Hn); [rewrite Hl; apply elem_of_app; right; by left|].
    rewrite Hb in Hd. inversion Hd; subst. done.
Qed.

Lemma strptime_date_midnight s d : strptime_date s = Ok d →
  hour d = 0 ∧ minute d = 0 ∧ second d = 0 ∧ microsecond d = 0 ∧ tzinfo d = None.
Proof.
  unfold strptime_date. destruct (parse_date_fields s) as [[[[y m] dd] [|]]|]; try discriminate.
  unfold checked. destruct (valid _); [|discriminate]. intros H; injection H as <-. done.
Qed.

Lemma filter_range_fold start_dt end_dt l : ∀ acc,
  Forall (fun act => is_Ok (start_time_of act) = true) l →
  rfold (fun results act =>
           act_dt ← start_time_of act;
           if Datetime.le start_dt act_dt && Datetime.le act_dt end_dt
           then Ok (results ++ [act]) else Ok results) acc l
  = Ok (acc ++ filter (fun act => starts_within start_dt end_dt act) l).
Proof.
  induction l as [|act l IH]; intros acc Hl; simpl; [by rewrite app_nil_r|].
  apply Forall_cons in Hl as [Ha Hl].
  rewrite filter_cons.
  destruct (start_time_of act) as [t|] eqn:Et; [|discriminate]. simpl.
  assert (Hw : starts_within start_dt end_dt act = le start_dt t && le t end_dt)
    by (unfold starts_within; by rewrite Et).
  destruct (le start_dt t && le t end_dt) eqn:E; simpl.
  - rewrite IH by done. rewrite decide_True by (by rewrite Hw). by rewrite <- app_assoc.
  - rewrite IH by done. rewrite decide_False; [done|]. rewrite Hw. simpl. tauto.
Qed.

(** Claim C4.  For two date strings, [get_activities_by_date s e]
    returns exactly the loaded activities, in their order, whose
    normalized start time lies between [s] at 00:00:00 and [e] at
    23:59:59, both ends included. *)
Theorem activities_by_date_range self s e start_dt end_dt :
  strptime_date s = Ok start_dt →
  strptime_date e = Ok end_dt →
  forallb normalized (activity_list (activities self)) = true →
  get_activities_by_date self s e
  = Ok (filter (fun act => starts_within start_dt (replace_hms end_dt 23 59 59) act)
               (activity_list (activities self)))
  ∧ fields start_dt = [year start_dt; month start_dt; day start_dt; 0; 0; 0; 0]
  ∧ fields (replace_hms end_dt 23 59 59) = [year end_dt; month end_dt; day end_dt; 23; 59; 59; 0].
Proof.
  intros Hs He Hl. unfold get_activities_by_date. rewrite Hs, He. simpl.
  split.
  - rewrite filter_range_fold; [reflexivity|].
    apply Forall_forall. intros act Hact. rewrite forallb_forall in Hl.
    apply Hl. by apply list_elem_of_In.
  - apply strptime_date_midnight in Hs as (Hh & Hm & Hsec & Hus & _).
    apply strptime_date_midnight in He as (_ & _ & _ & Hus' & _).
    unfold fields. simpl. by rewrite Hh, Hm, Hsec, Hus, Hus'.
Qed.

Ltac rstep :=
  cbn [mbind result_bind rbind mret result_ret of_option as_dict as_list as_str in_json
       lookup_json show fst snd negb].

Lemma agg_step_hydration self agg hydration o h d :
  o !! "hydration" = Some (JObj h) → h !! "calendarDate" = Some (JStr d) →
  agg_step self (agg, hydration) (JObj o) = Ok (agg, <[Str.strip d := h]> hydration).
Proof.
  intros Ho Hh. unfold agg_step, contains, getitem. rstep. rewrite Ho. rstep. by rewrite Hh.
Qed.

Lemma agg_step_duplicate self agg hydration o d :
  o !! "hydration" = None → o !! "calendarDate" = Some (JStr d) → is_Some (agg !! d) →
  agg_step self (agg, hydration) (JObj o) = Err (GarminBulkImporterError (dup_agg_msg d)).
Proof.
  intros Ho Hd [s Hs]. unfold agg_step, contains, getitem. rstep.
  rewrite Ho, Hd. rstep. by rewrite Hs.
Qed.

Lemma agg_step_no_date self acc o :
  o !! "hydration" = None → o !! "calendarDate" = None →
  agg_step self acc (JObj o) = Err (KeyError "calendarDate").
Proof.
  intros Ho Hd. destruct acc as [agg hyd]. unfold agg_step, contains, getitem. rstep.
  by rewrite Ho, Hd.
Qed.

Lemma agg_step_stored self agg hydration o acc' :
  o !! "hydration" = None →
  agg_step self (agg, hydration) (JObj o) = Ok acc' →
  ∃ d ss, o !! "calendarDate" = Some (JStr d) ∧ agg !! d = None ∧
          calculate_sleeping_seconds self (JStr d) = Ok ss ∧
          acc' = (<[Str.strip d := <["sleepingSeconds" := ss]> o]> agg, hydration).
Proof.
  intros Ho. unfold agg_step, contains, getitem. rstep. rewrite Ho.
  destruct (o !! "calendarDate") as [j|] eqn:Ed; rstep; [|intros H; discriminate H].
  destruct j as [| | |d| |]; rstep.
  - destruct (calculate_sleeping_seconds self JNull); rstep; intros H; discriminate H.
  - destruct (calculate_sleeping_seconds self (JBool b)); rstep; intros H; discriminate H.
  - destruct (calculate_sleeping_seconds self (JNum n)); rstep; intros H; discriminate H.
  - destruct (agg !! d) eqn:Ea; rstep; [intros H; discriminate H|].
    destruct (calculate_sleeping_seconds self (JStr d)) as [ss|] eqn:Ec; rstep;
      [|intros H; discriminate H].
    intros H; injection H as <-. exists d, ss. split_and!; first [reflexivity | exact Ea | exact Ec].
  - intros H; discriminate H.
  - intros H; discriminate H.
Qed.

Lemma sleep_step_no_date sleep o :
  o !! "calendarDate" = None → sleep_step sleep (JObj o) = Ok sleep.
Proof. intros Hd. unfold sleep_step, contains. rstep. by rewrite Hd. Qed.

(** Claim C8.  A sleep object without the [calendarDate] key is
    skipped: the merged map is what it would be without that object,
    and no error is raised.  A daily-stats object without the key is
    not skipped: subscripting it raises [KeyError], and the merge of a
    file that contains it fails. *)
Theorem missing_date_key self :
  (∀ sleep o, o !! "calendarDate" = None →
     sleep_step sleep (JObj o) = Ok sleep ∧
     ∀ before after,
       rfold sleep_step sleep (before ++ JObj o :: after)
       = rfold sleep_step sleep (before ++ after))
  ∧
  (∀ acc o, o !! "hydration" = None → o !! "calendarDate" = None →
     agg_step self acc (JObj o) = Err (KeyError "calendarDate") ∧
     ∀ before after, ∃ e,
       rfold (agg_step self) acc (before ++ JObj o :: after) = Err e).
Proof.
  split.
  - intros sleep o Hd. split; [by apply sleep_step_no_date|].
    intros before after. rewrite !rfold_app.
    destruct (rfold sleep_step sleep before) as [s1|]; rstep; [|done].
    cbn [rfold]. rstep.
    by rewrite sleep_step_no_date.
  - intros acc o Ho Hd. split; [by apply agg_step_no_date|].
    intros before after. rewrite rfold_app.
    destruct (rfold (agg_step self) acc before) as [s1|e]; rstep; [|eauto].
    cbn [rfold]. rewrite agg_step_no_date by done. rstep. eauto.
Qed.


Lemma as_int_field sr k n :
  as_int (get_default sr k (JNum 0)) = Ok n → field_seconds sr k = n.
Proof.
  unfold field_seconds. destruct (get_default sr k (JNum 0)); cbn [as_int];
    intros H; first [injection H as <-; reflexivity | discriminate H].
Qed.

Lemma py_sum4 a b c d t :
  py_sum [a; b; c; d] = Ok t →
  ∃ na nb nc nd, as_int a = Ok na ∧ as_int b = Ok nb ∧ as_int c = Ok nc ∧
                 as_int d = Ok nd ∧ t = na + nb + nc + nd.
Proof.
  unfold py_sum. cbn [rfold].
  destruct (as_int a) as [na|]; rstep; [|intros H; discriminate H].
  destruct (as_int b) as [nb|]; rstep; [|intros H; discriminate H].
  destruct (as_int c) as [nc|]; rstep; [|intros H; discriminate H].
  destruct (as_int d) as [nd|]; rstep; [|intros H; discriminate H].
  intros H; injection H as <-. exists na, nb, nc, nd. split_and!; first [reflexivity | lia].
Qed.

Lemma get_singleton k v : get {[k := v]} k = v.
Proof. unfold get, get_default. by rewrite lookup_singleton_eq. Qed.

Lemma calculate_sleeping_seconds_spec self d ss :
  calculate_sleeping_seconds self (JStr d) = Ok ss →
  ss = sleeping_seconds_of (sleep_stats self) d.
Proof.
  unfold calculate_sleeping_seconds, get_sleep_data, sleeping_seconds_of. rstep.
  destruct (sleep_stats self !! d) as [sr|]; rstep.
  - rewrite !get_singleton.
    cbn [truthy]. case_bool_decide as Hsr; cbn [negb]; rstep.
    + subst sr. intros H; injection H as <-.
      unfold sleep_sum, field_seconds, get_default. rewrite !lookup_empty. reflexivity.
    + destruct (py_sum _) as [t|] eqn:Et; rstep; [|intros H; discriminate H].
      apply py_sum4 in Et as (na & nb & nc & nd & Ha & Hb & Hc & Hd & ->).
      apply as_int_field in Ha, Hb, Hc, Hd. unfold sleep_sum.
      rewrite Ha, Hb, Hc, Hd. intros H; injection H as <-. reflexivity.
  - rewrite !get_singleton.
    cbn [truthy]. rewrite (bool_decide_eq_false_2 _ (map_non_empty_singleton _ _)).
    cbn [negb]. rstep. unfold get_default.
    rewrite !lookup_singleton_ne by (intros H; discriminate H).
    unfold py_sum. cbn [rfold as_int]. rstep.
    intros H; injection H as <-. reflexivity.
Qed.

Lemma sleeping_seconds_claimed sleep d :
  (∀ sr, sleep !! d = Some sr → 0 <= sleep_sum sr) →
  sleeping_seconds_of sleep d = claimed_sleeping_seconds sleep d.
Proof.
  unfold sleeping_seconds_of, claimed_sleeping_seconds. intros H.
  destruct (sleep !! d) as [sr|]; [|reflexivity]. specialize (H sr eq_refl).
  destruct (sleep_sum sr =? 0) eqn:E.
  - apply Z.eqb_eq in E. rewrite E. reflexivity.
  - apply Z.eqb_neq in E. destruct (0 <? sleep_sum sr) eqn:E2; [reflexivity|].
    apply Z.ltb_ge in E2. lia.
Qed.

Lemma agg_step_agg_unchanged self agg hydration o v acc' :
  o !! "hydration" = Some v →
  agg_step self (agg, hydration) (JObj o) = Ok acc' → fst acc' = agg.
Proof.
  intros Ho. unfold agg_step, contains, getitem. rstep. rewrite Ho. rstep.
  destruct v as [| | | | |h]; rstep; try (intros H; discriminate H).
  destruct (h !! "calendarDate") as [j|]; rstep; [|intros H; discriminate H].
  destruct j; rstep; try (intros H; discriminate H).
  intros H; injection H as <-. reflexivity.
Qed.

Lemma agg_step_sleeping_inv self acc j acc' :
  (∀ o x, j = JObj o → o !! "hydration" = None →
          o !! "calendarDate" = Some (JStr x) → Str.strip x = x) →
  sleeping_inv self acc → agg_step self acc j = Ok acc' → sleeping_inv self acc'.
Proof.
  intros Hclean Hinv H. destruct acc as [agg hyd].
  destruct j as [| | | | |o]; try (unfold agg_step in H; rstep; discriminate H).
  destruct (o !! "hydration") as [v|] eqn:Ho.
  - apply (agg_step_agg_unchanged _ _ _ _ _ _ Ho) in H.
    intros d stats Hd. rewrite H in Hd. by apply Hinv.
  - apply agg_step_stored in H as (x & ss & Hx & _ & Hss & ->); [|exact Ho].
    apply calculate_sleeping_seconds_spec in Hss. subst ss.
    rewrite (Hclean o x eq_refl Ho Hx).
    intros d stats. cbn [fst]. destruct (decide (x = d)) as [->|Hne].
    + rewrite lookup_insert_eq. intros E; injection E as <-. apply lookup_insert_eq.
    + rewrite lookup_insert_ne by exact Hne. apply Hinv.
Qed.

Lemma agg_file_sleeping_inv self acc doc acc' :
  (∀ l o x, doc = JArr l → JObj o ∈ l → o !! "hydration" = None →
            o !! "calendarDate" = Some (JStr x) → Str.strip x = x) →
  sleeping_inv self acc → agg_file self acc doc = Ok acc' → sleeping_inv self acc'.
Proof.
  intros Hclean Hinv. unfold agg_file.
  destruct doc as [| | | |l|]; rstep; try (intros H; discriminate H).
  intros H. revert Hinv H. apply rfold_inv.
  intros s a s' Ha Hs Hstep. eapply agg_step_sleeping_inv; [|exact Hs|exact Hstep].
  intros o x -> Ho Hx. by eapply Hclean.
Qed.

(** The invariant of the merge, for the documents of the aggregator
    files. *)
Lemma sleeping_seconds_fold self docs agg hydration :
  rfold (agg_file self) (∅, ∅) docs = Ok (agg, hydration) →
  clean_dates docs →
  ∀ d stats, agg !! d = Some stats →
    stats !! "sleepingSeconds" = Some (sleeping_seconds_of (sleep_stats self) d)
    ∧ ((∀ sr, sleep_stats self !! d = Some sr → 0 <= sleep_sum sr) →
       sleeping_seconds_of (sleep_stats self) d
       = claimed_sleeping_seconds (sleep_stats self) d)
    ∧ (∀ g, agg_stats g = agg →
         get_stats g d
         = if truthy (get_default stats "includesWellnessData" (JBool true))
           then stats else {["wellnessStartTimeGmt" := JNull]}).
Proof.
  intros H Hclean d stats Hd.
  assert (Hinv : sleeping_inv self (agg, hydration)).
  { revert H. apply rfold_inv; [|intros d' s' E; cbn [fst] in E; rewrite lookup_empty in E; discriminate E].
    intros s doc s' Hdoc Hs Hstep. eapply agg_file_sleeping_inv; [|exact Hs|exact Hstep].
    intros l o x -> Ho Hx Hdate. by eapply Hclean. }
  split_and!.
  - by apply Hinv.
  - apply sleeping_seconds_claimed.
  - intros g <-. unfold get_stats. rewrite Hd.
    by destruct (truthy _).
Qed.

Lemma keeps_ret {A} (a : A) : keeps_fs (mret a).
Proof. intros w r w' H. injection H as <- <-. reflexivity. Qed.

Lemma keeps_lift {A} (r : result A) : keeps_fs (lift r).
Proof. intros w r' w' H. injection H as <- <-. reflexivity. Qed.

Lemma keeps_fail {A} msg : keeps_fs (@fail A msg).
Proof. intros w r' w' H. injection H as <- <-. reflexivity. Qed.

Lemma keeps_raise {A} e : keeps_fs (@raise A e).
Proof. intros w r' w' H. injection H as <- <-. reflexivity. Qed.

Lemma keeps_log x : keeps_fs (logging_info x).
Proof. intros w r' w' H. injection H as <- <-. reflexivity. Qed.

Lemma keeps_get_fs : keeps_fs get_fs.
Proof. intros w r' w' H. injection H as <- <-. reflexivity. Qed.

Lemma keeps_bind {A B} (m : M A) (k : A → M B) :
  keeps_fs m → (∀ a, keeps_fs (k a)) → keeps_fs (m ≫= k).
Proof.
  intros Hm Hk w r w'. unfold mbind, M_bind.
  destruct (m w) as [[a|e] w1] eqn:E.
  - intros H. rewrite (Hk _ _ _ _ H). by eapply Hm.
  - intros H. injection H as <- <-. by eapply Hm.
Qed.

Lemma keeps_mfold {A S} (f : S → A → M S) l :
  (∀ s a, keeps_fs (f s a)) → ∀ s, keeps_fs (mfold f s l).
Proof.
  intros Hf. induction l as [|a l IH]; intros s; cbn [mfold].
  - apply keeps_ret.
  - apply keeps_bind; [apply Hf | intros s'; apply IH].
Qed.

Lemma keeps_json_load p : keeps_fs (json_load p).
Proof.
  unfold json_load. apply keeps_bind; [apply keeps_get_fs|]. intros f.
  destruct (files f !! p) as [[]|]; first [apply keeps_ret | apply keeps_raise].
Qed.

Ltac keeps_tac :=
  repeat first
    [ apply keeps_ret | apply keeps_lift | apply keeps_fail | apply keeps_log
    | apply keeps_get_fs | apply keeps_json_load
    | apply keeps_mfold; intros ? ?
    | apply keeps_bind; [|intros ?]
    | match goal with
      | |- keeps_fs (if ?b then _ else _) => destruct b
      | |- keeps_fs (match ?l with [] => _ | _ :: _ => _ end) => destruct l
      | |- keeps_fs (let '(_, _) := ?x in _) => destruct x
      end ].

Lemma keeps_init_loads p : keeps_fs (init_loads p).
Proof.
  unfold init_loads, path_exists, get_all_files, os_walk, load_activities,
    load_sleep_stats, load_agg_stats.
  keeps_tac.
Qed.

(** Claim C5, as amended.  When the loads of the constructor succeed
    and the cache file holds a document that deserializes to a list
    with at least one entry, the constructed facade has exactly that
    list as its index; the directory is left untouched (the cache is
    not rewritten) and the only line logged after the loads is the use
    of the cache: no archive is opened. *)
Theorem cached_index_used p w self w1 c e l :
  init_loads p w = (Ok self, w1) →
  files (fs w1) !! cached_fit_file_index self = Some (FileJson c) →
  cached_entries c = Ok (e :: l) →
  __init__ p w
  = (Ok (set_fit_file_index self (e :: l)),
     {| fs := fs w; log := log w1 ++ [LogUsingCache (cached_fit_file_index self)] |}).
Proof.
  intros Hloads Hfile Hc. unfold __init__.
  unfold mbind at 1, M_bind. rewrite Hloads.
  unfold load_cached_fit_file_index, path_exists, json_load, get_fs, logging_info, lift,
    mbind, M_bind, mret, M_ret. cbn [fs log].
  rewrite Hfile.
  rewrite (bool_decide_eq_true_2 (is_Some (Some (FileJson c)))) by eauto.
  rewrite orb_true_r. cbn [negb fs log]. rewrite Hfile. rewrite Hc. cbn [or_else].
  by rewrite (keeps_init_loads _ _ _ _ Hloads).
Qed.

Lemma wall_us_fields a b : fields a = fields b → wall_us a = wall_us b.
Proof.
  unfold fields, wall_us, toordinal. intros H.
  injection H as -> -> -> -> -> -> ->. reflexivity.
Qed.

Lemma iso_to_timestamp_ms_wall s dt :
  fromisoformat s = Ok dt → iso_to_timestamp_ms s = Ok (wall_clock_utc_ms dt).
Proof.
  intros H. unfold iso_to_timestamp_ms. rewrite H.
  cbn [mbind result_bind rbind].
  unfold timestamp_us, sub, wall_clock_utc_ms.
  cbn [tzinfo replace_tzinfo utc EPOCH mbind result_bind rbind].
  rewrite (wall_us_fields (replace_tzinfo dt utc) dt) by reflexivity.
  do 2 f_equal. lia.
Qed.






Lemma missing_date_key_witness :
  rfold sleep_step ∅ [JObj {["deepSleepSeconds" := JNum 5]}; JObj ex_sleep]
  = rfold sleep_step ∅ [JObj ex_sleep]
  ∧ agg_step ex_self (∅, ∅) (JObj {["totalSteps" := JNum 5]}) = Err (KeyError "calendarDate").
Proof.
  destruct (missing_date_key ex_self) as [H1 H2]. split.
  - destruct (H1 ∅ {["deepSleepSeconds" := JNum 5]}) as [_ H]; [vm_compute; reflexivity|].
    exact (H [] [JObj ex_sleep]).
  - destruct (H2 (∅, ∅) {["totalSteps" := JNum 5]}) as [H _];
      [vm_compute; reflexivity..|]. exact H.
Defined.

Lemma download_lookup_miss_witness :
  download_activity ex_self 8 ORIGINAL ex_world
  = (Err (GarminBulkImporterError "Activity ID not found: 8"), ex_world)
  ∧ download_activity ex_self 7 ORIGINAL ex_world
    = (Err (GarminBulkImporterError
              "No matching FIT file found for activityId=7 (2023-12-31T05:20:00+00:00)"),
       ex_world).
Proof.
  split.
  - apply (proj1 (download_lookup_miss ex_self 8 ex_world)). vm_compute; reflexivity.
  - apply (proj2 (download_lookup_miss ex_self 7 ex_world)
             (the (of_option (find_activity ex_self 7) IndexError) ∅)
             (mk 2023 12 31 5 20 0 0 None)).
    + vm_compute; reflexivity.
    + vm_compute; reflexivity.
    + intros e He. apply list_elem_of_In in He. vm_compute in He.
      destruct He as [<-|[<-|[]]]; eexists; (split; [vm_compute; reflexivity|]);
        vm_compute; intros H; apply H; reflexivity.
Defined.

Lemma activities_by_date_range_witness :
  get_activities_by_date ex_self "2024-01-01" "2024-01-01"
  = Ok (filter (fun act => starts_within ex_day (replace_hms ex_day 23 59 59) act)
               (activity_list (activities ex_self))).
Proof.
  refine (proj1 (activities_by_date_range ex_self "2024-01-01" "2024-01-01"
                   ex_day ex_day _ _ _)); vm_compute; reflexivity.
Defined.

Lemma cached_index_used_witness :
  fit_file_index (the (fst (__init__ "/e" ex_world_cached)) ex_dummy) = ex_index
  ∧ log (snd (__init__ "/e" ex_world_cached))
    = log (snd (init_loads "/e" ex_world_cached)) ++ [LogUsingCache ex_cache_path]
  ∧ fs (snd (__init__ "/e" ex_world_cached)) = fs ex_world_cached.
Proof.
  assert (H1 : init_loads "/e" ex_world_cached
               = (Ok (the (fst (init_loads "/e" ex_world_cached)) ex_dummy),
                  snd (init_loads "/e" ex_world_cached)))
    by (vm_compute; reflexivity).
  assert (H2 : files (fs (snd (init_loads "/e" ex_world_cached)))
                 !! cached_fit_file_index (the (fst (init_loads "/e" ex_world_cached)) ex_dummy)
               = Some (FileJson (cache_document ex_index)))
    by (vm_compute; reflexivity).
  assert (H3 : cached_entries (cache_document ex_index)
               = Ok (ex_entry 10 4 30 "running" "a/run.fit"
                       :: [ex_entry 10 6 0 "Unknown" "a/late.fit"]))
    by (vm_compute; reflexivity).
  rewrite (cached_index_used _ _ _ _ _ _ _ H1 H2 H3).
  cbn [fst snd fs log the set_fit_file_index fit_file_index].
  split_and!; vm_compute; reflexivity.
Defined.

(** Claim C5 as stated fails: a cache file that holds the empty list
    exists and deserializes, yet the constructor runs the indexing pass
    (the archive is processed and the cache rewritten) and the index is
    not the content of the cache. *)
Lemma empty_cache_is_rebuilt :
  files (fs ex_world_empty_cache) !! ex_cache_path = Some (FileJson (JArr []))
  ∧ cached_entries (JArr []) = Ok []
  ∧ fit_file_index (the (fst (__init__ "/e" ex_world_empty_cache)) ex_dummy) = ex_index
  ∧ log (snd (__init__ "/e" ex_world_empty_cache))
    = [LogFoundFiles 4; LogLoadingActivities 2; LogLoadingSleep 1; LogLoadingAgg 1;
       LogUsingCache ex_cache_path; LogProcessing ex_zip_path 5; LogProgress 0 5;
       LogFoundFit 2; LogCaching ex_cache_path]
  ∧ files (fs (snd (__init__ "/e" ex_world_empty_cache))) !! ex_cache_path
    = Some (FileJson (cache_document ex_index)).
Proof. split_and!; vm_compute; reflexivity. Qed.

Lemma ex_fs_wf : wf_fs ex_fs.
Proof.
  unfold wf_fs, ex_fs. cbn [files].
  repeat (apply map_Forall_insert_2; [first [exact I | vm_compute; reflexivity]|]).
  apply map_Forall_empty.
Qed.

Lemma cache_round_trip_witness :
  fst (load_cached_fit_file_index ex_cache_path (snd (load_fit_file_index ex_self ex_world)))
  = Ok (Some ex_index).
Proof.
  assert (H : load_fit_file_index ex_self ex_world
              = (Ok ex_index, snd (load_fit_file_index ex_self ex_world)))
    by (vm_compute; reflexivity).
  pose proof (cache_round_trip ex_self ex_world ex_index _ ex_fs_wf H) as R.
  change (cached_fit_file_index ex_self) with ex_cache_path in R.
  rewrite R. reflexivity.
Defined.

Lemma index_entry_per_session_witness :
  ex_entry 10 4 30 "running" "a/run.fit" ∈ ex_index
  ∧ ex_entry 10 6 0 "Unknown" "a/late.fit" ∈ ex_index
  ∧ no_entry_for ex_index ex_zip_path "a/mon.FIT".
Proof.
  assert (H : load_fit_file_index ex_self ex_world
              = (Ok ex_index, snd (load_fit_file_index ex_self ex_world)))
    by (vm_compute; reflexivity).
  assert (Hzp : ex_zip_path ∈ zip_paths ex_self)
    by (apply list_elem_of_In; vm_compute; left; reflexivity).
  assert (Hz : files (fs ex_world) !! ex_zip_path = Some (FileZip ex_zip))
    by (vm_compute; reflexivity).
  split_and!.
  - pose proof (index_entry_per_session ex_self ex_world ex_index _ ex_zip_path ex_zip
                  "a/run.fit" (ex_member ex_run_msgs) ex_run_msgs H Hzp Hz
                  ltac:(apply list_elem_of_In; vm_compute; tauto)
                  ltac:(vm_compute; reflexivity) ltac:(vm_compute; reflexivity)
                  ltac:(reflexivity)) as R.
    vm_compute in R. destruct R as (d & Hd & R). injection Hd as <-. exact R.
  - pose proof (index_entry_per_session ex_self ex_world ex_index _ ex_zip_path ex_zip
                  "a/late.fit" (ex_member ex_late_msgs) ex_late_msgs H Hzp Hz
                  ltac:(apply list_elem_of_In; vm_compute; tauto)
                  ltac:(vm_compute; reflexivity) ltac:(vm_compute; reflexivity)
                  ltac:(reflexivity)) as R.
    vm_compute in R. destruct R as (d & Hd & R). injection Hd as <-. exact R.
  - pose proof (index_entry_per_session ex_self ex_world ex_index _ ex_zip_path ex_zip
                  "a/mon.FIT" (ex_member ex_monitor_msgs) ex_monitor_msgs H Hzp Hz
                  ltac:(apply list_elem_of_In; vm_compute; tauto)
                  ltac:(vm_compute; reflexivity) ltac:(vm_compute; reflexivity)
                  ltac:(reflexivity)) as R.
    exact (proj2 R).
Defined.

(** Claim C9 as stated fails: a recording file that yields a session
    message whose [sport] value is [None] produces no index entry. *)
Lemma null_sport_session_is_skipped :
  last_session ex_null_msgs
  = Some (ex_session (mk 2024 1 1 11 0 0 0 None) [("sport", FJson JNull)])
  ∧ zip_open ex_zip "a/null.fit" = Ok (ex_member ex_null_msgs)
  ∧ index_file ex_zip_path ex_zip "a/null.fit" = Ok []
  ∧ fst (load_fit_file_index ex_self ex_world) = Ok ex_index
  ∧ forallb (fun e => negb (String.eqb (fit_file_name e) "a/null.fit")) ex_index = true.
Proof. split_and!; vm_compute; reflexivity. Qed.



Lemma rfold_documents {S} (g : S → json → result S) f paths : ∀ s s',
  rfold (fun acc p => data ← json_of f p; g acc data) s paths = Ok s' →
  rfold g s (omap (fun p => match json_of f p with Ok j => Some j | Err _ => None end)
                  paths) = Ok s'.
Proof.
  induction paths as [|p paths IH]; intros s s' H; cbn [rfold omap list_omap] in *; [exact H|].
  apply rbind_Ok in H as (s1 & H1 & H2).
  apply rbind_Ok in H1 as (j & Hj & H1).
  rewrite Hj. cbn [rfold]. rewrite H1. cbn [mbind result_bind rbind]. by apply IH.
Qed.

Lemma M_bind_run {A B} (m : M A) (k : A → M B) w :
  (m ≫= k) w = match m w with
               | (Ok a, w') => k a w'
               | (Err e, w') => (Err e, w')
               end.
Proof. reflexivity. Qed.

Lemma load_agg_stats_documents self w agg hydration w' :
  load_agg_stats self w = (Ok (agg, hydration), w') →
  rfold (agg_file self) (∅, ∅) (agg_documents self (fs w)) = Ok (agg, hydration).
Proof.
  unfold load_agg_stats, agg_documents.
  remember (filter (fun p => re_search "DI-Connect-Aggregator.*UDSFile.*.json" p)
                   (all_files self)) as paths eqn:Hp. clear Hp.
  destruct paths as [|p0 paths0]; [intros H; discriminate H|].
  match goal with
  | |- context [mfold ?f ?s ?l] =>
      assert (R : reads (mfold f s l)
                    (fun fs => rfold (fun acc p => data ← json_of fs p; agg_file self acc data)
                                     s l))
  end.
  { apply (reads_mfold _ (fun acc p f => data ← json_of f p; agg_file self acc data)).
    intros s p. apply reads_bind; [apply reads_json_load|]. intros j. apply reads_lift. }
  destruct (R w) as [lg E]. clear R.
  rewrite M_bind_run, E.
  destruct (rfold _ _ (p0 :: paths0)) as [r|e] eqn:Er; [|intros H; discriminate H].
  rewrite M_bind_run. unfold logging_info, mret, M_ret.
  intros H. injection H as -> _. by apply rfold_documents.
Qed.

Lemma keeps_path_exists p : keeps_fs (path_exists p).
Proof. unfold path_exists. keeps_tac. Qed.

Lemma keeps_get_all_files self : keeps_fs (get_all_files self).
Proof. unfold get_all_files, os_walk. keeps_tac. Qed.

Lemma keeps_load_activities self : keeps_fs (load_activities self).
Proof. unfold load_activities. keeps_tac. Qed.

Lemma keeps_load_sleep_stats self : keeps_fs (load_sleep_stats self).
Proof. unfold load_sleep_stats. keeps_tac. Qed.

(** What the constructor's loads leave in the facade: the aggregate and
    hydration maps are those [load_agg_stats] returns on a facade that
    already has the files and the sleep map. *)
Lemma init_loads_agg p w self w1 :
  init_loads p w = (Ok self, w1) →
  ∃ self0 w0 w0',
    load_agg_stats self0 w0 = (Ok (agg_stats self, hydration_stats self), w0') ∧
    sleep_stats self0 = sleep_stats self ∧
    all_files self0 = all_files self ∧
    fs w0 = fs w.
Proof.
  unfold init_loads. cbn [path].
  rewrite M_bind_run. destruct (path_exists p w) as [[ex|?] wa] eqn:Ea; [|intros H; discriminate H].
  rewrite M_bind_run.
  destruct ((if negb ex then fail (p +:+ " does not exist") else mret ()) wa)
    as [[[]|?] wb] eqn:Eb; [|intros H; discriminate H].
  rewrite M_bind_run.
  destruct (get_all_files _ wb) as [[files|?] wc] eqn:Ec; [|intros H; discriminate H].
  rewrite M_bind_run.
  destruct (load_activities _ wc) as [[acts|?] wd] eqn:Ed; [|intros H; discriminate H].
  rewrite M_bind_run.
  destruct (load_sleep_stats _ wd) as [[sleep|?] we] eqn:Ee; [|intros H; discriminate H].
  rewrite M_bind_run.
  destruct (load_agg_stats _ we) as [[[agg hyd]|?] wf] eqn:Ef; [|intros H; discriminate H].
  intros H. injection H as <- <-. cbn [agg_stats hydration_stats sleep_stats all_files].
  eexists _, we, wf. split; [exact Ef|]. split_and!; [reflexivity..|].
  rewrite (keeps_load_sleep_stats _ _ _ _ Ee), (keeps_load_activities _ _ _ _ Ed),
    (keeps_get_all_files _ _ _ _ Ec).
  assert (fs wb = fs wa) as ->.
  { destruct (negb ex); [by apply (keeps_fail _ _ _ _ Eb) | by apply (keeps_ret _ _ _ _ Eb)]. }
  apply (keeps_path_exists _ _ _ _ Ea).
Qed.

Lemma init_agg p w g w' :
  __init__ p w = (Ok g, w') →
  ∃ self0 w0 w0',
    load_agg_stats self0 w0 = (Ok (agg_stats g, hydration_stats g), w0') ∧
    sleep_stats self0 = sleep_stats g ∧
    all_files self0 = all_files g ∧
    fs w0 = fs w.
Proof.
  unfold __init__. rewrite M_bind_run.
  destruct (init_loads p w) as [[self|?] w1] eqn:E1; [|intros H; discriminate H].
  rewrite M_bind_run.
  destruct (load_cached_fit_file_index _ w1) as [[cached|?] w2]; [|intros H; discriminate H].
  rewrite M_bind_run.
  destruct (or_else cached _ w2) as [[index|?] w3]; [|intros H; discriminate H].
  intros H. injection H as <- <-. cbn [set_fit_file_index agg_stats hydration_stats sleep_stats all_files].
  by apply (init_loads_agg p w self w1).
Qed.


Lemma ex_docs_clean : clean_dates ex_docs.
Proof.
  intros l o x Hl Ho Hh Hd.
  apply list_elem_of_singleton in Hl. injection Hl as ->.
  apply elem_of_cons in Ho as [Ho|Ho].
  - injection Ho as ->. vm_compute in Hd. injection Hd as <-. vm_compute. reflexivity.
  - apply list_elem_of_singleton in Ho. injection Ho as ->. vm_compute in Hh. discriminate Hh.
Qed.



(** ** Properties of the loaders, the queries and the single-file importer *)

Lemma pad2 n : Dec.pad 2 n = String (Dec.digit (n / 10 mod 10)) (String (Dec.digit (n mod 10)) "").
Proof. reflexivity. Qed.

Lemma digit_not_space n : 0 <= n < 10 → Ascii.eqb (Dec.digit n) " " = false.
Proof.
  intros H.
  assert (Hc : n = 0 ∨ n = 1 ∨ n = 2 ∨ n = 3 ∨ n = 4 ∨ n = 5 ∨ n = 6 ∨ n = 7 ∨ n = 8 ∨ n = 9) by lia.
  destruct Hc as [->|[->|[->|[->|[->|[->|[->|[->|[->| ->]]]]]]]]]; reflexivity.
Qed.

Lemma digit_not_isspace n : 0 <= n < 10 → Str.isspace (Dec.digit n) = false.
Proof.
  intros H.
  assert (Hc : n = 0 ∨ n = 1 ∨ n = 2 ∨ n = 3 ∨ n = 4 ∨ n = 5 ∨ n = 6 ∨ n = 7 ∨ n = 8 ∨ n = 9) by lia.
  destruct Hc as [->|[->|[->|[->|[->|[->|[->|[->|[->| ->]]]]]]]]]; reflexivity.
Qed.

Lemma take12_pad n rest : 0 <= n < 100 → Dec.take12 (Dec.pad 2 n +:+ rest) = Some (n, rest).
Proof. intros H. unfold Dec.take12. by rewrite (take_pad 2) by (simpl; lia). Qed.

Lemma day_field_pad n rest : 0 <= n < 100 → day_field (Dec.pad 2 n +:+ rest) = Some (n, rest).
Proof.
  intros H. unfold day_field.
  pose proof (take12_pad n rest H) as E. rewrite pad2 in *.
  rewrite append_cons in *.
  rewrite digit_not_space; [exact E|].
  split; [apply Z.mod_pos_bound; lia | apply Z.mod_pos_bound; lia].
Qed.

Lemma blanks_pad n rest : 0 <= n < 100 →
  blanks (" " +:+ Dec.pad 2 n +:+ rest) = Some (Dec.pad 2 n +:+ rest).
Proof.
  intros H. rewrite pad2, !append_cons, append_nil_l. cbn [blanks].
  change (Str.isspace " ") with true. cbn [Str.lstrip].
  rewrite digit_not_isspace; [done|]. apply Z.mod_pos_bound; lia.
Qed.

Lemma valid_to_seconds d : valid d = true → valid (to_seconds d) = true.
Proof.
  unfold valid, to_seconds. cbn [year month day hour minute second microsecond tzinfo].
  rewrite !andb_true_iff. intros [[[[[[[? ?] ?] ?] ?] ?] ?] ?]. split_and!; done.
Qed.

Local Opaque Dec.pad Dec.take Dec.take12 day_field blanks Datetime.valid.

Lemma strptime_strftime d : valid d = true → strptime (strftime d) = Ok (to_seconds d).
Proof.
  intros Hv. pose proof Hv as Hf. apply valid_fields in Hf as (?&?&?&?&?&?&_).
  unfold strptime, parse_datetime_fields, parse_date_fields, strftime, date_str, time_str, field.
  rewrite !app_assoc_s.
  rewrite (take_pad 4) by (simpl; lia). cbn [mbind option_bind].
  rewrite append_cons, append_nil_l. cbn [Dec.expect]. rewrite Ascii.eqb_refl.
  cbn [mbind option_bind].
  rewrite take12_pad by lia. cbn [mbind option_bind].
  rewrite append_cons, append_nil_l. cbn [Dec.expect]. rewrite Ascii.eqb_refl.
  cbn [mbind option_bind].
  rewrite day_field_pad by lia. cbn [mbind option_bind].
  rewrite blanks_pad by lia. cbn [mbind option_bind].
  rewrite take12_pad by lia. cbn [mbind option_bind].
  rewrite append_cons, append_nil_l. cbn [Dec.expect]. rewrite Ascii.eqb_refl.
  cbn [mbind option_bind].
  rewrite take12_pad by lia. cbn [mbind option_bind].
  rewrite append_cons, append_nil_l. cbn [Dec.expect]. rewrite Ascii.eqb_refl.
  cbn [mbind option_bind].
  pose proof (take12_pad (second d) "" ltac:(lia)) as E.
  replace (Dec.pad 2 (second d) +:+ "")%string with (Dec.pad 2 (second d)) in E.
  2:{ clear. induction (Dec.pad 2 (second d)) as [|c s IH]; [done|].
      rewrite append_cons. by rewrite <- IH. }
  rewrite E. cbn [mbind option_bind].
  unfold checked, to_seconds.
  pose proof (valid_to_seconds d Hv) as Hv'. unfold to_seconds in Hv'.
  by rewrite Hv'.
Qed.

Local Transparent Dec.pad Dec.take Dec.take12 day_field blanks Datetime.valid.

Lemma is_leap_spec y :
  _is_leap y = true ↔ (y mod 4 = 0 ∧ (y mod 100 ≠ 0 ∨ y mod 400 = 0)).
Proof.
  unfold _is_leap. rewrite andb_true_iff, orb_true_iff, negb_true_iff, !Z.eqb_eq, Z.eqb_neq.
  tauto.
Qed.

Lemma month_cases m : 1 <= m <= 12 →
  m = 1 ∨ m = 2 ∨ m = 3 ∨ m = 4 ∨ m = 5 ∨ m = 6 ∨ m = 7 ∨ m = 8 ∨ m = 9 ∨ m = 10 ∨ m = 11 ∨ m = 12.
Proof. lia. Qed.

Ltac tables :=
  cbn [_DAYS_BEFORE_MONTH _DAYS_IN_MONTH nth Z.to_nat Pos.to_nat Pos.iter_op Init.Nat.add
       Z.ltb Z.eqb Z.compare Pos.compare Pos.compare_cont Pos.eqb andb Z.add Z.sub Z.opp
       Z.pos_sub];
  simpl.

(** The month and day that [_ord2ymd] computes from the day of the
    year: the estimate of the month, and its correction. *)
Lemma ord2ymd_month_day (leapyear : bool) (n : Z) :
  0 <= n < 365 →
  let month := Z.shiftr (n + 50) 5 in
  let preceding :=
    _DAYS_BEFORE_MONTH month + (if (2 <? month) && leapyear then 1 else 0) in
  let month' := month - 1 in
  let preceding' :=
    preceding - (_DAYS_IN_MONTH month' + (if (month' =? 2) && leapyear then 1 else 0)) in
  let ok m d :=
    1 <= m <= 12 ∧
    1 <= d <= (if (m =? 2) && leapyear then 29 else _DAYS_IN_MONTH m) ∧
    _DAYS_BEFORE_MONTH m + (if (2 <? m) && leapyear then 1 else 0) + d = n + 1 in
  if n <? preceding then ok month' (n - preceding' + 1) else ok month (n - preceding + 1).
Proof.
  intros Hn. cbv zeta.
  rewrite Z.shiftr_div_pow2 by lia. change (2 ^ 5) with 32.
  assert (Hm : 1 <= (n + 50) / 32 <= 12) by (Z.div_mod_to_equations; lia).
  remember ((n + 50) / 32) as month eqn:Em.
  assert (Hr : 32 * month <= n + 50 < 32 * month + 32) by (subst month; Z.div_mod_to_equations; lia).
  clear Em.
  destruct (month_cases _ Hm) as [->|[->|[->|[->|[->|[->|[->|[->|[->|[->|[->| ->]]]]]]]]]]];
    destruct leapyear; tables;
    match goal with
    | |- context [n <? ?p] => destruct (Z.ltb_spec n p)
    end; simpl in *; lia.
Qed.

Lemma days_before_year_split n400 n100 n4 n1 :
  0 <= n100 <= 3 → 0 <= n4 <= 24 → 0 <= n1 <= 3 →
  _days_before_year (n400 * 400 + 1 + n100 * 100 + n4 * 4 + n1)
  = n400 * 146097 + n100 * 36524 + n4 * 1461 + n1 * 365.
Proof.
  intros H100 H4 H1. unfold _days_before_year. cbv zeta.
  set (y := n400 * 400 + 1 + n100 * 100 + n4 * 4 + n1 - 1).
  assert (E4 : y / 4 = 100 * n400 + 25 * n100 + n4)
    by (symmetry; apply (Z.div_unique _ _ _ n1); lia).
  assert (E100 : y / 100 = 4 * n400 + n100)
    by (symmetry; apply (Z.div_unique _ _ _ (4 * n4 + n1)); lia).
  assert (E400 : y / 400 = n400)
    by (symmetry; apply (Z.div_unique _ _ _ (100 * n100 + 4 * n4 + n1)); lia).
  rewrite E4, E100, E400. lia.
Qed.

Lemma mod_top k b q : 0 < b → 1 <= k <= b → ((k + q * b) mod b = 0 ↔ k = b).
Proof.
  intros Hb Hk. rewrite Z.mod_add by lia.
  destruct (decide (k = b)) as [->|Hne].
  - rewrite Z.mod_same by lia. done.
  - rewrite Z.mod_small by lia. lia.
Qed.

Lemma is_leap_split n400 n100 n4 n1 :
  0 <= n100 <= 3 → 0 <= n4 <= 24 → 0 <= n1 <= 3 →
  _is_leap (n400 * 400 + 1 + n100 * 100 + n4 * 4 + n1)
  = (n1 =? 3) && (negb (n4 =? 24) || (n100 =? 3)).
Proof.
  intros H100 H4 H1. apply eq_true_iff_eq.
  rewrite is_leap_spec, andb_true_iff, orb_true_iff, negb_true_iff, !Z.eqb_eq, Z.eqb_neq.
  set (y := n400 * 400 + 1 + n100 * 100 + n4 * 4 + n1).
  assert (M4 : y mod 4 = 0 ↔ n1 + 1 = 4).
  { replace y with ((n1 + 1) + (100 * n400 + 25 * n100 + n4) * 4) by (unfold y; lia).
    apply mod_top; lia. }
  assert (M100 : y mod 100 = 0 ↔ 4 * n4 + n1 + 1 = 100).
  { replace y with ((4 * n4 + n1 + 1) + (4 * n400 + n100) * 100) by (unfold y; lia).
    apply mod_top; lia. }
  assert (M400 : y mod 400 = 0 ↔ 100 * n100 + 4 * n4 + n1 + 1 = 400).
  { replace y with ((100 * n100 + 4 * n4 + n1 + 1) + n400 * 400) by (unfold y; lia).
    apply mod_top; lia. }
  rewrite M4, M100, M400. lia.
Qed.

(** [_ord2ymd] inverts [_ymd2ord], and yields a date of the calendar. *)
Lemma ord2ymd_spec n :
  ∃ y m d, _ord2ymd n = (y, m, d) ∧ _ymd2ord y m d = n ∧
           1 <= m <= 12 ∧ 1 <= d <= _days_in_month y m.
Proof.
  unfold _ord2ymd, _DI400Y, _DI100Y, _DI4Y. cbv zeta.
  remember ((n - 1) / 146097) as n400 eqn:E400.
  remember ((n - 1) mod 146097) as r eqn:Er.
  remember (r / 36524) as n100 eqn:E100.
  remember (r mod 36524) as r1 eqn:Er1.
  remember (r1 / 1461) as n4 eqn:E4.
  remember (r1 mod 1461) as r2 eqn:Er2.
  remember (r2 / 365) as n1 eqn:E1.
  remember (r2 mod 365) as r3 eqn:Er3.
  assert (H0 : n - 1 = 146097 * n400 + r ∧ 0 <= r < 146097)
    by (subst n400 r; Z.div_mod_to_equations; lia).
  assert (H1 : r = 36524 * n100 + r1 ∧ 0 <= r1 < 36524 ∧ 0 <= n100 <= 4)
    by (subst n100 r1; Z.div_mod_to_equations; lia).
  assert (H2 : r1 = 1461 * n4 + r2 ∧ 0 <= r2 < 1461 ∧ 0 <= n4 <= 24)
    by (subst n4 r2; Z.div_mod_to_equations; lia).
  assert (H3 : r2 = 365 * n1 + r3 ∧ 0 <= r3 < 365 ∧ 0 <= n1 <= 4)
    by (subst n1 r3; Z.div_mod_to_equations; lia).
  clear E400 Er E100 Er1 E4 Er2 E1 Er3.
  destruct ((n1 =? 4) || (n100 =? 4)) eqn:Esp.
  - eexists _, _, _. split; [reflexivity|].
    apply orb_true_iff in Esp. rewrite !Z.eqb_eq in Esp.
    assert (Hy : n400 * 400 + 1 + n100 * 100 + n4 * 4 + n1 - 1
                 = n400 * 400 + 1 + (if decide (n100 = 4) then 3 else n100) * 100
                   + (if decide (n100 = 4) then 24 else n4) * 4 + 3).
    { destruct (decide (n100 = 4)); lia. }
    rewrite Hy. clear Hy.
    unfold _ymd2ord, _days_before_month, _days_in_month.
    rewrite days_before_year_split, is_leap_split by (destruct (decide (n100 = 4)); lia).
    assert (Hl : (3 =? 3) && (negb ((if decide (n100 = 4) then 24 else n4) =? 24)
                              || ((if decide (n100 = 4) then 3 else n100) =? 3)) = true).
    { destruct (decide (n100 = 4)); [reflexivity|].
      cbn [Z.eqb andb Pos.eqb]. apply orb_true_iff. left.
      apply negb_true_iff, Z.eqb_neq. lia. }
    rewrite Hl. simpl.
    change (_DAYS_BEFORE_MONTH 12) with 334. change (_DAYS_IN_MONTH 12) with 31.
    destruct (decide (n100 = 4)); lia.
  - apply orb_false_iff in Esp as [Esp1 Esp2]. apply Z.eqb_neq in Esp1, Esp2.
    pose proof (ord2ymd_month_day ((n1 =? 3) && (negb (n4 =? 24) || (n100 =? 3))) r3
                  ltac:(lia)) as Hmd.
    cbv zeta in Hmd.
    unfold _ymd2ord, _days_before_month, _days_in_month.
    destruct (r3 <? _); destruct Hmd as (Hm & Hd & Hsum);
      (eexists _, _, _; split; [reflexivity|]);
      rewrite days_before_year_split, is_leap_split by lia;
      (split_and!; try lia);
      match goal with |- context [(?m =? 2) && ?b] => destruct ((m =? 2) && b) end; lia.
Qed.

(** [fromtimestamp] keeps the instant: the value it returns is a date
    of the calendar, in UTC, whose distance to the epoch is the number
    of milliseconds given. *)
Lemma fromtimestamp_ms_spec ms d :
  fromtimestamp_ms ms = Ok d →
  valid d = true ∧ tzinfo d = utc ∧ wall_us d - wall_us EPOCH = ms * 1000.
Proof.
  unfold fromtimestamp_ms. cbv zeta.
  destruct (ord2ymd_spec (ms / 1000 / 86400 + toordinal EPOCH)) as (y & m & dd & -> & Hord & _).
  destruct (valid _) eqn:Hv; [|intros H; discriminate H].
  intros H. injection H as <-. split; [exact Hv|]. split; [reflexivity|].
  unfold wall_us, toordinal. cbn [year month day hour minute second microsecond].
  rewrite Hord. unfold toordinal. cbn [EPOCH year month day hour minute second microsecond].
  change (_ymd2ord 1970 1 1) with 719163.
  Z.div_mod_to_equations. lia.
Qed.

Lemma days_before_year_next y :
  _days_before_year (y + 1) = _days_before_year y + 365 + (if _is_leap y then 1 else 0).
Proof.
  unfold _days_before_year. cbv zeta. replace (y + 1 - 1) with y by lia.
  destruct (_is_leap y) eqn:El.
  - apply is_leap_spec in El. Z.div_mod_to_equations. lia.
  - assert (Hn : ¬ (y mod 4 = 0 ∧ (y mod 100 ≠ 0 ∨ y mod 400 = 0))).
    { rewrite <- is_leap_spec. congruence. }
    Z.div_mod_to_equations. lia.
Qed.

Lemma days_before_year_mono y y' : y <= y' → _days_before_year y <= _days_before_year y'.
Proof. unfold _days_before_year. cbv zeta. intros H. Z.div_mod_to_equations. lia. Qed.

Lemma day_of_year_bounds y m d :
  1 <= m <= 12 → 1 <= d <= _days_in_month y m →
  1 <= _days_before_month y m + d <= 365 + (if _is_leap y then 1 else 0).
Proof.
  intros Hm. unfold _days_before_month, _days_in_month.
  destruct (month_cases _ Hm) as [->|[->|[->|[->|[->|[->|[->|[->|[->|[->|[->| ->]]]]]]]]]]];
    destruct (_is_leap y); tables; lia.
Qed.

Lemma day_of_year_month_lt y m d m' d' :
  1 <= m <= 12 → 1 <= d <= _days_in_month y m →
  1 <= m' <= 12 → 1 <= d' <= _days_in_month y m' →
  m < m' → _days_before_month y m + d < _days_before_month y m' + d'.
Proof.
  intros Hm Hd Hm' Hd' Hlt. revert Hd Hd'. unfold _days_before_month, _days_in_month.
  destruct (month_cases _ Hm) as [->|[->|[->|[->|[->|[->|[->|[->|[->|[->|[->| ->]]]]]]]]]]];
    destruct (month_cases _ Hm') as [->|[->|[->|[->|[->|[->|[->|[->|[->|[->|[->| ->]]]]]]]]]]];
    try lia; destruct (_is_leap y); tables; lia.
Qed.

(** [_ymd2ord] is increasing for the order of dates. *)
Lemma ymd2ord_lex y m d y' m' d' :
  1 <= m <= 12 → 1 <= d <= _days_in_month y m →
  1 <= m' <= 12 → 1 <= d' <= _days_in_month y' m' →
  lex [y; m; d] [y'; m'; d'] = (_ymd2ord y m d ?= _ymd2ord y' m' d').
Proof.
  intros Hm Hd Hm' Hd'. unfold _ymd2ord. cbn [lex].
  pose proof (day_of_year_bounds y m d Hm Hd) as B.
  pose proof (day_of_year_bounds y' m' d' Hm' Hd') as B'.
  destruct (Z.compare_spec y y') as [->|Hy|Hy].
  - destruct (Z.compare_spec m m') as [->|Hmm|Hmm].
    + destruct (Z.compare_spec d d') as [->|Hdd|Hdd]; symmetry.
      * apply Z.compare_eq_iff. lia.
      * apply Z.compare_lt_iff. lia.
      * apply Z.compare_gt_iff. lia.
    + symmetry. apply Z.compare_lt_iff.
      pose proof (day_of_year_month_lt y' m d m' d' Hm Hd Hm' Hd' Hmm). lia.
    + symmetry. apply Z.compare_gt_iff.
      pose proof (day_of_year_month_lt y' m' d' m d Hm' Hd' Hm Hd Hmm). lia.
  - symmetry. apply Z.compare_lt_iff.
    pose proof (days_before_year_next y). pose proof (days_before_year_mono (y + 1) y' ltac:(lia)).
    lia.
  - symmetry. apply Z.compare_gt_iff.
    pose proof (days_before_year_next y'). pose proof (days_before_year_mono (y' + 1) y ltac:(lia)).
    lia.
Qed.

Lemma valid_day d : valid d = true →
  1 <= month d <= 12 ∧ 1 <= day d <= _days_in_month (year d) (month d).
Proof.
  unfold valid, in_range. rewrite !andb_true_iff, !Z.leb_le.
  intros [[[[[[[[??][??]][? Hd]][??]][??]][??]][??]] _]. lia.
Qed.

Lemma compare_pair a b x y k : 0 <= x < k → 0 <= y < k →
  match a ?= b with Eq => x ?= y | c => c end = (a * k + x ?= b * k + y).
Proof.
  intros Hx Hy.
  destruct (Z.compare_spec a b); [destruct (Z.compare_spec x y)|..]; symmetry;
    first [apply Z.compare_eq_iff | apply Z.compare_lt_iff | apply Z.compare_gt_iff]; nia.
Qed.

Lemma lex_three x1 x2 x3 l y1 y2 y3 l' :
  lex (x1 :: x2 :: x3 :: l) (y1 :: y2 :: y3 :: l')
  = match lex [x1; x2; x3] [y1; y2; y3] with Eq => lex l l' | c => c end.
Proof.
  cbn [lex]. destruct (x1 ?= y1); [|done..].
  destruct (x2 ?= y2); [|done..]. by destruct (x3 ?= y3).
Qed.

(** Comparing two values field by field, down to the second, is
    comparing their wall-clock seconds. *)
Lemma cmp_to_seconds a b : valid a = true → valid b = true →
  cmp (to_seconds a) (to_seconds b) = (wall_s a ?= wall_s b).
Proof.
  intros Ha Hb.
  pose proof (valid_day a Ha) as [Hma Hda]. pose proof (valid_day b Hb) as [Hmb Hdb].
  apply valid_fields in Ha as (_&_&_&?&?&?&_). apply valid_fields in Hb as (_&_&_&?&?&?&_).
  unfold cmp, fields, to_seconds, wall_s, toordinal.
  cbn [year month day hour minute second microsecond].
  rewrite lex_three, ymd2ord_lex by done.
  assert (E : lex [hour a; minute a; second a; 0] [hour b; minute b; second b; 0]
              = (hour a * 3600 + minute a * 60 + second a
                 ?= hour b * 3600 + minute b * 60 + second b)).
  { assert (L1 : lex [second a; 0] [second b; 0] = (second a ?= second b))
      by (cbn; by destruct (second a ?= second b)).
    change (lex [hour a; minute a; second a; 0] [hour b; minute b; second b; 0])
      with (match hour a ?= hour b with
            | Eq => match minute a ?= minute b with
                    | Eq => lex [second a; 0] [second b; 0]
                    | c => c
                    end
            | c => c
            end).
    rewrite L1.
    rewrite (compare_pair _ _ _ _ 60) by lia.
    rewrite (compare_pair _ _ _ _ 3600) by lia.
    f_equal; lia. }
  rewrite E. rewrite (compare_pair _ _ _ _ 86400) by lia. f_equal; lia.
Qed.

Lemma le_to_seconds a b : valid a = true → valid b = true →
  le (to_seconds a) (to_seconds b) = (wall_s a <=? wall_s b).
Proof.
  intros Ha Hb. unfold le. rewrite cmp_to_seconds by done. unfold Z.leb.
  by destruct (wall_s a ?= wall_s b).
Qed.

Lemma compare_digit a b : 0 <= a < 10 → 0 <= b < 10 →
  Ascii.compare (Dec.digit a) (Dec.digit b) = (a ?= b).
Proof.
  intros Ha Hb. unfold Ascii.compare, Dec.digit.
  rewrite !N_ascii_embedding by lia.
  rewrite Z2N.inj_compare by lia. apply Z.add_compare_mono_l.
Qed.

Lemma compare_cons c r r' : String.compare (String c r) (String c r') = String.compare r r'.
Proof. cbn [String.compare]. unfold Ascii.compare. by rewrite N.compare_refl. Qed.

Lemma compare_div_mod (X : comparison) n n' : 0 <= n → 0 <= n' →
  match n / 10 ?= n' / 10 with
  | Eq => match n mod 10 ?= n' mod 10 with Eq => X | c => c end
  | c => c
  end = match n ?= n' with Eq => X | c => c end.
Proof.
  intros Hn Hn'.
  destruct (Z.compare_spec (n / 10) (n' / 10)) as [E|E|E];
    [destruct (Z.compare_spec (n mod 10) (n' mod 10)) as [E'|E'|E']|..];
    destruct (Z.compare_spec n n') as [F|F|F]; try reflexivity; exfalso;
    Z.div_mod_to_equations; lia.
Qed.

(** Decimal fields of the same width compare as their numbers. *)
Lemma compare_digits w : ∀ n n' t t', 0 <= n < 10 ^ Z.of_nat w → 0 <= n' < 10 ^ Z.of_nat w →
  String.compare (Dec.digits w n t) (Dec.digits w n' t')
  = match n ?= n' with Eq => String.compare t t' | c => c end.
Proof.
  induction w as [|w IH]; intros n n' t t' Hn Hn'.
  - simpl in *. by replace n with 0 by lia; replace n' with 0 by lia.
  - cbn [Dec.digits]. rewrite Nat2Z.inj_succ, Z.pow_succ_r in Hn, Hn' by lia.
    rewrite IH by (split; [apply Z.div_pos; lia | apply Z.div_lt_upper_bound; lia]).
    cbn [String.compare].
    rewrite compare_digit by (apply Z.mod_pos_bound; lia).
    apply compare_div_mod; lia.
Qed.

Lemma compare_pad w n n' r r' : 0 <= n < 10 ^ Z.of_nat w → 0 <= n' < 10 ^ Z.of_nat w →
  String.compare (Dec.pad w n +:+ r) (Dec.pad w n' +:+ r')
  = match n ?= n' with Eq => String.compare r r' | c => c end.
Proof.
  intros Hn Hn'. unfold Dec.pad. rewrite !digits_app, !append_nil_l. by apply compare_digits.
Qed.

Lemma append_nil_r (s : string) : s +:+ "" = s.
Proof. induction s as [|c s IH]; [done|]. rewrite append_cons. by rewrite IH. Qed.

Local Opaque Dec.pad.

(** The text [strftime] writes sorts like the instant it denotes. *)
Lemma compare_strftime a b : valid a = true → valid b = true →
  String.compare (strftime a) (strftime b) = cmp (to_seconds a) (to_seconds b).
Proof.
  intros Ha Hb.
  apply valid_fields in Ha as (?&?&?&?&?&?&_). apply valid_fields in Hb as (?&?&?&?&?&?&_).
  unfold strftime, date_str, time_str. rewrite !app_assoc_s.
  rewrite <- (append_nil_r (Dec.pad 2 (second a))), <- (append_nil_r (Dec.pad 2 (second b))).
  rewrite !(append_cons "-" ""), !(append_cons " " ""), !(append_cons ":" ""), !append_nil_l.
  rewrite (compare_pad 4), compare_cons by (simpl; lia).
  rewrite (compare_pad 2), compare_cons by (simpl; lia).
  rewrite (compare_pad 2), compare_cons by (simpl; lia).
  rewrite (compare_pad 2), compare_cons by (simpl; lia).
  rewrite (compare_pad 2), compare_cons by (simpl; lia).
  rewrite (compare_pad 2) by (simpl; lia).
  unfold cmp, fields, to_seconds. cbn [year month day hour minute second microsecond lex].
  cbn [String.compare].
  destruct (year a ?= year b); [|done..].
  destruct (month a ?= month b); [|done..].
  destruct (day a ?= day b); [|done..].
  destruct (hour a ?= hour b); [|done..].
  destruct (minute a ?= minute b); [|done..].
  by destruct (second a ?= second b).
Qed.

Lemma leb_strftime a b : valid a = true → valid b = true →
  String.leb (strftime a) (strftime b) = (wall_s a <=? wall_s b).
Proof.
  intros Ha Hb. unfold String.leb. rewrite compare_strftime, cmp_to_seconds by done.
  unfold Z.leb. by destruct (wall_s a ?= wall_s b).
Qed.

Local Transparent Dec.pad.

Lemma reads_fail {A} msg : reads (@fail A msg) (fun _ => Err (GarminBulkImporterError msg)).
Proof. apply reads_lift. Qed.

Lemma reads_run {A} (m : M A) r w a w' : reads m r → m w = (a, w') →
  a = r (fs w) ∧ fs w' = fs w ∧ ∃ lg, log w' = log w ++ lg.
Proof.
  intros Hr E. destruct (Hr w) as [lg E']. rewrite E in E'. injection E' as -> ->.
  split_and!; [done..|]. by exists lg.
Qed.

Lemma reads_load_activities self : reads (load_activities self) (activities_of self).
Proof.
  unfold load_activities, activities_of. fold (summary_paths self).
  destruct (summary_paths self) as [|p0 ps]; [apply reads_ret|].
  eapply reads_ext.
  - apply reads_bind.
    + apply (reads_mfold _ (fun acc p f =>
               data ← json_of f p; data ← as_list data; rfold extend_activities acc data)).
      intros s p. apply reads_bind; [apply reads_json_load|]. intros j. apply reads_lift.
    + intros raw. apply reads_bind; [apply reads_lift|]. intros acts.
      apply reads_bind; [apply reads_log|]. intros ?. apply reads_ret.
  - intros f. unfold raw_activities, normalize_all. cbv beta.
    destruct (rfold _ [] (p0 :: ps)) as [raw|e]; [|reflexivity].
    cbn [mbind result_bind rbind].
    destruct (rfold _ [] raw) as [acts|e]; reflexivity.
Qed.

Lemma reads_load_sleep_stats self : reads (load_sleep_stats self) (sleep_of self).
Proof.
  unfold load_sleep_stats, sleep_of. fold (sleep_paths self).
  destruct (sleep_paths self) as [|p0 ps]; [apply reads_fail|].
  eapply reads_ext.
  - apply reads_bind.
    + apply (reads_mfold _ (fun acc p f => data ← json_of f p; sleep_file acc data)).
      intros s p. apply reads_bind; [apply reads_json_load|]. intros j. apply reads_lift.
    + intros sleep. apply reads_bind; [apply reads_log|]. intros ?. apply reads_ret.
  - intros f. cbv beta. destruct (rfold _ ∅ (p0 :: ps)) as [sleep|e]; reflexivity.
Qed.

Lemma reads_load_agg_stats self : reads (load_agg_stats self) (agg_of self).
Proof.
  unfold load_agg_stats, agg_of. fold (agg_paths self).
  destruct (agg_paths self) as [|p0 ps]; [apply reads_fail|].
  eapply reads_ext.
  - apply reads_bind.
    + apply (reads_mfold _ (fun acc p f => data ← json_of f p; agg_file self acc data)).
      intros s p. apply reads_bind; [apply reads_json_load|]. intros j. apply reads_lift.
    + intros r. apply reads_bind; [apply reads_log|]. intros ?. apply reads_ret.
  - intros f. cbv beta. destruct (rfold _ (∅, ∅) (p0 :: ps)) as [r|e]; reflexivity.
Qed.

Lemma reads_path_exists p : reads (path_exists p) (fun f => Ok (exists_in f p)).
Proof.
  unfold path_exists. eapply reads_ext.
  - apply reads_bind; [apply reads_get_fs|]. intros f. apply reads_ret.
  - done.
Qed.

Lemma reads_get_all_files self :
  reads (get_all_files self) (fun f => Ok (default [] (tree f !! path self))).
Proof.
  unfold get_all_files, os_walk. eapply reads_ext.
  - apply reads_bind.
    + apply reads_bind; [apply reads_get_fs|]. intros f. apply reads_ret.
    + intros l. apply reads_bind; [apply reads_log|]. intros ?. apply reads_ret.
  - done.
Qed.

(** The loads of the constructor only read the directory. *)
Lemma reads_init_loads p : reads (init_loads p) (loads_of p).
Proof.
  unfold init_loads. cbn [path]. eapply reads_ext.
  - apply reads_bind; [apply reads_path_exists|]. intros ex.
    apply reads_bind.
    + instantiate (1 := fun _ => if negb ex
                                 then Err (GarminBulkImporterError (p +:+ " does not exist"))
                                 else Ok ()).
      destruct (negb ex); [apply reads_fail|apply reads_ret].
    + intros ?. apply reads_bind; [apply reads_get_all_files|]. intros l.
      apply reads_bind; [apply reads_load_activities|]. intros acts.
      apply reads_bind; [apply reads_load_sleep_stats|]. intros sleep.
      eapply (reads_bind _ _ _
               (fun r _ => Ok (mkGarminBulkExport p l acts sleep r.1 r.2
                                 (path_join p CACHED_FIT_FILE_INDEX_FILENAME) [])));
        [apply reads_load_agg_stats|].
      intros [agg hyd]. apply reads_ret.
  - intros f. unfold loads_of. cbn [mbind result_bind rbind path].
    destruct (negb (exists_in f p)); [reflexivity|]. cbn [rbind].
    destruct (activities_of _ f) as [acts|]; [|reflexivity]. cbn [mbind result_bind rbind].
    destruct (sleep_of _ f) as [sleep|]; [|reflexivity]. cbn [mbind result_bind rbind].
    destruct (agg_of _ f) as [[agg hyd]|]; reflexivity.
Qed.

(** What a facade that the loads return holds, in terms of the
    directory. *)
Lemma init_loads_spec p w self w1 :
  init_loads p w = (Ok self, w1) →
  fs w1 = fs w ∧
  exists_in (fs w) p = true ∧
  path self = p ∧
  all_files self = default [] (tree (fs w) !! p) ∧
  activities_of self (fs w) = Ok (activities self) ∧
  sleep_of self (fs w) = Ok (sleep_stats self) ∧
  agg_of self (fs w) = Ok (agg_stats self, hydration_stats self) ∧
  cached_fit_file_index self = path_join p CACHED_FIT_FILE_INDEX_FILENAME ∧
  fit_file_index self = [].
Proof.
  intros H. apply (reads_run _ _ _ _ _ (reads_init_loads p)) in H as (H & Hfs & _).
  split; [exact Hfs|]. symmetry in H. unfold loads_of in H.
  destruct (exists_in (fs w) p); [|discriminate H]. cbn [negb] in H.
  apply rbind_Ok in H as (acts & Ha & H).
  apply rbind_Ok in H as (sleep & Hs & H).
  apply rbind_Ok in H as ([agg hyd] & Hg & H).
  injection H as <-. cbn [path all_files activities sleep_stats agg_stats hydration_stats
                          cached_fit_file_index fit_file_index].
  split_and!; try reflexivity; assumption.
Qed.

Lemma wall_us_s d : wall_us d = wall_s d * 1000000 + microsecond d.
Proof. reflexivity. Qed.

Lemma wall_s_to_seconds d : wall_s (to_seconds d) = wall_s d.
Proof. reflexivity. Qed.

(** What the normalization loop leaves in an activity: the start time
    it writes is the UTC wall clock of [startTimeGmt]. *)
Lemma normalize_activity_start a act :
  normalize_activity a = Ok act →
  ∃ dt, fromtimestamp_ms (start_ms act) = Ok dt ∧
        act !! "startTimeGMT" = Some (JStr (strftime dt)).
Proof.
  unfold normalize_activity. destruct a as [| | | | |o]; rstep; try (intros H; discriminate H).
  rstep. unfold getitem.
  destruct (o !! "startTimeGmt") as [v|] eqn:Ev; rstep; [|intros H; discriminate H].
  destruct (as_int v) as [ms|] eqn:Ems; rstep; [|intros H; discriminate H].
  destruct (fromtimestamp_ms ms) as [dt|] eqn:Edt; rstep; [|intros H; discriminate H].
  intros H. injection H as <-. exists dt. split.
  - unfold start_ms, get, get_default.
    rewrite !lookup_insert_ne by (intros E; discriminate E).
    by rewrite Ev, Ems.
  - rewrite !lookup_insert_ne by (intros E; discriminate E). apply lookup_insert_eq.
Qed.

Lemma start_time_of_normalized act dt :
  fromtimestamp_ms (start_ms act) = Ok dt →
  act !! "startTimeGMT" = Some (JStr (strftime dt)) →
  start_time_of act = Ok (to_seconds dt) ∧ valid dt = true ∧
  wall_s dt = wall_s EPOCH + start_second act ∧
  start_key act = strftime dt.
Proof.
  intros Hdt Hk. apply fromtimestamp_ms_spec in Hdt as (Hv & Htz & Hw).
  split_and!; [|exact Hv| |].
  - unfold start_time_of, getitem. rewrite Hk. cbn [of_option mbind result_bind rbind].
    by apply strptime_strftime.
  - rewrite !wall_us_s in Hw. change (microsecond EPOCH) with 0 in Hw.
    apply valid_fields in Hv as (_&_&_&_&_&_&Hus). unfold start_second.
    Z.div_mod_to_equations. lia.
  - unfold start_key, get, get_default. by rewrite Hk.
Qed.

Lemma normalize_all_loaded raw acts : normalize_all raw = Ok acts → Forall loaded acts.
Proof.
  unfold normalize_all. apply (rfold_inv _ (Forall loaded)); [|constructor].
  intros s a s' _ Hs H. apply rbind_Ok in H as (act & Ha & H). injection H as <-.
  apply Forall_app. split; [exact Hs|]. constructor; [|constructor].
  by eapply normalize_activity_start.
Qed.

Lemma insert_sorted_perm x l : insert_sorted x l ≡ₚ x :: l.
Proof.
  induction l as [|y l IH]; cbn [insert_sorted]; [done|].
  destruct (String.leb _ _); [done|]. rewrite IH. apply Permutation_swap.
Qed.

Lemma sorted_perm l : sorted l ≡ₚ l.
Proof.
  induction l as [|x l IH]; [done|]. cbn [sorted foldr].
  fold (sorted l). by rewrite insert_sorted_perm, IH.
Qed.

Lemma leb_loaded a b : loaded a → loaded b →
  String.leb (start_key a) (start_key b) = (start_second a <=? start_second b).
Proof.
  intros (da & Ha & Hka) (db & Hb & Hkb).
  destruct (start_time_of_normalized _ _ Ha Hka) as (_ & Hva & Hwa & ->).
  destruct (start_time_of_normalized _ _ Hb Hkb) as (_ & Hvb & Hwb & ->).
  rewrite leb_strftime by done. rewrite Hwa, Hwb.
  destruct (Z.leb_spec (wall_s EPOCH + start_second a) (wall_s EPOCH + start_second b));
    destruct (Z.leb_spec (start_second a) (start_second b)); lia.
Qed.

Lemma insert_sorted_sorted x l :
  loaded x → Forall loaded l →
  StronglySorted (fun a b => start_second a <= start_second b) l →
  StronglySorted (fun a b => start_second a <= start_second b) (insert_sorted x l).
Proof.
  intros Hx Hl Hs. induction Hs as [|y l Hs IH Hy]; cbn [insert_sorted].
  - repeat constructor.
  - apply Forall_cons in Hl as [Hly Hl].
    rewrite leb_loaded by done. destruct (Z.leb_spec (start_second x) (start_second y)).
    + constructor; [by constructor|]. constructor; [done|].
      eapply Forall_impl; [exact Hy|]. intros z Hz. simpl in Hz. lia.
    + constructor; [by apply IH|].
      rewrite insert_sorted_perm. constructor; [lia|exact Hy].
Qed.

Lemma sorted_sorted l : Forall loaded l →
  StronglySorted (fun a b => start_second a <= start_second b) (sorted l).
Proof.
  induction 1 as [|x l Hx Hl IH]; [constructor|]. cbn [sorted foldr]. fold (sorted l).
  apply insert_sorted_sorted; [done| |done]. by rewrite sorted_perm.
Qed.

(** The activities of a directory: those of the summary files, each
    in the loader's shape, in the order of their start second. *)
Lemma activities_of_spec self f acts :
  activities_of self f = Ok acts →
  match acts with
  | NoActivities => summary_paths self = []
  | Activities l =>
      summary_paths self ≠ [] ∧ Forall loaded l ∧
      StronglySorted (fun a b => start_second a <= start_second b) l
  end.
Proof.
  unfold activities_of. destruct (summary_paths self) as [|p0 ps].
  - intros H. by injection H as <-.
  - intros H. apply rbind_Ok in H as (raw & _ & H). apply rbind_Ok in H as (l & Hl & H).
    injection H as <-. apply normalize_all_loaded in Hl.
    split_and!; [done| |by apply sorted_sorted].
    by rewrite sorted_perm.
Qed.

(** The facade the constructor returns is the one its loads return,
    with the index added. *)
Lemma init_facade p w g w' :
  __init__ p w = (Ok g, w') →
  ∃ self w1 w2 cached,
    init_loads p w = (Ok self, w1) ∧
    load_cached_fit_file_index (cached_fit_file_index self) w1 = (Ok cached, w2) ∧
    or_else cached (load_fit_file_index self) w2 = (Ok (fit_file_index g), w') ∧
    g = set_fit_file_index self (fit_file_index g).
Proof.
  unfold __init__. rewrite M_bind_run.
  destruct (init_loads p w) as [[self|?] w1] eqn:E1; [|intros H; discriminate H].
  rewrite M_bind_run.
  destruct (load_cached_fit_file_index _ w1) as [[cached|?] w2] eqn:E2; [|intros H; discriminate H].
  rewrite M_bind_run.
  destruct (or_else cached _ w2) as [[index|?] w3] eqn:E3; [|intros H; discriminate H].
  intros H. injection H as <- <-. exists self, w1, w2, cached.
  cbn [set_fit_file_index fit_file_index]. done.
Qed.

Lemma init_activities p w g w' :
  __init__ p w = (Ok g, w') → activities_of g (fs w) = Ok (activities g).
Proof.
  intros H. apply init_facade in H as (self & w1 & w2 & cached & H & _ & _ & ->).
  apply init_loads_spec in H as (_ & _ & _ & _ & H & _). exact H.
Qed.

Lemma init_loaded p w g w' :
  __init__ p w = (Ok g, w') →
  Forall loaded (activity_list (activities g)) ∧
  StronglySorted (fun a b => start_second a <= start_second b) (activity_list (activities g)).
Proof.
  intros H. apply init_activities, activities_of_spec in H.
  destruct (activities g) as [|l]; cbn [activity_list].
  - split; constructor.
  - tauto.
Qed.

Lemma strptime_date_spec s d : strptime_date s = Ok d →
  valid d = true ∧ to_seconds d = d ∧ wall_s d = toordinal d * 86400.
Proof.
  intros H. pose proof (strptime_date_midnight _ _ H) as (Hh & Hm & Hs & Hus & Htz).
  split_and!.
  - unfold strptime_date in H.
    destruct (parse_date_fields s) as [[[[y m] dd] [|]]|]; try discriminate H.
    unfold checked in H. destruct (valid _) eqn:Hv; [|discriminate H]. by injection H as <-.
  - destruct d. unfold to_seconds. simpl in *. by subst.
  - unfold wall_s. rewrite Hh, Hm, Hs. lia.
Qed.

Lemma in_days_loaded sd ed act :
  valid sd = true → to_seconds sd = sd → wall_s sd = toordinal sd * 86400 →
  valid ed = true → to_seconds ed = ed →
  loaded act →
  starts_within sd (replace_hms ed 23 59 59) act = starts_in_days sd ed act.
Proof.
  intros Hsd Esd Hs0 Hed Eed (dt & Hdt & Hk).
  destruct (start_time_of_normalized _ _ Hdt Hk) as (Hst & Hv & Hw & _).
  unfold starts_within, starts_in_days. rewrite Hst.
  assert (Hend : valid (replace_hms ed 23 59 59) = true).
  { revert Hed. unfold valid, replace_hms.
    cbn [year month day hour minute second microsecond tzinfo].
    rewrite !andb_true_iff. intros [[[[[[[? ?] ?] ?] ?] ?] ?] ?]. split_and!; done. }
  assert (Eend : to_seconds (replace_hms ed 23 59 59) = replace_hms ed 23 59 59).
  { rewrite <- Eed. reflexivity. }
  rewrite <- Esd at 1. rewrite <- Eend.
  rewrite !le_to_seconds by done.
  assert (Hs1 : wall_s (replace_hms ed 23 59 59) = toordinal ed * 86400 + 86399).
  { unfold wall_s, replace_hms, toordinal. cbn [year month day hour minute second]. lia. }
  rewrite Hs0, Hs1, Hw. unfold day_start. change (wall_s EPOCH) with (toordinal EPOCH * 86400).
  f_equal.
  - destruct (Z.leb_spec (toordinal sd * 86400) (toordinal EPOCH * 86400 + start_second act));
      destruct (Z.leb_spec ((toordinal sd - toordinal EPOCH) * 86400) (start_second act)); lia.
  - destruct (Z.leb_spec (toordinal EPOCH * 86400 + start_second act) (toordinal ed * 86400 + 86399));
      destruct (Z.leb_spec (start_second act) ((toordinal ed - toordinal EPOCH) * 86400 + 86399)); lia.
Qed.

Lemma sorted_before_last {A} (R : A → A → Prop) l x a :
  StronglySorted R (l ++ [x]) → a ∈ l → R a x.
Proof.
  induction l as [|y l IH]; intros Hs Ha; [by apply elem_of_nil in Ha|].
  cbn [app] in Hs. apply StronglySorted_inv in Hs as [Hs Hy].
  apply elem_of_cons in Ha as [->|Ha]; [|by apply IH].
  rewrite Forall_forall in Hy. apply Hy. apply elem_of_app; right; by left.
Qed.





Lemma rstrip_idem s : Str.rstrip (Str.rstrip s) = Str.rstrip s.
Proof.
  induction s as [|c s IH]; [done|]. cbn [Str.rstrip].
  destruct (Str.rstrip s) as [|c' r] eqn:E.
  - destruct (Str.isspace c) eqn:Ec; [done|]. cbn [Str.rstrip]. by rewrite Ec.
  - cbn [Str.rstrip] in *. by rewrite IH.
Qed.

Lemma lstrip_head s :
  Str.lstrip s = "" ∨ ∃ c s', Str.lstrip s = String c s' ∧ Str.isspace c = false.
Proof.
  induction s as [|c s IH]; [by left|]. cbn [Str.lstrip].
  destruct (Str.isspace c) eqn:Ec; [exact IH|]. right. by exists c, s.
Qed.

Lemma rstrip_head c s : Str.isspace c = false → ∃ r, Str.rstrip (String c s) = String c r.
Proof.
  intros Ec. cbn [Str.rstrip]. destruct (Str.rstrip s); [rewrite Ec|]; eauto.
Qed.

Lemma strip_idem s : Str.strip (Str.strip s) = Str.strip s.
Proof.
  unfold Str.strip. destruct (lstrip_head s) as [->|(c & s' & -> & Ec)]; [done|].
  destruct (rstrip_head c s' Ec) as [r Hr]. rewrite Hr.
  cbn [Str.lstrip]. rewrite Ec, <- Hr. apply rstrip_idem.
Qed.

Lemma sleep_step_stored sleep o sleep' :
  is_Some (o !! "calendarDate") →
  sleep_step sleep (JObj o) = Ok sleep' →
  ∃ x s ts, o !! "calendarDate" = Some (JStr x) ∧ sleep !! x = None ∧
            o !! "sleepEndTimestampGMT" = Some (JStr s) ∧ iso_to_timestamp_ms s = Ok ts ∧
            sleep' = <[Str.strip x := <["sleepEndTimestampGMT" := JNum ts]> o]> sleep.
Proof.
  intros [v Hv]. unfold sleep_step, contains, get, get_default, getitem. rstep. rewrite Hv. rstep.
  destruct v as [| | |x| |]; rstep; try (intros H; discriminate H).
  - destruct (o !! "sleepEndTimestampGMT") as [[| | |s| |]|]; rstep;
      try (intros H; discriminate H).
    destruct (iso_to_timestamp_ms s); rstep; intros H; discriminate H.
  - destruct (o !! "sleepEndTimestampGMT") as [[| | |s| |]|]; rstep;
      try (intros H; discriminate H).
    destruct (iso_to_timestamp_ms s); rstep; intros H; discriminate H.
  - destruct (o !! "sleepEndTimestampGMT") as [[| | |s| |]|]; rstep;
      try (intros H; discriminate H).
    destruct (iso_to_timestamp_ms s); rstep; intros H; discriminate H.
  - destruct (sleep !! x) eqn:Ex; rstep; [intros H; discriminate H|].
    destruct (o !! "sleepEndTimestampGMT") as [[| | |s| |]|]; rstep;
      try (intros H; discriminate H).
    destruct (iso_to_timestamp_ms s) as [ts|] eqn:Ets; rstep; [|intros H; discriminate H].
    intros H. injection H as <-. by exists x, s, ts.
Qed.

Lemma sleep_step_inv sleep j sleep' :
  sleep_inv sleep → sleep_step sleep j = Ok sleep' → sleep_inv sleep'.
Proof.
  intros Hinv H.
  destruct j as [| | | | |o]; try (unfold sleep_step in H; rstep; discriminate H).
  destruct (o !! "calendarDate") as [v|] eqn:Hv.
  - apply sleep_step_stored in H as (x & s & ts & Hx & _ & _ & _ & ->); [|by rewrite Hv].
    intros k r. destruct (decide (Str.strip x = k)) as [<-|Hne].
    + rewrite lookup_insert_eq. intros E. injection E as <-. split.
      * exists x. split; [|done]. rewrite lookup_insert_ne by (intros E; discriminate E). done.
      * exists ts. apply lookup_insert_eq.
    + rewrite lookup_insert_ne by done. apply Hinv.
  - rewrite sleep_step_no_date in H by done. by injection H as <-.
Qed.

Lemma sleep_of_inv self f sleep : sleep_of self f = Ok sleep → sleep_inv sleep.
Proof.
  unfold sleep_of. destruct (sleep_paths self) as [|p0 ps]; [intros H; discriminate H|].
  apply (rfold_inv _ sleep_inv).
  - intros s p s' _ Hs H. apply rbind_Ok in H as (data & _ & H). unfold sleep_file in H.
    apply rbind_Ok in H as (l & _ & H). revert Hs H. apply rfold_inv.
    intros s1 j s2 _. apply sleep_step_inv.
  - intros k r E. by rewrite lookup_empty in E.
Qed.

Lemma sleep_inv_stripped sleep : sleep_inv sleep → stripped_keys sleep.
Proof. intros H k r Hk. destruct (H k r Hk) as [(x & _ & <-) _]. apply strip_idem. Qed.

Lemma agg_step_inv self acc j acc' :
  agg_inv self acc → agg_step self acc j = Ok acc' → agg_inv self acc'.
Proof.
  intros [Ha Hh] H. destruct acc as [agg hyd].
  destruct j as [| | | | |o]; try (unfold agg_step in H; rstep; discriminate H).
  destruct (o !! "hydration") as [v|] eqn:Ho.
  - pose proof (agg_step_agg_unchanged _ _ _ _ _ _ Ho H) as Eagg.
    revert H. unfold agg_step, contains, getitem. rstep. rewrite Ho. rstep.
    destruct v as [| | | | |h]; rstep; try (intros H; discriminate H).
    destruct (h !! "calendarDate") as [[| | |x| |]|] eqn:Hx; rstep;
      try (intros H; discriminate H).
    intros H. injection H as <-. split; [exact Ha|].
    intros k r. cbn [snd]. destruct (decide (Str.strip x = k)) as [<-|Hne].
    + rewrite lookup_insert_eq. intros E. injection E as <-. by exists x.
    + rewrite lookup_insert_ne by done. apply Hh.
  - apply agg_step_stored in H as (x & ss & Hx & _ & Hss & ->); [|exact Ho].
    apply calculate_sleeping_seconds_spec in Hss. subst ss.
    split; [|exact Hh]. intros k r. cbn [fst].
    destruct (decide (Str.strip x = k)) as [<-|Hne].
    + rewrite lookup_insert_eq. intros E. injection E as <-. exists x. split_and!; [|done|].
      * rewrite lookup_insert_ne by (intros E; discriminate E). done.
      * apply lookup_insert_eq.
    + rewrite lookup_insert_ne by done. apply Ha.
Qed.

Lemma agg_of_inv self f acc : agg_of self f = Ok acc → agg_inv self acc.
Proof.
  unfold agg_of. destruct (agg_paths self) as [|p0 ps]; [intros H; discriminate H|].
  apply (rfold_inv _ (agg_inv self)).
  - intros s p s' _ Hs H. apply rbind_Ok in H as (data & _ & H). unfold agg_file in H.
    apply rbind_Ok in H as (l & _ & H). revert Hs H. apply rfold_inv.
    intros s1 j s2 _. apply agg_step_inv.
  - split; intros k r E; cbn [fst snd] in E; by rewrite lookup_empty in E.
Qed.

Lemma init_maps p w g w' :
  __init__ p w = (Ok g, w') →
  sleep_inv (sleep_stats g) ∧ agg_inv g (agg_stats g, hydration_stats g).
Proof.
  intros H. apply init_facade in H as (self & w1 & w2 & cached & H & _ & _ & ->).
  apply init_loads_spec in H as (_ & _ & _ & _ & _ & Hs & Ha & _).
  split; [by eapply sleep_of_inv | by eapply agg_of_inv].
Qed.

(** Property X5.  How [load_sleep_stats] treats a sleep object that carries a date:
    a date that is already a key of the map raises the importer's
    duplicate error, so a second object for a date just stored fails;
    an object without [sleepEndTimestampGMT] raises [KeyError] (it is
    not skipped, unlike an object without date); an end time that
    [fromisoformat] rejects raises [ValueError]; otherwise the object is
    stored under its stripped date with the end time replaced by its
    integer timestamp.  An error of one object aborts the merge. *)
Theorem sleep_record_errors sleep o d :
  o !! "calendarDate" = Some (JStr d) →
  (is_Some (sleep !! d) →
   sleep_step sleep (JObj o) = Err (GarminBulkImporterError (dup_sleep_msg d))) ∧
  (sleep !! d = None →
   (o !! "sleepEndTimestampGMT" = None →
    sleep_step sleep (JObj o) = Err (KeyError "sleepEndTimestampGMT")) ∧
   (∀ s, o !! "sleepEndTimestampGMT" = Some (JStr s) →
      match iso_to_timestamp_ms s with
      | Ok ts =>
          sleep_step sleep (JObj o)
          = Ok (<[Str.strip d := <["sleepEndTimestampGMT" := JNum ts]> o]> sleep) ∧
          (Str.strip d = d →
           ∀ o', o' !! "calendarDate" = Some (JStr d) →
             rfold sleep_step sleep [JObj o; JObj o']
             = Err (GarminBulkImporterError (dup_sleep_msg d)))
      | Err e => sleep_step sleep (JObj o) = Err e
      end)) ∧
  (∀ e after, sleep_step sleep (JObj o) = Err e →
     rfold sleep_step sleep (JObj o :: after) = Err e).
Proof.
  intros Hd.
  assert (Hdup : ∀ sl o', o' !! "calendarDate" = Some (JStr d) → is_Some (sl !! d) →
            sleep_step sl (JObj o') = Err (GarminBulkImporterError (dup_sleep_msg d))).
  { intros sl o' Hd' [r Hr]. unfold sleep_step, contains, get, get_default. rstep.
    rewrite Hd'. rstep. rewrite Hr. reflexivity. }
  split_and!.
  - by apply Hdup.
  - intros Hn. split.
    + intros He. unfold sleep_step, contains, get, get_default, getitem. rstep.
      rewrite Hd. rstep. rewrite Hn, He. reflexivity.
    + intros s He.
      assert (Hstep : sleep_step sleep (JObj o)
                = (ts ← iso_to_timestamp_ms s;
                   Ok (<[Str.strip d := <["sleepEndTimestampGMT" := JNum ts]> o]> sleep))).
      { unfold sleep_step, contains, get, get_default, getitem. rstep.
        rewrite Hd. rstep. rewrite Hn, He. rstep.
        destruct (iso_to_timestamp_ms s); reflexivity. }
      destruct (iso_to_timestamp_ms s) as [ts|e]; [|exact Hstep].
      split; [exact Hstep|]. intros Hs o' Hd'. cbn [rfold]. rewrite Hstep. rstep.
      rewrite (Hdup _ o' Hd'); [reflexivity|]. rewrite Hs, lookup_insert_eq. eauto.
  - intros e after He. cbn [rfold]. by rewrite He.
Qed.

(** Property X6.  Every record a constructed facade serves is filed under the
    stripped form of its own [calendarDate]: a sleep record also has an
    integer [sleepEndTimestampGMT] and is what [get_sleep_data] wraps, a
    daily record has a [sleepingSeconds] entry, a hydration record is
    what [get_hydration_data] returns.  A date string with white space
    around it finds no record in any of the three queries. *)
Theorem facade_records_dated p w g w' :
  __init__ p w = (Ok g, w') →
  (∀ d r, sleep_stats g !! d = Some r →
     dated d r ∧ (∃ ts, r !! "sleepEndTimestampGMT" = Some (JNum ts)) ∧
     get_sleep_data g (JStr d) = Ok {["dailySleepDTO" := JObj r]}) ∧
  (∀ d r, agg_stats g !! d = Some r → dated d r ∧ is_Some (r !! "sleepingSeconds")) ∧
  (∀ d r, hydration_stats g !! d = Some r → dated d r ∧ get_hydration_data g d = r) ∧
  (∀ d, Str.strip d ≠ d →
     get_sleep_data g (JStr d) = Ok no_sleep_data ∧
     get_stats g d = {["wellnessStartTimeGmt" := JNull]} ∧
     get_hydration_data g d = ∅).
Proof.
  intros H. apply init_maps in H as [Hs [Ha Hh]]. cbn [fst snd] in Ha, Hh. split_and!.
  - intros d r Hr. destruct (Hs d r Hr) as [Hd Hts]. split_and!; [done..|].
    unfold get_sleep_data. rstep. by rewrite Hr.
  - intros d r Hr. destruct (Ha d r Hr) as (x & Hx & Hk & Hss). split; [by exists x|eauto].
  - intros d r Hr. split; [by apply Hh|]. unfold get_hydration_data. by rewrite Hr.
  - intros d Hd. split_and!.
    + unfold get_sleep_data. rstep. destruct (sleep_stats g !! d) as [r|] eqn:Hr; [|done].
      destruct (Hs d r Hr) as [(x & _ & Hx) _]. destruct Hd. rewrite <- Hx. apply strip_idem.
    + unfold get_stats. destruct (agg_stats g !! d) as [r|] eqn:Hr; [|done].
      destruct (Ha d r Hr) as (x & _ & Hx & _). destruct Hd. rewrite <- Hx. apply strip_idem.
    + unfold get_hydration_data. destruct (hydration_stats g !! d) as [r|] eqn:Hr; [|done].
      destruct (Hh d r Hr) as (x & _ & Hx). destruct Hd. rewrite <- Hx. apply strip_idem.
Qed.

(** Property X7.  A daily record whose [calendarDate] is written with white space
    around it gets no sleeping seconds: the sleep map is keyed by
    stripped dates and is asked for the date as written, so the value
    injected is [None] even when a sleep record of that day exists. *)
Theorem padded_date_hides_sleep p w g w' d r x :
  __init__ p w = (Ok g, w') →
  agg_stats g !! d = Some r →
  r !! "calendarDate" = Some (JStr x) →
  x ≠ d →
  r !! "sleepingSeconds" = Some JNull ∧ Str.strip x = d.
Proof.
  intros H Hr Hx Hne. apply init_maps in H as [Hs [Ha _]]. cbn [fst] in Ha.
  destruct (Ha d r Hr) as (x' & Hx' & Hk & Hss). rewrite Hx in Hx'. injection Hx' as <-.
  split; [|exact Hk]. rewrite Hss. f_equal. unfold sleeping_seconds_of.
  destruct (sleep_stats g !! x) as [sr|] eqn:Esr; [|done].
  apply sleep_inv_stripped in Hs. specialize (Hs x sr Esr). congruence.
Qed.

(** Property X8.  The duplicate check of the daily records looks for the date as
    written among keys that are stripped dates: a daily object whose
    date has white space around it is therefore never rejected as a
    duplicate; it is stored under the stripped date, without sleeping
    seconds, and replaces the record that was there. *)
Theorem padded_date_replaces_silently self agg hydration o x :
  stripped_keys agg →
  stripped_keys (sleep_stats self) →
  o !! "hydration" = None →
  o !! "calendarDate" = Some (JStr x) →
  Str.strip x ≠ x →
  agg_step self (agg, hydration) (JObj o)
  = Ok (<[Str.strip x := <["sleepingSeconds" := JNull]> o]> agg, hydration).
Proof.
  intros Hagg Hsleep Ho Hx Hne.
  assert (Ea : agg !! x = None).
  { destruct (agg !! x) as [r|] eqn:E; [|done]. destruct Hne. by eapply Hagg. }
  assert (Es : sleep_stats self !! x = None).
  { destruct (sleep_stats self !! x) as [r|] eqn:E; [|done]. destruct Hne. by eapply Hsleep. }
  destruct (calculate_sleeping_seconds self (JStr x)) as [ss|e] eqn:Ec.
  - pose proof (calculate_sleeping_seconds_spec _ _ _ Ec) as ->.
    unfold agg_step, contains, getitem. rstep. rewrite Ho, Hx. rstep. rewrite Ea, Ec. rstep.
    unfold sleeping_seconds_of. by rewrite Es.
  - exfalso. revert Ec. unfold calculate_sleeping_seconds, get_sleep_data. rstep. rewrite Es.
    rstep. rewrite !get_singleton. cbn [truthy].
    rewrite (bool_decide_eq_false_2 _ (map_non_empty_singleton _ _)).
    cbn [negb]. rstep. unfold get_default.
    rewrite !lookup_singleton_ne by (intros H; discriminate H).
    unfold py_sum. cbn [rfold as_int]. rstep. intros H; discriminate H.
Qed.

Lemma reads_writes_only {A} q (m : M A) r : reads m r → writes_only q m.
Proof.
  intros Hr w a w' E. destruct (reads_run _ _ _ _ _ Hr E) as (_ & Hfs & Hlg).
  rewrite Hfs. split_and!; [done|by left|done].
Qed.

Lemma writes_only_bind {A B} q (m : M A) (k : A → M B) :
  writes_only q m → (∀ a, writes_only q (k a)) → writes_only q (m ≫= k).
Proof.
  intros Hm Hk w r w'. rewrite M_bind_run.
  destruct (m w) as [[a|e] w1] eqn:E.
  - intros H. destruct (Hm _ _ _ E) as (F1 & T1 & lg1 & L1).
    destruct (Hk a _ _ _ H) as (F2 & T2 & lg2 & L2). split_and!.
    + intros q' Hq. by rewrite F2, F1.
    + intros d. destruct (T2 d) as [E2|(l & E2 & Hl & E2')].
      * rewrite E2. apply T1.
      * destruct (T1 d) as [E1|(l0 & E1 & Hl0 & E1')].
        -- right. exists l. by rewrite <- E1.
        -- rewrite E1' in E2. injection E2 as <-. destruct Hl.
           apply elem_of_app. right. by left.
    + exists (lg1 ++ lg2). by rewrite L2, L1, app_assoc.
  - intros H. injection H as <- <-. exact (Hm _ _ _ E).
Qed.

Lemma writes_only_write_file q c : writes_only q (write_file q c).
Proof.
  intros w r w' H. unfold write_file, get_fs, put_fs in H. rewrite M_bind_run in H.
  injection H as <- <-. cbn [fs log files tree]. split_and!.
  - intros q' Hq. by rewrite lookup_insert_ne.
  - intros d. rewrite map_lookup_imap.
    destruct (tree (fs w) !! d) as [l|]; cbn [mbind option_bind]; [|by left].
    destruct (Str.startswith _ _ && negb (bool_decide (q ∈ l))) eqn:E; [|by left].
    right. exists l. split_and!; [done| |done].
    apply andb_true_iff in E as [_ E]. apply negb_true_iff in E.
    by apply bool_decide_eq_false in E.
  - exists []. by rewrite app_nil_r.
Qed.

Lemma writes_only_cache idx q : writes_only q (cache_fit_file_index idx q).
Proof.
  unfold cache_fit_file_index.
  apply writes_only_bind; [eapply reads_writes_only, reads_log|]. intros ?.
  destruct (forallb _ _); [apply writes_only_write_file|].
  apply writes_only_bind; [apply writes_only_write_file|]. intros ?.
  eapply reads_writes_only, reads_raise.
Qed.

Lemma writes_only_load_fit_file_index self :
  writes_only (cached_fit_file_index self) (load_fit_file_index self).
Proof.
  unfold load_fit_file_index.
  apply writes_only_bind; [eapply reads_writes_only, reads_index_archives|]. intros idx.
  apply writes_only_bind; [eapply reads_writes_only, reads_log|]. intros ?.
  apply writes_only_bind; [apply writes_only_cache|]. intros ?.
  eapply reads_writes_only, reads_ret.
Qed.

Lemma reads_load_cached p :
  reads (load_cached_fit_file_index p)
        (fun f => if negb (exists_in f p) then Ok None
                  else data ← json_of f p; idx ← cached_entries data; Ok (Some idx)).
Proof.
  unfold load_cached_fit_file_index. eapply reads_ext.
  - apply reads_bind; [apply reads_path_exists|]. intros ex.
    instantiate (1 := fun ex f => if negb ex then Ok None
                     else data ← json_of f p; idx ← cached_entries data; Ok (Some idx)).
    destruct ex; cbn [negb]; [|apply reads_ret].
    eapply reads_ext.
    + apply reads_bind; [apply reads_log|]. intros ?.
      apply reads_bind; [apply reads_json_load|]. intros data.
      apply reads_bind; [apply reads_lift|]. intros idx. apply reads_ret.
    + intros f. cbn [mbind result_bind rbind]. reflexivity.
  - intros f. reflexivity.
Qed.

(** Construction writes nothing but the cache of the index. *)
Lemma writes_only_init p :
  writes_only (path_join p CACHED_FIT_FILE_INDEX_FILENAME) (__init__ p).
Proof.
  intros w r w'. unfold __init__. rewrite M_bind_run.
  destruct (init_loads p w) as [[self|e] w1] eqn:E1.
  - pose proof (init_loads_spec _ _ _ _ E1) as (_ & _ & _ & _ & _ & _ & _ & Hc & _).
    destruct (reads_run _ _ _ _ _ (reads_init_loads p) E1) as (_ & Hfs1 & lg1 & Hl1).
    assert (Hk : writes_only (path_join p CACHED_FIT_FILE_INDEX_FILENAME)
                   (cached ← load_cached_fit_file_index (cached_fit_file_index self);
                    index ← or_else cached (load_fit_file_index self);
                    mret (set_fit_file_index self index))).
    { apply writes_only_bind; [eapply reads_writes_only, reads_load_cached|]. intros cached.
      apply writes_only_bind.
      - rewrite <- Hc.
        destruct cached as [[|x l]|]; cbn [or_else];
          first [apply writes_only_load_fit_file_index | eapply reads_writes_only, reads_ret].
      - intros idx. eapply reads_writes_only, reads_ret. }
    intros H. destruct (Hk _ _ _ H) as (F & T & lg & L). rewrite Hfs1 in F, T.
    split_and!; [done..|]. exists (lg1 ++ lg). by rewrite L, Hl1, app_assoc.
  - intros H. injection H as <- <-.
    destruct (reads_run _ _ _ _ _ (reads_init_loads p) E1) as (_ & -> & Hlg).
    split_and!; [done|by left|done].
Qed.

Lemma init_loads_run p w :
  ∃ lg, init_loads p w = (loads_of p (fs w), {| fs := fs w; log := log w ++ lg |}).
Proof. apply reads_init_loads. Qed.

Lemma init_loads_fails p w e :
  loads_of p (fs w) = Err e →
  ∃ lg, __init__ p w = (Err e, {| fs := fs w; log := log w ++ lg |}).
Proof.
  intros H. destruct (init_loads_run p w) as [lg E]. exists lg.
  unfold __init__. rewrite M_bind_run, E, H. reflexivity.
Qed.


(** Property X10.  Construction writes no file but the cache of the index, whether it
    succeeds or raises: every other file of the directory is as it
    was, a directory listing gains at most the path of the cache, and
    the log only grows. *)
Theorem construction_writes_only_cache p w r w' :
  __init__ p w = (r, w') →
  (∀ q, q ≠ path_join p CACHED_FIT_FILE_INDEX_FILENAME →
        files (fs w') !! q = files (fs w) !! q) ∧
  (∀ d, tree (fs w') !! d = tree (fs w) !! d
        ∨ ∃ l, tree (fs w) !! d = Some l ∧
               (path_join p CACHED_FIT_FILE_INDEX_FILENAME ∉ l) ∧
               tree (fs w') !! d = Some (l ++ [path_join p CACHED_FIT_FILE_INDEX_FILENAME])) ∧
  ∃ lg, log w' = log w ++ lg.
Proof. apply writes_only_init. Qed.

(** Property X11.  A recording that the decoder rejects aborts the indexing: for a
    member of an archive of the export whose name ends in [.fit]
    (whatever the case) and whose decoding fails, the loop body raises
    [RuntimeError] with the decoder's message, [load_fit_file_index]
    raises, and neither the cache nor anything else is written.  A
    member under another name is never decoded. *)
Theorem corrupt_recording_aborts_indexing self w zp z fn m msg :
  zp ∈ zip_paths self →
  files (fs w) !! zp = Some (FileZip z) →
  fn ∈ namelist z →
  Str.endswith ".fit" (Str.lower fn) = true →
  zip_open z fn = Ok m →
  member_fit m = FitParseError msg →
  index_file zp z fn = Err (RuntimeError ("Failed to parse FIT file: " +:+ msg)) ∧
  (∃ e lg, load_fit_file_index self w = (Err e, {| fs := fs w; log := log w ++ lg |})) ∧
  (∀ fn', Str.endswith ".fit" (Str.lower fn') = false → index_file zp z fn' = Ok []).
Proof.
  intros Hzp Hz Hfn Hfit Hm Hmsg.
  assert (Hix : index_file zp z fn = Err (RuntimeError ("Failed to parse FIT file: " +:+ msg))).
  { unfold index_file. rewrite Hfit, Hm. cbn [mbind result_bind rbind]. by rewrite Hmsg. }
  split_and!; [exact Hix| |intros fn'; apply index_file_fit].
  destruct (reads_index_archives [] (zip_paths self) w) as [lg E].
  destruct (index_archives (fs w) [] (zip_paths self)) as [idx|e] eqn:Ei.
  - exfalso. apply index_archives_spec in Ei as [_ Hto].
    destruct (Hto zp z fn Hzp) as (es & Hes & _); [|done|].
    + unfold zip_of. by rewrite Hz.
    + rewrite Hix in Hes. discriminate Hes.
  - exists e, lg. unfold load_fit_file_index. fold (zip_paths self).
    rewrite M_bind_run, E. reflexivity.
Qed.

(** Property X12.  Once the index is built from the archives (no cache file was
    there), every entry of the facade can be extracted: its archive is
    still in the directory, the archive has the member, and the end of
    [download_activity] returns that member's bytes under the last
    component of its name, logging the match.  The start time of every
    entry is in UTC, so the matching loop can compare it with any
    activity. *)
Theorem indexed_entries_extractable p w g w' e :
  __init__ p w = (Ok g, w') →
  files (fs w) !! path_join p CACHED_FIT_FILE_INDEX_FILENAME = None →
  e ∈ fit_file_index g →
  tzinfo (date e) = utc ∧
  ∃ z m, files (fs w') !! zip_file_name e = Some (FileZip z) ∧
         zip_open z (fit_file_name e) = Ok m ∧
         ∀ activityId d lg,
           extract_match activityId e d {| fs := fs w'; log := lg |}
           = (Ok (ZipOf (Str.last_component (fit_file_name e)) (member_bytes m)),
              {| fs := fs w';
                 log := lg ++ [LogMatched activityId (fit_file_name e) (zip_file_name e)
                                 (Qnum d ÷ Z.pos (Qden d))] |}).
Proof.
  intros H Hnone He.
  apply init_facade in H as (self & w1 & w2 & cached & H1 & H2 & H3 & Hg).
  pose proof (init_loads_spec _ _ _ _ H1) as (Hfs1 & _ & _ & _ & _ & _ & _ & Hc & _).
  destruct (reads_run _ _ _ _ _ (reads_load_cached _) H2) as (Hcached & Hfs2 & _).
  rewrite Hc, Hfs1 in Hcached.
  assert (cached = None) as ->.
  { destruct (negb (exists_in (fs w) _)); [by injection Hcached as ->|].
    unfold json_of in Hcached. rewrite Hnone in Hcached. discriminate Hcached. }
  cbn [or_else] in H3.
  apply load_fit_file_index_inv in H3 as (Hix & _ & _ & Hfiles & _).
  rewrite Hfs2, Hfs1 in Hix, Hfiles.
  destruct (proj1 (index_archives_spec _ _ _ Hix) e He)
    as (zp & z & fn & es & _ & Hz & _ & Hes & Hin).
  destruct (index_file_spec _ _ _ _ Hes e Hin)
    as (Ezp & Efn & m & msgs & s & d0 & Hm & _ & _ & _ & Ee).
  split; [by rewrite Ee|].
  apply zip_of_Ok in Hz. exists z, m.
  assert (Hz' : files (fs w') !! zip_file_name e = Some (FileZip z)).
  { rewrite Hfiles, Ezp, lookup_insert_ne; [done|].
    rewrite Hc. intros E. rewrite <- E, Hnone in Hz. discriminate Hz. }
  split_and!; [done|by rewrite Efn|].
  intros activityId d lg. unfold extract_match, zip_load, logging_info, get_fs, lift.
  rewrite !M_bind_run. cbn [fs log]. rewrite Hz'. cbn [mret M_ret].
  rewrite M_bind_run. rewrite Efn, Hm. reflexivity.
Qed.

Lemma match_step_naive T best x :
  tzinfo T = utc → tzinfo (date x) = None →
  match_step T best x = Err (TypeError mixed_dates_msg).
Proof. intros HT Hx. unfold match_step, Datetime.sub. by rewrite HT, Hx. Qed.

Lemma match_step_aware T best x o :
  tzinfo T = utc → tzinfo (date x) = Some o → ∃ b, match_step T best x = Ok b.
Proof.
  intros HT Hx. apply match_step_total. unfold delta, Datetime.sub. rewrite HT, Hx. eauto.
Qed.

Lemma match_fold_naive T l : ∀ best,
  tzinfo T = utc →
  (∃ e, e ∈ l ∧ tzinfo (date e) = None) →
  rfold (match_step T) best l = Err (TypeError mixed_dates_msg).
Proof.
  induction l as [|x l IH]; intros best HT (e & He & Hn); [by apply elem_of_nil in He|].
  cbn [rfold].
  destruct (tzinfo (date x)) as [ox|] eqn:Ex.
  - destruct (match_step_aware T best x ox HT Ex) as [b ->]. cbn [mbind result_bind rbind].
    apply IH; [done|]. apply elem_of_cons in He as [->|He]; [congruence|]. by exists e.
  - by rewrite match_step_naive.
Qed.

(** Property X13.  An index entry whose start time has no offset, as a cache file
    written by hand can hold, makes every download in the original
    format of an existing activity raise [TypeError]: the activity's
    start is in UTC and Python does not subtract a value with offset
    from one without.  Nothing is logged or written. *)
Theorem naive_index_date_raises self activityId act T0 e w :
  find_activity self activityId = Some act →
  start_time_of act = Ok T0 →
  e ∈ fit_file_index self →
  tzinfo (date e) = None →
  download_activity self activityId ORIGINAL w = (Err (TypeError mixed_dates_msg), w).
Proof.
  intros Hact Hstart He Hn. unfold download_activity. rewrite Hact.
  rewrite M_bind_run. unfold lift at 1. rewrite Hstart.
  rewrite M_bind_run. unfold lift at 1, best_match_for.
  rewrite match_fold_naive; [reflexivity..|]. by exists e.
Qed.

Lemma last_component_no_slash s : no_slash (Str.last_component s) = true.
Proof.
  unfold no_slash. induction s as [|c s IH]; [done|]. cbn [Str.last_component].
  destruct (existsb (Ascii.eqb "/") (list_ascii_of_string s)) eqn:E; [exact IH|].
  destruct (Ascii.eqb c "/") eqn:Ec.
  - by rewrite E.
  - cbn [list_ascii_of_string existsb]. rewrite E, Ascii.eqb_sym, Ec. done.
Qed.

(** Property X14.  [download_activity] only reads: the directory is as it was,
    whatever the outcome, and the log gains one line when a recording
    is matched and none otherwise.  A request in the TCX format
    answers with no bytes before anything is looked up, so it never
    raises, even for an activity that does not exist.  An archive that
    is returned holds its member under a name without directory
    part. *)
Theorem download_reads_only self activityId dl_fmt w r w' :
  download_activity self activityId dl_fmt w = (r, w') →
  fs w' = fs w ∧
  (log w' = log w ∨ ∃ fn zn dl, log w' = log w ++ [LogMatched activityId fn zn dl]) ∧
  (dl_fmt = TCX → r = Ok NoBytes ∧ w' = w) ∧
  (∀ name data, r = Ok (ZipOf name data) → dl_fmt = ORIGINAL ∧ no_slash name = true).
Proof.
  unfold download_activity. destruct dl_fmt.
  - destruct (find_activity self activityId) as [act|].
    2:{ intros H. injection H as <- <-. split_and!; [done|by left|done|done]. }
    rewrite M_bind_run. unfold lift at 1.
    destruct (start_time_of act) as [T0|e].
    2:{ intros H. injection H as <- <-. split_and!; [done|by left|done|done]. }
    rewrite M_bind_run. unfold lift at 1.
    destruct (best_match_for self _) as [[[bm bd]|]|e].
    + unfold extract_match, logging_info, zip_load, get_fs, lift.
      rewrite !M_bind_run. cbn [fs log].
      destruct (files (fs w) !! zip_file_name bm) as [[j|z|]|].
      * intros H. injection H as <- <-. split_and!; [done|right; eauto|done|done].
      * cbn [mret M_ret]. rewrite M_bind_run.
        destruct (zip_open z (fit_file_name bm)) as [m|e].
        -- intros H. injection H as <- <-. split_and!; [done|right; eauto|done|].
           intros name data E. injection E as <- <-. split; [done|].
           apply last_component_no_slash.
        -- intros H. injection H as <- <-. split_and!; [done|right; eauto|done|done].
      * intros H. injection H as <- <-. split_and!; [done|right; eauto|done|done].
      * intros H. injection H as <- <-. split_and!; [done|right; eauto|done|done].
    + intros H. injection H as <- <-. split_and!; [done|by left|done|done].
    + intros H. injection H as <- <-. split_and!; [done|by left|done|done].
  - intros H. injection H as <- <-. split_and!; [done|by left|done|done].
Qed.


Lemma session_step_no_start acc s :
  is_session s = true → get_fields s !! "start_time" = None →
  session_step acc s = Err (KeyError "start_time").
Proof. unfold session_step, is_session. intros -> ->. reflexivity. Qed.

Lemma session_step_start acc m d :
  is_session m = true → get_fields m !! "start_time" = Some (FDate d) →
  session_step acc m = Ok (sport_of m, Some (replace_tzinfo d utc)).
Proof. unfold session_step, is_session, sport_of. intros -> ->. reflexivity. Qed.

(** Property X16.  A session message without [start_time] aborts the indexing of its
    file with [KeyError], whatever the messages after it hold, a later
    session with a start time included: the loop subscripts every
    session message. *)
Theorem session_without_start_aborts zp fn before s after :
  Forall (fun m => is_session m = true →
                   ∃ d, get_fields m !! "start_time" = Some (FDate d)) before →
  is_session s = true →
  get_fields s !! "start_time" = None →
  session_entry zp fn (before ++ s :: after) = Err (KeyError "start_time").
Proof.
  intros Hb Hs Hn. unfold session_entry.
  assert (G : ∀ acc, rfold session_step acc (before ++ s :: after) = Err (KeyError "start_time")).
  { induction Hb as [|m before Hm _ IH]; intros acc; cbn [app rfold].
    - by rewrite session_step_no_start.
    - destruct (is_session m) eqn:Em.
      + destruct (Hm eq_refl) as [d Hd]. rewrite (session_step_start _ _ d) by done.
        cbn [mbind result_bind rbind]. apply IH.
      + rewrite session_step_other by done. cbn [mbind result_bind rbind]. apply IH. }
  by rewrite G.
Qed.

Lemma update_app data nm l x :
  FitActivityImporter.update data (FitActivityImporter.Build_message nm (l ++ [x]))
  = <[x.1 := x.2]> (FitActivityImporter.update data (FitActivityImporter.Build_message nm l)).
Proof. unfold FitActivityImporter.update. cbn [FitActivityImporter.fields]. by rewrite foldl_snoc. Qed.

Lemma update_lookup data m k :
  FitActivityImporter.update data m !! k
  = match FitActivityImporter.update ∅ m !! k with
    | Some v => Some v
    | None => data !! k
    end.
Proof.
  destruct m as [nm l]. induction l as [|x l IH] using rev_ind.
  - unfold FitActivityImporter.update. cbn [FitActivityImporter.fields foldl].
    by rewrite lookup_empty.
  - rewrite !update_app. destruct (decide (x.1 = k)) as [<-|Hne].
    + by rewrite !lookup_insert_eq.
    + rewrite !lookup_insert_ne by done. exact IH.
Qed.

Lemma eqb_session_file_id s : String.eqb s "file_id" = true → String.eqb s "session" = false.
Proof. intros ->%String.eqb_eq. reflexivity. Qed.

Lemma collect_session_lookup msgs acc k :
  (foldl FitActivityImporter.collect_step acc msgs).1.2 !! k
  = match FitActivityImporter.last_field "session" k msgs with
    | Some v => Some v
    | None => acc.1.2 !! k
    end.
Proof.
  revert acc. induction msgs as [|m msgs IH]; intros acc; [reflexivity|].
  cbn [foldl FitActivityImporter.last_field]. rewrite IH.
  destruct (FitActivityImporter.last_field "session" k msgs); [reflexivity|].
  destruct acc as [[fd sd] ad]. unfold FitActivityImporter.collect_step.
  destruct (String.eqb (FitActivityImporter.name m) "file_id") eqn:Ef.
  - rewrite (eqb_session_file_id _ Ef). reflexivity.
  - destruct (String.eqb (FitActivityImporter.name m) "session") eqn:Es.
    + cbn [fst snd]. apply update_lookup.
    + destruct (String.eqb (FitActivityImporter.name m) "activity"); reflexivity.
Qed.

Lemma session_data_lookup msgs k :
  FitActivityImporter.session_data msgs !! k = FitActivityImporter.last_field "session" k msgs.
Proof.
  unfold FitActivityImporter.session_data, FitActivityImporter.collect.
  rewrite collect_session_lookup. cbn [fst snd]. rewrite lookup_empty.
  by destruct (FitActivityImporter.last_field _ _ _).
Qed.

Lemma collect_file_data msgs acc :
  (foldl FitActivityImporter.collect_step acc msgs).1.1
  = foldl FitActivityImporter.update acc.1.1 (List.filter is_file_id msgs).
Proof.
  revert acc. induction msgs as [|m msgs IH]; intros acc; [reflexivity|].
  cbn [foldl List.filter]. rewrite IH. destruct acc as [[fd sd] ad].
  unfold is_file_id, FitActivityImporter.collect_step.
  destruct (String.eqb (FitActivityImporter.name m) "file_id"); [reflexivity|].
  by destruct (String.eqb (FitActivityImporter.name m) "session"),
       (String.eqb (FitActivityImporter.name m) "activity").
Qed.

Lemma file_data_filter msgs :
  FitActivityImporter.file_data msgs
  = foldl FitActivityImporter.update ∅ (List.filter is_file_id msgs).
Proof. unfold FitActivityImporter.file_data, FitActivityImporter.collect. apply collect_file_data. Qed.

Lemma from_bytes_big_bound bs :
  0 <= FitActivityImporter.from_bytes_big bs < 256 ^ Z.of_nat (length bs).
Proof.
  unfold FitActivityImporter.from_bytes_big.
  induction bs as [|b bs IH] using rev_ind; [cbn; lia|].
  rewrite foldl_snoc, length_app. cbn [length].
  replace (Z.of_nat (length bs + 1)) with (Z.succ (Z.of_nat (length bs))) by lia.
  rewrite Z.pow_succ_r by lia.
  assert (Hb : 0 <= Z.of_N (Byte.to_N b) < 256).
  { pose proof (Byte.to_N_bounded b) as Hb. lia. }
  lia.
Qed.

Lemma activity_id_bound (bs : list Byte.byte) :
  0 <= FitActivityImporter.from_bytes_big (take 4 bs) < 2 ^ 32.
Proof.
  pose proof (from_bytes_big_bound (take 4 bs)) as H.
  assert (Hl : (length (take 4 bs) <= 4)%nat) by (rewrite length_take; lia).
  assert (256 ^ Z.of_nat (length (take 4 bs)) <= 256 ^ 4).
  { apply Z.pow_le_mono_r; lia. }
  change (2 ^ 32) with (256 ^ 4). lia.
Qed.

(** What [add_seconds] returns: a value [n] seconds later on the wall
    clock, with the time of day in range. *)
Lemma add_seconds_spec d n e :
  FitActivityImporter.add_seconds d n = FitActivityImporter.Return e →
  wall_us e = wall_us d + n * 1000000 ∧ tzinfo e = tzinfo d ∧
  1 <= toordinal e <= FitActivityImporter._MAXORDINAL ∧
  0 <= hour e <= 23 ∧ 0 <= minute e <= 59 ∧ 0 <= second e <= 59.
Proof.
  unfold FitActivityImporter.add_seconds. cbv zeta.
  set (total := toordinal d * 86400 + hour d * 3600 + minute d * 60 + second d + n).
  destruct (_ && _) eqn:Hr; [|intros H; discriminate H].
  apply andb_true_iff in Hr as [H0%Z.ltb_lt H1%Z.leb_le].
  destruct (ord2ymd_spec (total / 86400)) as (y & m & dd & -> & Ho & _).
  intros H. injection H as <-.
  unfold wall_us, toordinal. cbn [year month day hour minute second microsecond tzinfo].
  rewrite Ho. unfold FitActivityImporter._MAXORDINAL in *.
  assert (Et : total = _ymd2ord (year d) (month d) (day d) * 86400 + hour d * 3600
                       + minute d * 60 + second d + n) by reflexivity.
  clearbody total.
  split_and!; try reflexivity; Z.div_mod_to_equations; lia.
Qed.

(** What a call that returns has computed. *)
Lemma summary_return md5 db msgs id ty sp ep :
  FitActivityImporter.get_fit_activity_summary md5 db msgs
  = FitActivityImporter.Return (id, ty, sp, ep) →
  ∃ st sport n e,
    FitActivityImporter.session_data msgs !! "start_time" = Some (FitActivityImporter.VDate st) ∧
    default (FitActivityImporter.VStr "Unknown") (FitActivityImporter.session_data msgs !! "sport")
    = FitActivityImporter.VStr sport ∧
    FitActivityImporter.py_int
      (default (FitActivityImporter.VInt 0)
         (FitActivityImporter.session_data msgs !! "total_elapsed_time"))
    = FitActivityImporter.Return n ∧
    FitActivityImporter.add_seconds (replace_tzinfo st utc) n = FitActivityImporter.Return e ∧
    id = FitActivityImporter.from_bytes_big (take 4 (md5 (FitActivityImporter.file_data msgs))) ∧
    ty = FitActivityImporter.VStr sport ∧
    FitActivityImporter.time sp = isoformat (replace_tzinfo st utc) ∧
    FitActivityImporter.time ep = isoformat e ∧
    FitActivityImporter.tags sp
    = FitActivityImporter.point_tags db (FitActivityImporter.file_data msgs) id
        (FitActivityImporter.selector_prefix (replace_tzinfo st utc) +:+ sport) ∧
    FitActivityImporter.tags ep = FitActivityImporter.tags sp ∧
    FitActivityImporter.point_fields sp
    = FitActivityImporter.start_fields (FitActivityImporter.file_data msgs)
        (FitActivityImporter.session_data msgs) ty
        (FitActivityImporter.capitalize sport +:+ " " +:+ date_str (replace_tzinfo st utc))
        (default (FitActivityImporter.VInt 0)
           (FitActivityImporter.session_data msgs !! "total_elapsed_time"))
        (default (FitActivityImporter.VInt 0)
           (FitActivityImporter.session_data msgs !! "total_timer_time")) ∧
    FitActivityImporter.point_fields ep
    = FitActivityImporter.end_fields (FitActivityImporter.file_data msgs) id.
Proof.
  unfold FitActivityImporter.get_fit_activity_summary, FitActivityImporter.file_data,
    FitActivityImporter.session_data.
  destruct (FitActivityImporter.collect msgs) as [[fd sd] ad]. cbn [fst snd]. cbv zeta.
  destruct (sd !! "start_time") as [v|]; [|intros H; discriminate H].
  destruct v as [| | | | |st]; cbn [FitActivityImporter.replace_utc mbind
    FitActivityImporter.outcome_bind]; try (intros H; discriminate H).
  destruct (default _ (sd !! "sport")) as [| | | |sport|] eqn:Esp; try (intros H; discriminate H).
  destruct (FitActivityImporter.py_int _) as [n|] eqn:En; cbn [mbind
    FitActivityImporter.outcome_bind]; [|intros H; discriminate H].
  destruct (FitActivityImporter.add_seconds _ n) as [e|] eqn:Ee; cbn [mbind
    FitActivityImporter.outcome_bind]; [|intros H; discriminate H].
  intros H. injection H as <- <- <- <-. exists st, sport, n, e.
  cbn [FitActivityImporter.time FitActivityImporter.tags FitActivityImporter.point_fields].
  split_and!; reflexivity || assumption.
Qed.

(** Property X17.  A file without session start: the one [ValueError] of
    [get_fit_activity_summary] is raised exactly when no session
    message of the file has a [start_time] field. *)
Theorem summary_requires_start_time md5 db msgs :
  FitActivityImporter.get_fit_activity_summary md5 db msgs
  = FitActivityImporter.Raise (FitActivityImporter.Raised
      (ValueError "FIT file does not contain a session start_time"))
  ↔ FitActivityImporter.last_field "session" "start_time" msgs = None.
Proof.
  rewrite <- session_data_lookup.
  unfold FitActivityImporter.get_fit_activity_summary, FitActivityImporter.session_data.
  destruct (FitActivityImporter.collect msgs) as [[fd sd] ad]. cbn [fst snd]. cbv zeta.
  destruct (sd !! "start_time") as [v|]; [|done].
  split; [|intros H; discriminate H].
  destruct v as [| | | | |st]; cbn [FitActivityImporter.replace_utc mbind
    FitActivityImporter.outcome_bind]; try (intros H; discriminate H).
  destruct (default _ (sd !! "sport")) as [| | | |sport|]; try (intros H; discriminate H).
  destruct (FitActivityImporter.py_int _) as [n|e] eqn:En; cbn [mbind
    FitActivityImporter.outcome_bind].
  - destruct (FitActivityImporter.add_seconds _ n) as [e|e] eqn:Ee; cbn [mbind
      FitActivityImporter.outcome_bind]; [intros H; discriminate H|].
    revert Ee. unfold FitActivityImporter.add_seconds. cbv zeta.
    destruct (_ && _); [destruct (_ord2ymd _) as [[? ?] ?]|]; intros Ee; [discriminate Ee|].
    injection Ee as <-. intros H; discriminate H.
  - revert En. unfold FitActivityImporter.py_int.
    destruct (default _ _) as [| | | |s|]; try (intros H; discriminate H).
    + intros H. injection H as <-. intros H; discriminate H.
    + destruct (FitActivityImporter.int_of_str s); intros H; [discriminate H|].
      injection H as <-. intros H; discriminate H.
    + intros H. injection H as <-. intros H; discriminate H.
Qed.

(** Property X18.  The two points of a summary: when [get_fit_activity_summary]
    returns, the activity id is an unsigned 32-bit number, both points
    carry the same tags with that id, the start point is stamped with
    the session start read as UTC, and the end point with the instant
    [int(total_elapsed_time)] seconds later (0 seconds when the session
    has no elapsed time), a time of day in range, in UTC as well. *)
Theorem summary_points md5 db msgs id ty sp ep :
  FitActivityImporter.get_fit_activity_summary md5 db msgs
  = FitActivityImporter.Return (id, ty, sp, ep) →
  0 <= id < 2 ^ 32 ∧
  FitActivityImporter.tags ep = FitActivityImporter.tags sp ∧
  FitActivityImporter.tags sp !! "ActivityID" = Some (FitActivityImporter.VInt id) ∧
  FitActivityImporter.point_fields ep !! "ActivityID" = Some (FitActivityImporter.VInt id) ∧
  ∃ st n e,
    FitActivityImporter.last_field "session" "start_time" msgs
    = Some (FitActivityImporter.VDate st) ∧
    FitActivityImporter.py_int
      (default (FitActivityImporter.VInt 0)
         (FitActivityImporter.last_field "session" "total_elapsed_time" msgs))
    = FitActivityImporter.Return n ∧
    FitActivityImporter.time sp = isoformat (replace_tzinfo st utc) ∧
    FitActivityImporter.time ep = isoformat e ∧
    tzinfo e = utc ∧
    wall_us e = wall_us st + n * 1000000 ∧
    0 <= hour e <= 23 ∧ 0 <= minute e <= 59 ∧ 0 <= second e <= 59.
Proof.
  intros H.
  apply summary_return in H
    as (st & sport & n & e & Hst & _ & Hn & He & -> & _ & Hts & Hte & Htags & Heq & _ & Hef).
  apply add_seconds_spec in He as (Hw & Htz & _ & Hh & Hm & Hs).
  split; [apply activity_id_bound|]. split; [exact Heq|]. split_and!.
  - rewrite Htags. unfold FitActivityImporter.point_tags.
    rewrite !lookup_insert_ne by (intros E; discriminate E). apply lookup_insert_eq.
  - rewrite Hef. unfold FitActivityImporter.end_fields.
    rewrite !lookup_insert_ne by (intros E; discriminate E). apply lookup_insert_eq.
  - exists st, n, e. rewrite <- !session_data_lookup.
    split_and!; [exact Hst|exact Hn|exact Hts|exact Hte|exact Htz|exact Hw|lia..].
Qed.

(** Property X19.  The sport of a summary: a file whose sessions have a start time
    but no [sport] field is reported as ["Unknown"]; a [sport] field
    whose value is not a string (a [None], say) makes
    [get_fit_activity_summary] raise [AttributeError], where the bulk
    indexer skips such a session. *)
Theorem summary_sport md5 db msgs st :
  FitActivityImporter.last_field "session" "start_time" msgs
  = Some (FitActivityImporter.VDate st) →
  match FitActivityImporter.last_field "session" "sport" msgs with
  | None =>
      ∀ id ty sp ep,
        FitActivityImporter.get_fit_activity_summary md5 db msgs
        = FitActivityImporter.Return (id, ty, sp, ep) →
        ty = FitActivityImporter.VStr "Unknown" ∧
        FitActivityImporter.point_fields sp !! "activityName"
        = Some (FitActivityImporter.VStr ("Unknown " +:+ date_str st))
  | Some (FitActivityImporter.VStr sport) =>
      ∀ id ty sp ep,
        FitActivityImporter.get_fit_activity_summary md5 db msgs
        = FitActivityImporter.Return (id, ty, sp, ep) →
        ty = FitActivityImporter.VStr sport
  | Some _ =>
      FitActivityImporter.get_fit_activity_summary md5 db msgs
      = FitActivityImporter.Raise (FitActivityImporter.Raised
          (AttributeError "object has no attribute 'capitalize'"))
  end.
Proof.
  intros Hst. rewrite <- session_data_lookup in Hst. rewrite <- session_data_lookup.
  destruct (FitActivityImporter.session_data msgs !! "sport") as [v|] eqn:Esp.
  - destruct v as [| | | |sport|];
      try (revert Hst Esp;
           unfold FitActivityImporter.get_fit_activity_summary, FitActivityImporter.session_data;
           destruct (FitActivityImporter.collect msgs) as [[fd sd] ad]; cbn [fst snd]; cbv zeta;
           intros -> ->; reflexivity).
    intros id ty sp ep H.
    apply summary_return in H as (st' & sport' & _ & _ & _ & Hsp & _ & _ & _ & -> & _).
    rewrite Esp in Hsp. simpl in Hsp. by injection Hsp as <-.
  - intros id ty sp ep H.
    apply summary_return in H
      as (st' & sport' & _ & _ & Hst' & Hsp & _ & _ & _ & -> & _ & _ & _ & _ & Hf & _).
    rewrite Esp in Hsp. simpl in Hsp. injection Hsp as <-.
    rewrite Hst in Hst'. injection Hst' as <-. split; [reflexivity|].
    rewrite Hf. unfold FitActivityImporter.start_fields.
    rewrite !lookup_insert_ne by (intros E; discriminate E). by rewrite lookup_insert_eq.
Qed.

(** Property X20.  Sessions are merged: for a file with several session messages the
    summary takes every field from the last session message that has
    it, so the type, the distance and the start of a returned summary
    may come from different sessions. *)
Theorem summary_merges_sessions md5 db msgs id ty sp ep :
  FitActivityImporter.get_fit_activity_summary md5 db msgs
  = FitActivityImporter.Return (id, ty, sp, ep) →
  ty = default (FitActivityImporter.VStr "Unknown")
         (FitActivityImporter.last_field "session" "sport" msgs) ∧
  FitActivityImporter.point_fields sp !! "distance"
  = Some (default FitActivityImporter.VNone
            (FitActivityImporter.last_field "session" "total_distance" msgs)) ∧
  FitActivityImporter.point_fields sp !! "elapsedDuration"
  = Some (default (FitActivityImporter.VInt 0)
            (FitActivityImporter.last_field "session" "total_elapsed_time" msgs)) ∧
  ∃ st, FitActivityImporter.last_field "session" "start_time" msgs
        = Some (FitActivityImporter.VDate st) ∧
        FitActivityImporter.time sp = isoformat (replace_tzinfo st utc).
Proof.
  intros H.
  apply summary_return in H
    as (st & sport & _ & _ & Hst & Hsp & _ & _ & _ & -> & Hts & _ & _ & _ & Hf & _).
  rewrite <- !session_data_lookup. split_and!.
  - by rewrite Hsp.
  - rewrite Hf. unfold FitActivityImporter.start_fields, FitActivityImporter.dict_get.
    rewrite !lookup_insert_ne by (intros E; discriminate E). by rewrite lookup_insert_eq.
  - rewrite Hf. unfold FitActivityImporter.start_fields.
    rewrite !lookup_insert_ne by (intros E; discriminate E). by rewrite lookup_insert_eq.
  - by exists st.
Qed.

(** Property X21.  The activity id is a function of the [file_id] messages alone: two
    files with the same [file_id] messages get the same id, whatever
    their sessions and records are. *)
Theorem activity_id_of_file_id md5 db msgs1 msgs2 id1 ty1 sp1 ep1 id2 ty2 sp2 ep2 :
  List.filter is_file_id msgs1 = List.filter is_file_id msgs2 →
  FitActivityImporter.get_fit_activity_summary md5 db msgs1
  = FitActivityImporter.Return (id1, ty1, sp1, ep1) →
  FitActivityImporter.get_fit_activity_summary md5 db msgs2
  = FitActivityImporter.Return (id2, ty2, sp2, ep2) →
  id1 = id2 ∧
  FitActivityImporter.tags sp1 !! "Device" = FitActivityImporter.tags sp2 !! "Device" ∧
  FitActivityImporter.point_fields sp1 !! "Device_ID"
  = FitActivityImporter.point_fields sp2 !! "Device_ID".
Proof.
  intros Hf H1 H2.
  apply summary_return in H1
    as (? & ? & _ & _ & _ & _ & _ & _ & -> & _ & _ & _ & Ht1 & _ & Hf1 & _).
  apply summary_return in H2
    as (? & ? & _ & _ & _ & _ & _ & _ & -> & _ & _ & _ & Ht2 & _ & Hf2 & _).
  rewrite Ht1, Ht2, Hf1, Hf2. rewrite !file_data_filter, Hf. split_and!; [reflexivity| |].
  - unfold FitActivityImporter.point_tags. by rewrite !lookup_insert_eq.
  - unfold FitActivityImporter.start_fields. by rewrite !lookup_insert_eq.
Qed.

Lemma ex_init : __init__ "/e" ex_world = (Ok ex_self, ex_world_cached).
Proof. vm_compute; reflexivity. Qed.

Lemma ex_summary_returns msgs :
  (match FitActivityImporter.get_fit_activity_summary ex_digest "GarminStats" msgs with
   | FitActivityImporter.Return _ => true
   | FitActivityImporter.Raise _ => false
   end) = true →
  FitActivityImporter.get_fit_activity_summary ex_digest "GarminStats" msgs
  = FitActivityImporter.Return
      ((ex_summary msgs).1.1.1, (ex_summary msgs).1.1.2, (ex_summary msgs).1.2,
       (ex_summary msgs).2).
Proof.
  unfold ex_summary.
  destruct (FitActivityImporter.get_fit_activity_summary _ _ msgs) as [[[[? ?] ?] ?]|];
    [reflexivity|intros H; discriminate H].
Qed.





Lemma sleep_record_errors_witness :
  sleep_step ∅ (JObj ex_sleep)
  = Ok {["2024-01-01" := <["sleepEndTimestampGMT" := JNum 1704090600000]> ex_sleep]}
  ∧ rfold sleep_step ∅ [JObj ex_sleep; JObj ex_sleep]
    = Err (GarminBulkImporterError (dup_sleep_msg "2024-01-01"))
  ∧ sleep_step {["2024-01-01" := ex_sleep]} (JObj ex_sleep)
    = Err (GarminBulkImporterError (dup_sleep_msg "2024-01-01")).
Proof.
  assert (Hd : ex_sleep !! "calendarDate" = Some (JStr "2024-01-01"))
    by (vm_compute; reflexivity).
  assert (He : ex_sleep !! "sleepEndTimestampGMT" = Some (JStr "2024-01-01T06:30:00.0"))
    by (vm_compute; reflexivity).
  assert (Hn : (∅ : gmap string pydict) !! "2024-01-01" = None) by reflexivity.
  assert (Hs : is_Some (({["2024-01-01" := ex_sleep]} : gmap string pydict) !! "2024-01-01"))
    by (exists ex_sleep; vm_compute; reflexivity).
  pose proof (proj2 (proj1 (proj2 (sleep_record_errors ∅ ex_sleep "2024-01-01" Hd)) Hn)
                _ He) as R.
  change (iso_to_timestamp_ms "2024-01-01T06:30:00.0") with (@Ok Z 1704090600000) in R.
  destruct R as [R1 R2]. split_and!.
  - exact R1.
  - apply R2; [reflexivity|exact Hd].
  - exact (proj1 (sleep_record_errors _ ex_sleep "2024-01-01" Hd) Hs).
Defined.

Lemma facade_records_dated_witness :
  (∀ d r, sleep_stats ex_self !! d = Some r →
     dated d r ∧ (∃ ts, r !! "sleepEndTimestampGMT" = Some (JNum ts)) ∧
     get_sleep_data ex_self (JStr d) = Ok {["dailySleepDTO" := JObj r]}) ∧
  (∀ d r, agg_stats ex_self !! d = Some r → dated d r ∧ is_Some (r !! "sleepingSeconds")) ∧
  (∀ d r, hydration_stats ex_self !! d = Some r →
     dated d r ∧ get_hydration_data ex_self d = r) ∧
  (∀ d, Str.strip d ≠ d →
     get_sleep_data ex_self (JStr d) = Ok no_sleep_data ∧
     get_stats ex_self d = {["wellnessStartTimeGmt" := JNull]} ∧
     get_hydration_data ex_self d = ∅).
Proof.
  apply (facade_records_dated "/e" ex_world ex_self ex_world_cached).
  exact ex_init.
Defined.

Lemma padded_date_hides_sleep_witness :
  <["sleepingSeconds" := JNull]> ex_agg_padded !! "sleepingSeconds" = Some JNull
  ∧ Str.strip "2024-01-01 " = "2024-01-01"
  ∧ is_Some (sleep_stats ex_self_padded !! "2024-01-01").
Proof.
  assert (H : __init__ "/e" ex_world_padded
              = (Ok ex_self_padded, snd (__init__ "/e" ex_world_padded)))
    by (vm_compute; reflexivity).
  assert (Hr : agg_stats ex_self_padded !! "2024-01-01"
               = Some (<["sleepingSeconds" := JNull]> ex_agg_padded))
    by (vm_compute; reflexivity).
  assert (Hx : <["sleepingSeconds" := JNull]> ex_agg_padded !! "calendarDate"
               = Some (JStr "2024-01-01 "))
    by (vm_compute; reflexivity).
  assert (Hne : "2024-01-01 " ≠ "2024-01-01") by (intros E; discriminate E).
  destruct (padded_date_hides_sleep _ _ _ _ _ _ _ H Hr Hx Hne) as [R1 R2].
  split_and!; [exact R1|exact R2|].
  eexists. vm_compute; reflexivity.
Defined.

Lemma padded_date_replaces_silently_witness :
  agg_step ex_self ({["2024-01-01" := ex_agg]}, ∅) (JObj ex_agg_padded)
  = Ok (<["2024-01-01" := <["sleepingSeconds" := JNull]> ex_agg_padded]>
          {["2024-01-01" := ex_agg]}, ∅).
Proof.
  apply (padded_date_replaces_silently ex_self {["2024-01-01" := ex_agg]} ∅
           ex_agg_padded "2024-01-01 ").
  - intros k r [<- _]%lookup_singleton_Some. reflexivity.
  - apply sleep_inv_stripped. exact (proj1 (init_maps _ _ _ _ ex_init)).
  - vm_compute; reflexivity.
  - vm_compute; reflexivity.
  - intros E; discriminate E.
Defined.


Lemma construction_writes_only_cache_witness :
  (∀ q, q ≠ path_join "/e" CACHED_FIT_FILE_INDEX_FILENAME →
        files (fs ex_world_cached) !! q = files (fs ex_world) !! q) ∧
  (∀ d, tree (fs ex_world_cached) !! d = tree (fs ex_world) !! d
        ∨ ∃ l, tree (fs ex_world) !! d = Some l ∧
               (path_join "/e" CACHED_FIT_FILE_INDEX_FILENAME ∉ l) ∧
               tree (fs ex_world_cached) !! d
               = Some (l ++ [path_join "/e" CACHED_FIT_FILE_INDEX_FILENAME])) ∧
  ∃ lg, log ex_world_cached = log ex_world ++ lg.
Proof.
  apply (construction_writes_only_cache "/e" ex_world (Ok ex_self) ex_world_cached).
  exact ex_init.
Defined.

Lemma corrupt_recording_aborts_indexing_witness :
  index_file ex_zip_path ex_zip_corrupt "a/bad.FIT"
  = Err (RuntimeError ("Failed to parse FIT file: " +:+ "Invalid .FIT File Header")) ∧
  (∃ e lg, load_fit_file_index ex_self ex_world_corrupt
           = (Err e, {| fs := fs ex_world_corrupt; log := log ex_world_corrupt ++ lg |})) ∧
  (∀ fn', Str.endswith ".fit" (Str.lower fn') = false →
          index_file ex_zip_path ex_zip_corrupt fn' = Ok []).
Proof.
  apply (corrupt_recording_aborts_indexing ex_self ex_world_corrupt ex_zip_path ex_zip_corrupt
           "a/bad.FIT"
           {| member_bytes := "junk"; member_fit := FitParseError "Invalid .FIT File Header" |}
           "Invalid .FIT File Header").
  - apply (list_elem_of_lookup_2 _ 0%nat). vm_compute; reflexivity.
  - vm_compute; reflexivity.
  - apply (list_elem_of_lookup_2 _ 0%nat). vm_compute; reflexivity.
  - vm_compute; reflexivity.
  - vm_compute; reflexivity.
  - reflexivity.
Defined.

Lemma indexed_entries_extractable_witness :
  tzinfo (date (ex_entry 10 4 30 "running" "a/run.fit")) = utc ∧
  ∃ z m, files (fs ex_world_cached) !! ex_zip_path = Some (FileZip z) ∧
         zip_open z "a/run.fit" = Ok m ∧
         ∀ activityId d lg,
           extract_match activityId (ex_entry 10 4 30 "running" "a/run.fit") d
             {| fs := fs ex_world_cached; log := lg |}
           = (Ok (ZipOf (Str.last_component "a/run.fit") (member_bytes m)),
              {| fs := fs ex_world_cached;
                 log := lg ++ [LogMatched activityId "a/run.fit" ex_zip_path
                                 (Qnum d ÷ Z.pos (Qden d))] |}).
Proof.
  apply (indexed_entries_extractable "/e" ex_world ex_self ex_world_cached
           (ex_entry 10 4 30 "running" "a/run.fit")).
  - exact ex_init.
  - vm_compute; reflexivity.
  - apply (list_elem_of_lookup_2 _ 0%nat). vm_compute; reflexivity.
Defined.

Lemma naive_index_date_raises_witness :
  download_activity ex_self_naive 42 ORIGINAL ex_world
  = (Err (TypeError mixed_dates_msg), ex_world).
Proof.
  apply (naive_index_date_raises ex_self_naive 42 ex_last ex_start ex_entry_naive ex_world).
  - vm_compute; reflexivity.
  - vm_compute; reflexivity.
  - apply (list_elem_of_lookup_2 _ 1%nat). reflexivity.
  - reflexivity.
Defined.

Lemma download_reads_only_witness :
  fs (snd (download_activity ex_self 42 ORIGINAL ex_world_cached)) = fs ex_world_cached ∧
  (∀ name data,
     fst (download_activity ex_self 42 ORIGINAL ex_world_cached) = Ok (ZipOf name data) →
     no_slash name = true).
Proof.
  destruct (download_reads_only ex_self 42 ORIGINAL ex_world_cached
              (fst (download_activity ex_self 42 ORIGINAL ex_world_cached))
              (snd (download_activity ex_self 42 ORIGINAL ex_world_cached)))
    as (Hfs & _ & _ & Hz).
  - apply surjective_pairing.
  - split; [exact Hfs|]. intros name data E. exact (proj2 (Hz name data E)).
Defined.


Lemma session_without_start_aborts_witness :
  session_entry ex_zip_path "a/run.fit" (ex_run_msgs ++ ex_bare_session :: ex_late_msgs)
  = Err (KeyError "start_time").
Proof.
  apply (session_without_start_aborts ex_zip_path "a/run.fit" ex_run_msgs ex_bare_session
           ex_late_msgs).
  - constructor; [intros H; discriminate H|].
    constructor; [intros _; eexists; vm_compute; reflexivity|constructor].
  - reflexivity.
  - reflexivity.
Defined.

Lemma summary_points_witness :
  0 <= (ex_summary ex_fit).1.1.1 < 2 ^ 32 ∧
  FitActivityImporter.tags (ex_summary ex_fit).2
  = FitActivityImporter.tags (ex_summary ex_fit).1.2 ∧
  FitActivityImporter.time (ex_summary ex_fit).1.2 = "2024-01-01T23:59:30+00:00" ∧
  FitActivityImporter.time (ex_summary ex_fit).2 = "2024-01-02T00:00:31+00:00".
Proof.
  destruct (summary_points ex_digest "GarminStats" ex_fit _ _ _ _
              (ex_summary_returns ex_fit ltac:(vm_compute; reflexivity)))
    as (Hid & Ht & _).
  split; [exact Hid|]. split; [exact Ht|]. split; vm_compute; reflexivity.
Defined.

Lemma summary_sport_witness :
  FitActivityImporter.get_fit_activity_summary ex_digest "GarminStats" ex_fit_null_sport
  = FitActivityImporter.Raise (FitActivityImporter.Raised
      (AttributeError "object has no attribute 'capitalize'"))
  ∧ (ex_summary ex_fit_other).1.1.2 = FitActivityImporter.VStr "Unknown".
Proof.
  split.
  - exact (summary_sport ex_digest "GarminStats" ex_fit_null_sport ex_fit_start
             ltac:(vm_compute; reflexivity)).
  - exact (proj1 (summary_sport ex_digest "GarminStats" ex_fit_other ex_day
                    ltac:(vm_compute; reflexivity) _ _ _ _
                    (ex_summary_returns ex_fit_other ltac:(vm_compute; reflexivity)))).
Defined.

Lemma summary_merges_sessions_witness :
  (ex_summary ex_fit).1.1.2 = FitActivityImporter.VStr "running" ∧
  FitActivityImporter.point_fields (ex_summary ex_fit).1.2 !! "distance"
  = Some (FitActivityImporter.VInt 7000) ∧
  FitActivityImporter.point_fields (ex_summary ex_fit).1.2 !! "elapsedDuration"
  = Some (FitActivityImporter.VFloat (613 # 10)).
Proof.
  destruct (summary_merges_sessions ex_digest "GarminStats" ex_fit _ _ _ _
              (ex_summary_returns ex_fit ltac:(vm_compute; reflexivity)))
    as (H1 & H2 & H3 & _).
  split_and!; [exact H1|exact H2|exact H3].
Defined.

Lemma activity_id_of_file_id_witness :
  (ex_summary ex_fit).1.1.1 = (ex_summary ex_fit_other).1.1.1 ∧
  FitActivityImporter.tags (ex_summary ex_fit).1.2 !! "Device"
  = FitActivityImporter.tags (ex_summary ex_fit_other).1.2 !! "Device" ∧
  FitActivityImporter.point_fields (ex_summary ex_fit).1.2 !! "Device_ID"
  = FitActivityImporter.point_fields (ex_summary ex_fit_other).1.2 !! "Device_ID".
Proof.
  apply (activity_id_of_file_id ex_digest "GarminStats" ex_fit ex_fit_other
           _ (ex_summary ex_fit).1.1.2 _ (ex_summary ex_fit).2
           _ (ex_summary ex_fit_other).1.1.2 _ (ex_summary ex_fit_other).2).
  - reflexivity.
  - apply ex_summary_returns. vm_compute; reflexivity.
  - apply ex_summary_returns. vm_compute; reflexivity.
Defined.
